(** * Tic-Tac-Toe network server: a shallow embedding of [server.py]

    The server is a single-threaded selector loop.  Every readiness event
    runs one handler to completion, so a handler is modelled as a function
    from the server state to a new state, the list of messages written to
    sockets, and either a value or the Python exception that escaped.

    Conventions of the embedding:
    - a socket object is an opaque identifier ([sock], a natural number);
    - a Python [dict] is an association list in insertion order (the code
      depends on the order: [list(self.players.keys())[0]], the scans
      [for room in self.rooms.values()]);
    - [Room] objects are shared and mutated in place, so they live in an
      object store ([heap]) and the room directory holds references;
    - a message written is recorded as a [Send] event.  [sendall] on a
      socket that the server has closed raises [OSError]: the sockets
      closed so far are part of the state ([closed]), and the loops that
      write to the members of a room test every socket against them.
      A write to a socket that the server has not closed is assumed to
      succeed;
    - [bcrypt] is a collaborator taken as parameters: [checkpw], and
      [hashpw], which may raise.

    The functions of [client.py] that decode the server's messages and
    build the commands are embedded in [Module Client]. *)

From Stdlib Require Import ZArith Ascii String Lia.
From Stdlib Require DecimalString.
From stdpp Require Import base tactics option list strings.

Local Open Scope string_scope.
Local Open Scope list_scope.

(** ** Python built-ins used by the server, on ASCII strings *)

Module Py.

Definition LF : ascii := ascii_of_nat 10.
Definition nl : string := String LF EmptyString.

(** [str.isspace] on one ASCII character: TAB..CR, FS..US and space. *)
Definition is_space (c : ascii) : bool :=
  let n := nat_of_ascii c in
  ((9 <=? n)%nat && (n <=? 13)%nat) || ((28 <=? n)%nat && (n <=? 32)%nat).

Definition is_digit (c : ascii) : bool :=
  let n := nat_of_ascii c in (48 <=? n)%nat && (n <=? 57)%nat.

Definition is_upper (c : ascii) : bool :=
  let n := nat_of_ascii c in (65 <=? n)%nat && (n <=? 90)%nat.

Definition is_lower (c : ascii) : bool :=
  let n := nat_of_ascii c in (97 <=? n)%nat && (n <=? 122)%nat.

(** [c.isalnum()] for a character of an ASCII-decoded request. *)
Definition isalnum (c : ascii) : bool := is_digit c || is_upper c || is_lower c.

Fixpoint lstrip (s : string) : string :=
  match s with
  | EmptyString => EmptyString
  | String c s' => if is_space c then lstrip s' else s
  end.

Fixpoint rstrip (s : string) : string :=
  match s with
  | EmptyString => EmptyString
  | String c s' =>
      match rstrip s' with
      | EmptyString => if is_space c then EmptyString else String c EmptyString
      | r => String c r
      end
  end.

(** [s.strip()] *)
Definition strip (s : string) : string := rstrip (lstrip s).

(** [s.split(sep)] for a one-character separator: never the empty list. *)
Fixpoint split (sep : ascii) (s : string) : list string :=
  match s with
  | EmptyString => [EmptyString]
  | String c s' =>
      if Ascii.eqb c sep then EmptyString :: split sep s'
      else match split sep s' with
           | f :: fs => String c f :: fs
           | [] => [String c EmptyString]
           end
  end.

(** [sep.join(l)] *)
Definition join (sep : string) (l : list string) : string := String.concat sep l.

Definition upper_char (c : ascii) : ascii :=
  if is_lower c then ascii_of_nat (nat_of_ascii c - 32) else c.

(** [s.upper()] *)
Fixpoint upper (s : string) : string :=
  match s with
  | EmptyString => EmptyString
  | String c s' => String (upper_char c) (upper s')
  end.

(** [all(p(c) for c in s)] *)
Fixpoint all_chars (p : ascii -> bool) (s : string) : bool :=
  match s with
  | EmptyString => true
  | String c s' => p c && all_chars p s'
  end.

(** [c in s] for a single character [c]. *)
Fixpoint char_in (c : ascii) (s : string) : bool :=
  match s with
  | EmptyString => false
  | String d s' => Ascii.eqb c d || char_in c s'
  end.

(** The digits of a decimal literal; underscores may separate digits
    (never leading, trailing or doubled). *)
Fixpoint digits (acc : Z) (after_digit : bool) (s : string) : option Z :=
  match s with
  | EmptyString => if after_digit then Some acc else None
  | String c s' =>
      if is_digit c
      then digits (acc * 10 + Z.of_nat (nat_of_ascii c - 48)) true s'
      else if Ascii.eqb c "_"
           then (if after_digit then digits acc false s' else None)
           else None
  end.

(** The white space that [int] skips around a literal: TAB..CR and the
    space, not FS..US. *)
Definition is_int_space (c : ascii) : bool :=
  let n := nat_of_ascii c in
  ((9 <=? n)%nat && (n <=? 13)%nat) || (n =? 32)%nat.

Fixpoint int_lstrip (s : string) : string :=
  match s with
  | EmptyString => EmptyString
  | String c s' => if is_int_space c then int_lstrip s' else s
  end.

Fixpoint int_rstrip (s : string) : string :=
  match s with
  | EmptyString => EmptyString
  | String c s' =>
      match int_rstrip s' with
      | EmptyString => if is_int_space c then EmptyString else String c EmptyString
      | r => String c r
      end
  end.

(** The number of digits of a literal. *)
Fixpoint digit_count (s : string) : nat :=
  match s with
  | EmptyString => 0
  | String c s' => if is_digit c then S (digit_count s') else digit_count s'
  end.

(** [sys.get_int_max_str_digits()], as it is by default. *)
Definition int_max_str_digits : nat := 4300.

(** [int(s)]: surrounding white space is dropped, one sign is allowed, a
    literal of more than [int_max_str_digits] digits is refused; [None]
    stands for [ValueError]. *)
Definition int (s : string) : option Z :=
  let literal := int_rstrip (int_lstrip s) in
  if (int_max_str_digits <? digit_count literal)%nat then None
  else
    match literal with
    | String "+" r => digits 0 false r
    | String "-" r => Z.opp <$> digits 0 false r
    | t => digits 0 false t
    end.

(** Insertion into a list sorted by code points, and [sorted(l)]. *)
Fixpoint insert_sorted (x : string) (l : list string) : list string :=
  match l with
  | [] => [x]
  | y :: l' => if String.leb x y then x :: l else y :: insert_sorted x l'
  end.

Definition sorted (l : list string) : list string := foldr insert_sorted [] l.

(** [data.decode('ascii')] succeeds only on bytes below 128. *)
Definition is_ascii (s : string) : bool :=
  all_chars (fun c => (nat_of_ascii c <? 128)%nat) s.

End Py.

(** ** Insertion-ordered dictionaries *)

Module Dict.
Section Ops.
Context {K V : Type} `{EqDecision K}.

(** [d.get(k)] / [d[k]] ([None] stands for [KeyError]) *)
Fixpoint get (k : K) (d : list (K * V)) : option V :=
  match d with
  | [] => None
  | (k', v) :: d' => if decide (k = k') then Some v else get k d'
  end.

(** [k in d] *)
Definition has (k : K) (d : list (K * V)) : bool :=
  match get k d with Some _ => true | None => false end.

(** [d[k] = v]: an existing key keeps its position, a new key is
    appended. *)
Fixpoint set (k : K) (v : V) (d : list (K * V)) : list (K * V) :=
  match d with
  | [] => [(k, v)]
  | (k', v') :: d' =>
      if decide (k = k') then (k, v) :: d' else (k', v') :: set k v d'
  end.

(** [del d[k]] *)
Fixpoint del (k : K) (d : list (K * V)) : list (K * V) :=
  match d with
  | [] => []
  | (k', v') :: d' => if decide (k = k') then d' else (k', v') :: del k d'
  end.

Definition keys (d : list (K * V)) : list K := map fst d.
Definition values (d : list (K * V)) : list V := map snd d.
End Ops.
End Dict.

(** ** Data model *)

(** A socket object, compared by identity. *)
Definition sock : Type := nat.

(** A reference to a [Room] object. *)
Definition rid : Type := nat.

(** One entry of the user database: [{"username": ..., "password": ...}]. *)
Record User : Type := mkUser { username : string; password : string }.

(** The attributes of a [Room] object ([self.server] is the enclosing
    server; its [rooms] dictionary is threaded through [RoomCtx]). *)
Record Room : Type := mkRoom {
  name : string;
  players : list (sock * string);   (* {sock: username} *)
  viewers : list sock;
  board : list string;              (* ['0'] * 9 *)
  current_turn : option sock;
  finished : bool;
  last_move_index : option Z
}.

(** The attributes of [TicTacToeServer] that the handlers use. *)
Record Server : Type := mkServer {
  user_db : list User;
  authenticated_users : list (sock * string);   (* socket: username *)
  rooms : list (string * rid);                  (* room_name: Room object *)
  heap : list Room;                             (* the Room objects *)
  closed : list sock                            (* the sockets closed so far *)
}.

(** What a [Room] method sees: its own object, [self.server.rooms], and
    which sockets are closed. *)
Record RoomCtx : Type := mkCtx {
  self : Room;
  srv_rooms : list (string * rid);
  srv_closed : list sock
}.

Inductive exn : Type :=
| KeyError | IndexError | ValueError | UnicodeDecodeError
| OSError        (* [Errno 9] Bad file descriptor: a write to a closed socket *)
| DanglingRef.   (* a reference outside the store: cannot arise in Python *)

Inductive event : Type :=
| Send (to : sock) (msg : string)           (* to.sendall(msg) *)
| SaveDb (db : list User)                   (* save_user_database *)
| Unregister (s : sock)                     (* self.sel.unregister(s) *)
| Close (s : sock).                         (* s.close() *)

Inductive result (A : Type) : Type :=
| Ok (a : A)
| Raise (e : exn).
Arguments Ok {A} a.
Arguments Raise {A} e.

(** ** The handler monad: state, output and exceptions

    A raised exception keeps the state reached and the messages already
    sent, as in Python. *)

Definition M (St A : Type) : Type := St -> St * list event * result A.

Definition ret {St A} (a : A) : M St A := fun s => (s, [], Ok a).

Definition bind {St A B} (m : M St A) (f : A -> M St B) : M St B :=
  fun s =>
    match m s with
    | (s1, e1, Ok a) =>
        match f a s1 with
        | (s2, e2, r) => (s2, e1 ++ e2, r)
        end
    | (s1, e1, Raise e) => (s1, e1, Raise e)
    end.

Declare Scope py_scope.
Delimit Scope py_scope with py.
Notation "x <- m ;; k" := (bind m (fun x => k))
  (at level 100, m at next level, k at level 200, right associativity) : py_scope.
Notation "m ;; k" := (bind m (fun _ => k))
  (at level 100, k at level 200, right associativity) : py_scope.
Local Open Scope py_scope.

Definition raise {St A} (e : exn) : M St A := fun s => (s, [], Raise e).
Definition emit {St} (evs : list event) : M St unit := fun s => (s, evs, Ok tt).
(** [client_sock.sendall(msg)], for the socket that is being served: the
    selector reports registered sockets only and the server closes a
    socket after it has unregistered it, so this socket is open. *)
Definition sendall {St} (to : sock) (msg : string) : M St unit := emit [Send to msg].
Definition gets {St A} (f : St -> A) : M St A := fun s => (s, [], Ok (f s)).
Definition modify {St} (f : St -> St) : M St unit := fun s => (f s, [], Ok tt).

(** [o] is the value of a subscript; [None] raises [e]. *)
Definition subscript {St A} (e : exn) (o : option A) : M St A :=
  match o with Some a => ret a | None => raise e end.

(** [to.sendall(message)] for a member of a room.  The server may have
    closed the socket: [handle_client_disconnect] closes a socket and
    leaves it among the viewers of its rooms, and among the players of
    every room but the first it plays in. *)
Definition sendall_member (to : sock) (message : string) : M RoomCtx unit :=
  closed_socks <- gets srv_closed ;;
  if bool_decide (to ∈ closed_socks) then raise OSError else sendall to message.

(** [for to in socks: to.sendall(message)] *)
Fixpoint send_each (socks : list sock) (message : string) : M RoomCtx unit :=
  match socks with
  | [] => ret tt
  | to :: rest => sendall_member to message ;; send_each rest message
  end.

(** ** Field updates *)

Definition set_players (p : list (sock * string)) (r : Room) : Room :=
  mkRoom (name r) p (viewers r) (board r) (current_turn r) (finished r) (last_move_index r).
Definition set_viewers (v : list sock) (r : Room) : Room :=
  mkRoom (name r) (players r) v (board r) (current_turn r) (finished r) (last_move_index r).
Definition set_board (b : list string) (r : Room) : Room :=
  mkRoom (name r) (players r) (viewers r) b (current_turn r) (finished r) (last_move_index r).
Definition set_current_turn (t : option sock) (r : Room) : Room :=
  mkRoom (name r) (players r) (viewers r) (board r) t (finished r) (last_move_index r).
Definition set_finished (f : bool) (r : Room) : Room :=
  mkRoom (name r) (players r) (viewers r) (board r) (current_turn r) f (last_move_index r).

Definition this : M RoomCtx Room := gets self.
Definition update (f : Room -> Room) : M RoomCtx unit :=
  modify (fun c => mkCtx (f (self c)) (srv_rooms c) (srv_closed c)).

Definition lift {St A} (r : result A) : M St A :=
  match r with Ok a => ret a | Raise e => raise e end.

(** [l[i]] addressing: the position that index [i] denotes in a list of
    length [n], negative indices counting from the end; [None] stands for
    [IndexError]. *)
Definition py_index (n : nat) (i : Z) : option nat :=
  if ((0 <=? i) && (i <? Z.of_nat n))%Z then Some (Z.to_nat i)
  else if ((- Z.of_nat n <=? i) && (i <? 0))%Z then Some (Z.to_nat (i + Z.of_nat n))
  else None.

(** ** The [Room] class *)

(** [Room(name, server)] *)
Definition new_room (room_name : string) : Room :=
  mkRoom room_name [] [] (replicate 9 "0") None false None.

Definition is_full (r : Room) : bool := Nat.eqb (length (players r)) 2.

Definition has_player (r : Room) (client_sock : sock) : bool :=
  Dict.has client_sock (players r).

Definition get_opposing_player (r : Room) : result sock :=
  match List.filter (fun s => negb (bool_decide (Some s = current_turn r)))
                    (Dict.keys (players r)) with
  | s :: _ => Ok s
  | [] => Raise IndexError
  end.

Definition add_player (client_sock : sock) (uname : string) : M RoomCtx unit :=
  r <- this ;;
  if (length (players r) <? 2)%nat
  then update (set_players (Dict.set client_sock uname (players r)))
  else ret tt.

Definition start_game : M RoomCtx unit :=
  r <- this ;;
  if is_full r then
    first <- subscript IndexError (head (Dict.keys (players r))) ;;
    update (set_current_turn (Some first)) ;;
    match Dict.values (players r) with
    | [player1; player2] =>
        let message := "BEGIN:" +:+ player1 +:+ ":" +:+ player2 +:+ Py.nl in
        send_each (Dict.keys (players r)) message ;;
        send_each (viewers r) message
    | _ => raise ValueError
    end
  else ret tt.

Definition add_viewer (client_sock : sock) : M RoomCtx unit :=
  r <- this ;;
  update (set_viewers (viewers r ++ [client_sock])).

Definition broadcast_board_status : M RoomCtx unit :=
  r <- this ;;
  let board_status := Py.join "" (board r) in
  let message := "BOARDSTATUS:" +:+ board_status +:+ Py.nl in
  send_each (Dict.keys (players r)) message ;;
  send_each (viewers r) message ;;
  current_player <-
    subscript KeyError (current_turn r ≫= fun t => Dict.get t (players r)) ;;
  opp <- lift (get_opposing_player r) ;;
  next_player <- subscript KeyError (Dict.get opp (players r)) ;;
  ret tt.

Definition cleanup_room : M RoomCtx unit :=
  modify (fun c =>
            if Dict.has (name (self c)) (srv_rooms c)
            then mkCtx (self c) (Dict.del (name (self c)) (srv_rooms c)) (srv_closed c)
            else c) ;;
  update (set_players []) ;;
  update (set_viewers []).

(** Truth value of [winner], a [str] or [None]. *)
Definition truthy (winner : option string) : bool :=
  match winner with
  | Some (String _ _) => true
  | _ => false
  end.

(** [f"{winner}"] *)
Definition fmt (winner : option string) : string :=
  match winner with Some w => w | None => "None" end.

Definition game_end_message (board_status : string) (winner : option string)
           (forfeit : bool) : string :=
  if forfeit then "GAMEEND:" +:+ board_status +:+ ":2:" +:+ fmt winner +:+ Py.nl
  else if truthy winner then "GAMEEND:" +:+ board_status +:+ ":0:" +:+ fmt winner +:+ Py.nl
  else "GAMEEND:" +:+ board_status +:+ ":1" +:+ Py.nl.

Definition broadcast_game_end (winner : option string) (forfeit : bool)
  : M RoomCtx unit :=
  r <- this ;;
  let board_status := Py.join "" (board r) in
  let message := game_end_message board_status winner forfeit in
  send_each (Dict.keys (players r)) message ;;
  send_each (viewers r) message ;;
  update (set_finished true) ;;
  cleanup_room.

Definition forfeit_game (client_sock : sock) : M RoomCtx unit :=
  r <- this ;;
  if finished r then sendall client_sock ("GAMEEND" +:+ Py.nl)
  else
    winner_sock <- lift (get_opposing_player r) ;;
    winner <- subscript KeyError (Dict.get winner_sock (players r)) ;;
    broadcast_game_end (Some winner) true ;;
    update (set_finished true).

Definition win_positions : list (list nat) :=
  [ [0; 1; 2]; [3; 4; 5]; [6; 7; 8];    (* Rows *)
    [0; 3; 6]; [1; 4; 7]; [2; 5; 8];    (* Columns *)
    [0; 4; 8]; [2; 4; 6] ]%nat.         (* Diagonals *)

(** [all(self.board[i] == marker for i in positions)] *)
Fixpoint all_marked (b : list string) (marker : string) (positions : list nat)
  : result bool :=
  match positions with
  | [] => Ok true
  | i :: ps =>
      match b !! i with
      | None => Raise IndexError
      | Some c => if String.eqb c marker then all_marked b marker ps else Ok false
      end
  end.

Fixpoint any_line (b : list string) (marker : string) (lines : list (list nat))
  : result bool :=
  match lines with
  | [] => Ok false
  | positions :: lines' =>
      match all_marked b marker positions with
      | Raise e => Raise e
      | Ok true => Ok true
      | Ok false => any_line b marker lines'
      end
  end.

Definition check_winner (r : Room) (marker : string) : result bool :=
  any_line (board r) marker win_positions.

(** [int(args[i])] *)
Definition int_arg (args : list string) (i : nat) : M RoomCtx Z :=
  a <- subscript IndexError (args !! i) ;;
  subscript ValueError (Py.int a).

Definition place_marker (client_sock : sock) (args : list string) : M RoomCtx unit :=
  r <- this ;;
  if finished r then sendall client_sock ("GAMEEND" +:+ Py.nl)
  else if negb (bool_decide (Some client_sock = current_turn r))
  then broadcast_board_status
  else
    x <- int_arg args 0 ;;
    y <- int_arg args 1 ;;
    let index := (y * 3 + x)%Z in
    first <- subscript IndexError (head (Dict.keys (players r))) ;;
    let marker := if bool_decide (client_sock = first) then "1" else "2" in
    pos <- subscript IndexError (py_index (length (board r)) index) ;;
    update (set_board (<[pos := marker]> (board r))) ;;
    r <- this ;;
    won <- lift (check_winner r marker) ;;
    if won then
      winner <- subscript KeyError (Dict.get client_sock (players r)) ;;
      broadcast_game_end (Some winner) false ;;
      update (set_finished true)
    else if negb (existsb (String.eqb "0") (board r)) then
      broadcast_game_end None false ;;
      update (set_finished true)
    else
      broadcast_board_status ;;
      r <- this ;;
      opp <- lift (get_opposing_player r) ;;
      update (set_current_turn (Some opp)).

(** ** The [TicTacToeServer] class *)

Definition set_authenticated_users (a : list (sock * string)) (s : Server) : Server :=
  mkServer (user_db s) a (rooms s) (heap s) (closed s).
Definition set_user_db (d : list User) (s : Server) : Server :=
  mkServer d (authenticated_users s) (rooms s) (heap s) (closed s).
Definition set_rooms (d : list (string * rid)) (s : Server) : Server :=
  mkServer (user_db s) (authenticated_users s) d (heap s) (closed s).
Definition set_heap (h : list Room) (s : Server) : Server :=
  mkServer (user_db s) (authenticated_users s) (rooms s) h (closed s).
Definition set_closed (c : list sock) (s : Server) : Server :=
  mkServer (user_db s) (authenticated_users s) (rooms s) (heap s) c.

Definition server : M Server Server := gets id.

(** The object a reference denotes. *)
Definition room_at (l : rid) : M Server Room :=
  s <- server ;; subscript DanglingRef (heap s !! l).

(** A method call [room.m(...)]: the method runs on the object and on
    [self.server.rooms], and what it leaves is stored back.  A method
    closes no socket. *)
Definition call {A} (l : rid) (m : M RoomCtx A) : M Server A :=
  fun s =>
    match heap s !! l with
    | None => (s, [], Raise DanglingRef)
    | Some r =>
        match m (mkCtx r (rooms s) (closed s)) with
        | (c, evs, res) =>
            (set_heap (<[l := self c]> (heap s)) (set_rooms (srv_rooms c) s), evs, res)
        end
    end.

(** [for room in self.rooms.values(): if room.has_player(client_sock): ...]:
    the first room, in directory order, that has the socket as a player. *)
Fixpoint first_room_with (client_sock : sock) (refs : list rid) : M Server (option rid) :=
  match refs with
  | [] => ret None
  | l :: refs' =>
      r <- room_at l ;;
      if has_player r client_sock then ret (Some l)
      else first_room_with client_sock refs'
  end.

(** [[room.name for room in self.rooms.values() if (mode == 'PLAYER' and
    not room.is_full()) or mode == 'VIEWER']] *)
Fixpoint listed_rooms (mode : string) (refs : list rid) : M Server (list string) :=
  match refs with
  | [] => ret []
  | l :: refs' =>
      r <- room_at l ;;
      rest <- listed_rooms mode refs' ;;
      if (String.eqb mode "PLAYER" && negb (is_full r)) || String.eqb mode "VIEWER"
      then ret (name r :: rest) else ret rest
  end.

Definition is_mode (a : string) : bool :=
  String.eqb (Py.upper a) "PLAYER" || String.eqb (Py.upper a) "VIEWER".

Definition room_name_chars_ok (room_name : string) : bool :=
  Py.all_chars (fun c => Py.isalnum c || Py.char_in c "-_ ") room_name.

(** Never called by the server. *)
Definition is_valid_room_name (room_name : string) : bool :=
  if (20 <? String.length room_name)%nat || negb (room_name_chars_ok room_name)
  then false else true.

Section Handlers.

(** [bcrypt.checkpw(password, hashed)] *)
Variable checkpw : string -> string -> bool.
(** [bcrypt.hashpw(password, bcrypt.gensalt())]; [None] stands for the
    [ValueError] that it raises on a password it refuses (in bcrypt 5, one
    of more than 72 bytes). *)
Variable hashpw : string -> option string.

(** [client_sock.close()] *)
Definition close (client_sock : sock) : M Server unit :=
  emit [Close client_sock] ;;
  s <- server ;;
  modify (set_closed (client_sock :: closed s)).

Definition handle_client_disconnect (client_sock : sock) : M Server unit :=
  s <- server ;;
  found <- first_room_with client_sock (Dict.values (rooms s)) ;;
  match found with
  | Some l => call l (forfeit_game client_sock)
  | None => ret tt
  end ;;
  emit [Unregister client_sock] ;;
  close client_sock.

Definition handle_login (client_sock : sock) (args : list string) : M Server unit :=
  match args with
  | [uname; pw] =>
      s <- server ;;
      match List.find (fun u => String.eqb (username u) uname) (user_db s) with
      | Some user =>
          if checkpw pw (password user) then
            modify (set_authenticated_users
                      (Dict.set client_sock uname (authenticated_users s))) ;;
            sendall client_sock ("LOGIN:ACKSTATUS:0" +:+ Py.nl)
          else sendall client_sock ("LOGIN:ACKSTATUS:2" +:+ Py.nl)
      | None => sendall client_sock ("LOGIN:ACKSTATUS:1" +:+ Py.nl)
      end
  | _ => sendall client_sock ("LOGIN:ACKSTATUS:3" +:+ Py.nl)
  end.

Definition handle_register (client_sock : sock) (args : list string) : M Server unit :=
  match args with
  | [uname; pw] =>
      s <- server ;;
      if existsb (fun u => String.eqb (username u) uname) (user_db s)
      then sendall client_sock ("REGISTER:ACKSTATUS:1" +:+ Py.nl)
      else
        hashed <- subscript ValueError (hashpw pw) ;;
        let new_user := mkUser uname hashed in
        modify (set_user_db (user_db s ++ [new_user])) ;;
        emit [SaveDb (user_db s ++ [new_user])] ;;
        sendall client_sock ("REGISTER:ACKSTATUS:0" +:+ Py.nl)
  | _ => sendall client_sock ("REGISTER:ACKSTATUS:2" +:+ Py.nl)
  end.

Definition handle_roomlist (client_sock : sock) (args : list string) : M Server unit :=
  s <- server ;;
  if negb (Dict.has client_sock (authenticated_users s))
  then sendall client_sock ("BADAUTH" +:+ Py.nl)
  else
    match args with
    | [a] =>
        if is_mode a then
          let mode := Py.upper a in
          room_list <- listed_rooms mode (Dict.values (rooms s)) ;;
          let room_list_str := Py.join "," (Py.sorted room_list) in
          sendall client_sock ("ROOMLIST:ACKSTATUS:0:" +:+ room_list_str +:+ Py.nl)
        else sendall client_sock ("ROOMLIST:ACKSTATUS:1" +:+ Py.nl)
    | _ => sendall client_sock ("ROOMLIST:ACKSTATUS:1" +:+ Py.nl)
    end.

Definition handle_create_room (client_sock : sock) (args : list string) : M Server unit :=
  s <- server ;;
  if negb (Dict.has client_sock (authenticated_users s))
  then sendall client_sock ("BADAUTH" +:+ Py.nl)
  else
    match args with
    | [room_name] =>
        if negb (room_name_chars_ok room_name)
        then sendall client_sock ("CREATE:ACKSTATUS:1" +:+ Py.nl)
        else if Dict.has room_name (rooms s)
        then sendall client_sock ("CREATE:ACKSTATUS:2" +:+ Py.nl)
        else if (256 <=? length (rooms s))%nat
        then sendall client_sock ("CREATE:ACKSTATUS:3" +:+ Py.nl)
        else
          let l := length (heap s) in
          modify (set_heap (heap s ++ [new_room room_name])) ;;
          modify (set_rooms (Dict.set room_name l (rooms s))) ;;
          uname <- subscript KeyError (Dict.get client_sock (authenticated_users s)) ;;
          call l (add_player client_sock uname) ;;
          sendall client_sock ("CREATE:ACKSTATUS:0" +:+ Py.nl)
    | _ => sendall client_sock ("CREATE:ACKSTATUS:4" +:+ Py.nl)
    end.

Definition handle_join_room (client_sock : sock) (args : list string) : M Server unit :=
  s <- server ;;
  if negb (Dict.has client_sock (authenticated_users s))
  then sendall client_sock ("BADAUTH" +:+ Py.nl)
  else
    match args with
    | [room_name; mode] =>
        if negb (is_mode mode)
        then sendall client_sock ("JOIN:ACKSTATUS:3" +:+ Py.nl)
        else
          match Dict.get room_name (rooms s) with
          | None => sendall client_sock ("JOIN:ACKSTATUS:1" +:+ Py.nl)
          | Some l =>
              r <- room_at l ;;
              if String.eqb (Py.upper mode) "PLAYER" then
                if is_full r then sendall client_sock ("JOIN:ACKSTATUS:2" +:+ Py.nl)
                else
                  sendall client_sock ("JOIN:ACKSTATUS:0" +:+ Py.nl) ;;
                  uname <- subscript KeyError
                             (Dict.get client_sock (authenticated_users s)) ;;
                  call l (add_player client_sock uname) ;;
                  r <- room_at l ;;
                  if is_full r then call l start_game else ret tt
              else
                sendall client_sock ("JOIN:ACKSTATUS:0" +:+ Py.nl) ;;
                call l (add_viewer client_sock) ;;
                r <- room_at l ;;
                if is_full r then
                  current_turn_user <-
                    subscript KeyError
                      (current_turn r ≫= fun t => Dict.get t (players r)) ;;
                  opp <- lift (get_opposing_player r) ;;
                  opposing_user <- subscript KeyError (Dict.get opp (players r)) ;;
                  sendall client_sock
                    ("INPROGRESS:" +:+ current_turn_user +:+ ":" +:+ opposing_user +:+ Py.nl)
                else ret tt
          end
    | _ => sendall client_sock ("JOIN:ACKSTATUS:3" +:+ Py.nl)
    end.

Definition handle_place (client_sock : sock) (args : list string) : M Server unit :=
  s <- server ;;
  if negb (Dict.has client_sock (authenticated_users s))
  then sendall client_sock ("BADAUTH" +:+ Py.nl)
  else
    found <- first_room_with client_sock (Dict.values (rooms s)) ;;
    match found with
    | Some l => call l (place_marker client_sock args)
    | None => sendall client_sock ("NOROOM" +:+ Py.nl)
    end.

Definition handle_forfeit (client_sock : sock) : M Server unit :=
  s <- server ;;
  if negb (Dict.has client_sock (authenticated_users s))
  then sendall client_sock ("BADAUTH" +:+ Py.nl)
  else
    found <- first_room_with client_sock (Dict.values (rooms s)) ;;
    match found with
    | Some l => call l (forfeit_game client_sock)
    | None => sendall client_sock ("NOROOM" +:+ Py.nl)
    end.

(** [request.strip().split(":")] *)
Definition decode (request : string) : list string :=
  Py.split ":" (Py.strip request).

Definition dispatch (client_sock : sock) (command : list string) : M Server unit :=
  match command with
  | [] => raise IndexError
  | keyword :: args =>
      if String.eqb keyword "LOGIN" then handle_login client_sock args
      else if String.eqb keyword "REGISTER" then handle_register client_sock args
      else if String.eqb keyword "ROOMLIST" then handle_roomlist client_sock args
      else if String.eqb keyword "CREATE" then handle_create_room client_sock args
      else if String.eqb keyword "JOIN" then handle_join_room client_sock args
      else if String.eqb keyword "PLACE" then handle_place client_sock args
      else if String.eqb keyword "FORFEIT" then handle_forfeit client_sock
      else sendall client_sock ("Unknown command" +:+ Py.nl)
  end.

Definition process_request (client_sock : sock) (request : string) : M Server unit :=
  dispatch client_sock (decode request).

(** What [client_sock.recv(8192)] gave: bytes (none on an orderly
    shutdown) or [ConnectionResetError].  No write raises
    [ConnectionResetError], so the [except] clause of [handle_client]
    serves [recv] only. *)
Inductive recv : Type :=
| Data (data : string)
| Reset.

Definition handle_client (client_sock : sock) (got : recv) : M Server unit :=
  match got with
  | Data EmptyString => handle_client_disconnect client_sock
  | Data data =>
      if Py.is_ascii data then process_request client_sock data
      else raise UnicodeDecodeError
  | Reset => handle_client_disconnect client_sock
  end.

End Handlers.

(** * Observations, invariants and runs

    Definitions used to state the properties: what is read off a room,
    the invariants of the directory, runs of the event loop, and the
    concrete rooms and servers on which statements are exercised. *)

(** ** Observations on rooms *)

(** The three states of the specification, read off a [Room] object. *)
Inductive status : Type := Waiting | InProgress | Finished.

Definition room_status (r : Room) : status :=
  if finished r then Finished else if is_full r then InProgress else Waiting.

(** A match under way: two distinct players, the turn held by one of
    them, nine cells. *)
Definition in_progress (r : Room) : bool :=
  negb (finished r) && is_full r
  && bool_decide (NoDup (Dict.keys (players r)))
  && bool_decide (is_Some (current_turn r ≫= fun t => Dict.get t (players r)))
  && Nat.eqb (length (board r)) 9.

(** [marker] occupies one of the lines of [win_positions]. *)
Definition wins (b : list string) (marker : string) : bool :=
  existsb (forallb (fun i => bool_decide (b !! i = Some marker))) win_positions.
Arguments wins : simpl never.

(** No cell is ['0']. *)
Definition board_full (b : list string) : bool := negb (existsb (String.eqb "0") b).

(** The marker that [place_marker] writes for [client_sock]. *)
Definition marker_of (r : Room) (client_sock : sock) : string :=
  match head (Dict.keys (players r)) with
  | Some first => if bool_decide (client_sock = first) then "1" else "2"
  | None => "2"
  end.

Definition board_message (r : Room) : string :=
  "BOARDSTATUS:" +:+ Py.join "" (board r) +:+ Py.nl.

(** The message that a placement leading to the board of [r1] is
    answered with. *)
Definition placement_message (r1 : Room) (marker um : string) : string :=
  if wins (board r1) marker
  then game_end_message (Py.join "" (board r1)) (Some um) false
  else if board_full (board r1)
  then game_end_message (Py.join "" (board r1)) None false
  else board_message r1.

(** Those a room writes to: its players in join order, then its viewers
    in join order. *)
Definition audience (r : Room) : list sock := Dict.keys (players r) ++ viewers r.

(** One message to each of the audience, in order. *)
Definition broadcast (r : Room) (message : string) : list event :=
  map (fun to => Send to message) (audience r).

(** None of the audience of [r] is among the closed sockets [cl]. *)
Definition audience_open (cl : list sock) (r : Room) : bool :=
  forallb (fun p => negb (bool_decide (p ∈ cl))) (audience r).

(** The part of the audience that comes before the first closed socket. *)
Fixpoint before_closed (cl : list sock) (socks : list sock) : list sock :=
  match socks with
  | [] => []
  | to :: rest => if bool_decide (to ∈ cl) then [] else to :: before_closed cl rest
  end.

(** What [cleanup_room] leaves. *)
Definition after_cleanup (c : RoomCtx) : RoomCtx :=
  mkCtx (set_viewers [] (set_players [] (self c)))
        (if Dict.has (name (self c)) (srv_rooms c)
         then Dict.del (name (self c)) (srv_rooms c) else srv_rooms c)
        (srv_closed c).

(** What [broadcast_game_end] followed by [self.finished = True] leaves. *)
Definition ended (c : RoomCtx) : RoomCtx :=
  mkCtx (set_finished true (set_viewers [] (set_players [] (set_finished true (self c)))))
        (if Dict.has (name (self c)) (srv_rooms c)
         then Dict.del (name (self c)) (srv_rooms c) else srv_rooms c)
        (srv_closed c).

(** ** Concrete rooms and matches used to exercise the statements *)

(** A match under way between sockets 1 (user A, joined first) and 2
    (user B), watched by socket 3; it is the first player's turn. *)
Definition demo_room : Room :=
  mkRoom "Arena" [(1%nat, "A"); (2%nat, "B")] [3%nat]
         ["1"; "2"; "0"; "0"; "0"; "0"; "0"; "0"; "0"] (Some 1%nat) false None.

Definition demo_server : Server :=
  mkServer [mkUser "A" "pa"; mkUser "B" "pb"]
           [(1%nat, "A"); (2%nat, "B"); (3%nat, "A")]
           [("Arena", 0%nat)] [demo_room] [].



(** A stand-in for [bcrypt] in concrete runs: passwords are stored as they
    are, and one of more than 72 bytes is refused. *)
Definition plain_checkpw (pw hashed : string) : bool := String.eqb pw hashed.
Definition plain_hashpw (pw : string) : option string :=
  if (72 <? String.length pw)%nat then None else Some pw.

(** ** Runs of the server *)

(** The selector loop on a given sequence of readiness events: each ready
    socket is handled in turn; an exception that escapes a handler ends
    the loop. *)
Fixpoint play (inputs : list (sock * recv)) : M Server unit :=
  match inputs with
  | [] => ret tt
  | (client_sock, got) :: rest =>
      handle_client plain_checkpw plain_hashpw client_sock got ;; play rest
  end.

(** A server started on a database with users A and B. *)
Definition fresh_server : Server :=
  mkServer [mkUser "A" "pa"; mkUser "B" "pb"] [] [] [] [].

(** A (socket 1) creates Arena, B (socket 2) joins it as player. *)
Definition match_begun : list (sock * recv) :=
  [ (1%nat, Data "LOGIN:A:pa"); (2%nat, Data "LOGIN:B:pb");
    (1%nat, Data "CREATE:Arena"); (2%nat, Data "JOIN:Arena:PLAYER") ].

(** The match of [match_begun] with two viewers, sockets 3 and 4, who
    join in that order. *)
Definition match_watched : list (sock * recv) :=
  match_begun ++
  [ (3%nat, Data "LOGIN:A:pa"); (4%nat, Data "LOGIN:B:pb");
    (3%nat, Data "JOIN:Arena:VIEWER"); (4%nat, Data "JOIN:Arena:VIEWER") ].

(** The same, after which the first viewer disconnects. *)
Definition viewer_gone : list (sock * recv) := match_watched ++ [ (3%nat, Data "") ].

(** A (socket 1) creates Arena and waits; sockets 3 and 4 join as viewers,
    in that order. *)
Definition room_watched : list (sock * recv) :=
  [ (1%nat, Data "LOGIN:A:pa"); (2%nat, Data "LOGIN:B:pb");
    (3%nat, Data "LOGIN:A:pa"); (4%nat, Data "LOGIN:B:pb");
    (1%nat, Data "CREATE:Arena");
    (3%nat, Data "JOIN:Arena:VIEWER"); (4%nat, Data "JOIN:Arena:VIEWER") ].

(** The same, after which the first viewer disconnects, before the second
    player has joined. *)
Definition viewer_gone_early : list (sock * recv) := room_watched ++ [ (3%nat, Data "") ].

Definition state_after (inputs : list (sock * recv)) (s : Server) : Server :=
  fst (fst (play inputs s)).

Definition events_of {A} (o : Server * list event * result A) : list event := snd (fst o).
Definition outcome_of {A} (o : Server * list event * result A) : result A := snd o.

(** ** Winning lines and end of match *)

(** [marker] occupies the three cells of one of the winning lines. *)
Definition fills_triple (b : list string) (marker : string) : Prop :=
  exists line, line ∈ win_positions /\ forall i : nat, i ∈ line -> b !! i = Some marker.

(** A server whose database also has a user with the empty username, as
    REGISTER with an empty first field creates it. *)
Definition nameless_inputs : list (sock * recv) :=
  [ (1%nat, Data "REGISTER::pw"); (1%nat, Data "LOGIN::pw"); (2%nat, Data "LOGIN:B:pb");
    (1%nat, Data "CREATE:Arena"); (2%nat, Data "JOIN:Arena:PLAYER");
    (1%nat, Data "PLACE:0:0"); (2%nat, Data "PLACE:1:1");
    (1%nat, Data "PLACE:1:0"); (2%nat, Data "PLACE:2:2") ].

(** The match of [demo_room] with the first player registered under the
    empty username, one move before that player completes the top row. *)
Definition nameless_room : Room :=
  mkRoom "Arena" [(1%nat, ""); (2%nat, "B")] [3%nat]
         ["1"; "1"; "0"; "0"; "2"; "0"; "0"; "0"; "2"] (Some 1%nat) false None.

Definition named_room : Room :=
  mkRoom "Arena" [(1%nat, "A"); (2%nat, "B")] [3%nat]
         ["1"; "1"; "0"; "0"; "2"; "0"; "0"; "0"; "2"] (Some 1%nat) false None.

(** ** Framing of requests *)





(** ** Invariants of the room directory *)

(** A room waiting for its second player. *)
Definition waiting (r : Room) : Prop :=
  exists a ua, players r = [(a, ua)] /\ current_turn r = None.

(** What holds of every room the directory refers to. *)
Definition live (r : Room) : Prop :=
  finished r = false /\ length (board r) = 9%nat /\ (waiting r \/ in_progress r = true).

Record consistent (s : Server) : Prop := mkConsistent {
  keys_nodup : NoDup (Dict.keys (rooms s));
  refs_nodup : NoDup (Dict.values (rooms s));
  refs_live : forall n l, (n, l) ∈ rooms s ->
                          exists r, heap s !! l = Some r /\ name r = n /\ live r;
  players_known : forall n l r p, (n, l) ∈ rooms s -> heap s !! l = Some r ->
                                  p ∈ Dict.keys (players r) ->
                                  Dict.has p (authenticated_users s) = true
}.

(** How one handler may change the object store and the directory: objects
    outside the directory are left alone, and a reference that enters the
    directory is a new one. *)
Record evolves (s s' : Server) : Prop := mkEvolves {
  heap_grows : (length (heap s) <= length (heap s'))%nat;
  outside_kept : forall l r, heap s !! l = Some r -> l ∉ Dict.values (rooms s) ->
                             heap s' !! l = Some r;
  refs_fresh : forall l, l ∈ Dict.values (rooms s') ->
                         l ∈ Dict.values (rooms s) \/ (length (heap s) <= l)%nat;
  auth_kept : forall p, Dict.has p (authenticated_users s) = true ->
                        Dict.has p (authenticated_users s') = true;
  full_kept : forall l r r', heap s !! l = Some r -> is_full r = true ->
                             l ∈ Dict.values (rooms s') -> heap s' !! l = Some r' ->
                             players r' = players r
}.

(** The directory once [cleanup_room] has run for [r]. *)
Definition dropped (r : Room) (d : list (string * rid)) : list (string * rid) :=
  if Dict.has (name r) d then Dict.del (name r) d else d.

(** ** Runs of the event loop *)

Section Runs.

Variable checkpw : string -> string -> bool.
Variable hashpw : string -> option string.

(** [runs_to s s']: the loop takes the server from [s] to [s'] by serving
    readiness events, none of which raises. *)
Inductive runs_to : Server -> Server -> Prop :=
| runs_refl s : runs_to s s
| runs_step s s1 s2 client_sock got evs :
    runs_to s s1 ->
    handle_client checkpw hashpw client_sock got s1 = (s2, evs, Ok tt) ->
    runs_to s s2.

(** A server started on a user database, after any number of events. *)
Definition reachable (s : Server) : Prop :=
  exists db, runs_to (mkServer db [] [] [] []) s.

End Runs.

(** ** Relations kept by the handlers

    Properties of everything a handler may do are stated as relations
    between the state before, the state after and the events produced. *)

(** [m] keeps to [R]: from whatever state it is run, the state it leaves
    and the events it produces are related to the state it started from by
    [R], also when it raises. *)
Definition keeps {St A} (R : St -> St -> list event -> Prop) (m : M St A) : Prop :=
  forall s, R s (fst (fst (m s))) (snd (fst (m s))).

(** A message ends with a newline. *)
Fixpoint ends_with_newline (message : string) : bool :=
  match message with
  | EmptyString => false
  | String c EmptyString => Ascii.eqb c Py.LF
  | String _ rest => ends_with_newline rest
  end.

(** The messages that the server writes as they stand, before the
    newline. *)
Definition literal_messages : list string :=
  [ "LOGIN:ACKSTATUS:0"; "LOGIN:ACKSTATUS:1"; "LOGIN:ACKSTATUS:2"; "LOGIN:ACKSTATUS:3";
    "REGISTER:ACKSTATUS:0"; "REGISTER:ACKSTATUS:1"; "REGISTER:ACKSTATUS:2";
    "ROOMLIST:ACKSTATUS:1";
    "CREATE:ACKSTATUS:0"; "CREATE:ACKSTATUS:1"; "CREATE:ACKSTATUS:2"; "CREATE:ACKSTATUS:3";
    "CREATE:ACKSTATUS:4";
    "JOIN:ACKSTATUS:0"; "JOIN:ACKSTATUS:1"; "JOIN:ACKSTATUS:2"; "JOIN:ACKSTATUS:3";
    "BADAUTH"; "NOROOM"; "GAMEEND"; "Unknown command" ].

(** The vocabulary of the server: the forms of the messages it writes. *)
Inductive server_message : string -> Prop :=
| msg_literal message :
    message ∈ literal_messages -> server_message (message +:+ Py.nl)
| msg_roomlist room_list_str :
    server_message ("ROOMLIST:ACKSTATUS:0:" +:+ room_list_str +:+ Py.nl)
| msg_begin player1 player2 :
    server_message ("BEGIN:" +:+ player1 +:+ ":" +:+ player2 +:+ Py.nl)
| msg_inprogress current_turn_user opposing_user :
    server_message ("INPROGRESS:" +:+ current_turn_user +:+ ":" +:+ opposing_user +:+ Py.nl)
| msg_boardstatus board_status :
    server_message ("BOARDSTATUS:" +:+ board_status +:+ Py.nl)
| msg_gameend board_status winner forfeit :
    server_message (game_end_message board_status winner forfeit).

Definition spoken (e : event) : Prop :=
  match e with
  | Send _ message => server_message message
  | _ => True
  end.

(** Every message among the events is of the server's vocabulary. *)
Definition all_spoken {St} (_ _ : St) (evs : list event) : Prop := Forall spoken evs.

(** The accounts are left alone. *)
Definition accounts_kept (s s' : Server) (_ : list event) : Prop :=
  user_db s' = user_db s /\ authenticated_users s' = authenticated_users s.

(** The names of the records of the user database. *)
Definition usernames (db : list User) : list string := map username db.

(** What one event may do to the accounts: REGISTER appends one record
    with a name the database did not hold; LOGIN binds the requesting
    socket to a registered name. *)
Definition accounts_step (client_sock : sock) (s s' : Server) : Prop :=
  (user_db s' = user_db s
   \/ exists uname hashed, (uname ∉ usernames (user_db s))
                           /\ user_db s' = user_db s ++ [mkUser uname hashed])
  /\ (authenticated_users s' = authenticated_users s
      \/ exists uname, uname ∈ usernames (user_db s)
                       /\ authenticated_users s'
                          = Dict.set client_sock uname (authenticated_users s)).

(** A board on which the match goes on: nine cells, each free or holding
    a marker, no line held by either marker, and a free cell left. *)
Definition open_board (b : list string) : Prop :=
  length b = 9%nat
  /\ Forall (fun cell => cell ∈ ["0"; "1"; "2"]) b
  /\ wins b "1" = false /\ wins b "2" = false
  /\ board_full b = false.

(** The directory is within its capacity and the boards of its rooms are
    open. *)
Definition sound (s : Server) : Prop :=
  (length (rooms s) <= 256)%nat
  /\ forall n l r, (n, l) ∈ rooms s -> heap s !! l = Some r -> open_board (board r).

(** The directory and the boards are left alone. *)
Definition boards_kept (s s' : Server) (_ : list event) : Prop :=
  rooms s' = rooms s
  /\ forall l : rid, board <$> (heap s' !! l) = board <$> (heap s !! l).

Definition board_kept (c c' : RoomCtx) (_ : list event) : Prop :=
  srv_rooms c' = srv_rooms c /\ board (self c') = board (self c).

(** Each element is at most the next one, by code points. *)
Fixpoint ascending (l : list string) : bool :=
  match l with
  | x :: (y :: _) as rest => String.leb x y && ascending rest
  | _ => true
  end.

(** * The client: a shallow embedding of [handle_response] of [client.py]

    The receiving thread passes every chunk it reads to [handle_response],
    which prints lines and may set the flag [game_ended].  A call is
    modelled as a function from the module's globals to the new globals,
    the lines printed (one per [print]) and either a value or the
    exception that escaped. *)

Module Client.

(** The module's globals. *)
Record Globals : Type := mkGlobals {
  username : option string;
  game_ended : bool;
  client_exit : bool;
  is_viewer : bool;
  game_end_received : bool          (* the [threading.Event] *)
}.

Definition set_game_ended (cl : Globals) : Globals :=
  mkGlobals (username cl) true (client_exit cl) (is_viewer cl) (game_end_received cl).
Definition set_game_end_received (cl : Globals) : Globals :=
  mkGlobals (username cl) (game_ended cl) (client_exit cl) (is_viewer cl) true.

(** The chain [if status_code == k1: print(l1) elif status_code == k2: ...]
    with no [else]: the line of the first key equal to the status code, or
    nothing. *)
Definition status_line (status_code : string) (table : list (string * string))
  : list string :=
  match Dict.get status_code table with
  | Some line => [line]
  | None => []
  end.

(** [s.replace(c, '')] for a one-character [c]. *)
Fixpoint remove_char (c : ascii) (s : string) : string :=
  match s with
  | EmptyString => EmptyString
  | String d s' => if Ascii.eqb d c then remove_char c s' else String d (remove_char c s')
  end.

(** [' | '.join(cell if cell != '0' else ' ' for cell in row)] *)
Definition formatted_row (row : string) : string :=
  Py.join " | " (map (fun cell : ascii => if Ascii.eqb cell "0" then " " else String cell "")
                     (list_ascii_of_string row)).

(** The lines printed by [for i in range(0, 9, 3): ...]. *)
Definition board_lines (board_status : string) : list string :=
  flat_map (fun i => (" " +:+ formatted_row (String.substring i 3 board_status) +:+ " ")
                     :: (if (i <? 6)%nat then ["-----------"] else []))
           [0; 3; 6]%nat.

Definition turn_line (board_status : string) : string :=
  if Nat.eqb (String.length (remove_char "0" board_status) mod 2) 0
  then Py.nl +:+ "It is your turn."
  else Py.nl +:+ "It is the opposing player's turn.".

Definition handle_response (response : string) (cl : Globals)
  : Globals * list string * result unit :=
  if String.prefix "LOGIN:ACKSTATUS:" response then
    match Py.split ":" response !! 2%nat with
    | None => (cl, [], Raise IndexError)
    | Some status_code =>
        (cl, status_line status_code
               [ ("0", "Login successful.");
                 ("1", "Error: Username not found.");
                 ("2", "Error: Incorrect password.");
                 ("3", "Error: Missing username or password.") ], Ok tt)
    end
  else if String.prefix "REGISTER:ACKSTATUS:" response then
    match Py.split ":" response !! 2%nat with
    | None => (cl, [], Raise IndexError)
    | Some status_code =>
        (cl, status_line status_code
               [ ("0", "Registration successful.");
                 ("1", "Error: Username already exists.");
                 ("2", "Error: Missing username or password.");
                 ("3", "Error: Password is too short (minimum 6 characters).");
                 ("4", "Error: Username and password must be alphanumeric.") ], Ok tt)
    end
  else if String.prefix "ROOMLIST:ACKSTATUS:" response then
    let parts := Py.split ":" response in
    match parts !! 2%nat with
    | None => (cl, [], Raise IndexError)
    | Some status_code =>
        if String.eqb status_code "0" then
          let room_list := match parts !! 3%nat with
                           | Some names => Py.split "," names
                           | None => []
                           end in
          (cl, "Available rooms:" :: room_list, Ok tt)
        else if String.eqb status_code "1" then
          (cl, ["Error: Invalid mode for room list."], Ok tt)
        else (cl, [], Ok tt)
    end
  else if String.prefix "CREATE:ACKSTATUS:" response then
    match Py.split ":" response !! 2%nat with
    | None => (cl, [], Raise IndexError)
    | Some status_code =>
        (cl, status_line status_code
               [ ("0", "Room created successfully.");
                 ("1", "Error: Invalid room name.");
                 ("2", "Error: Room name already exists.");
                 ("3", "Error: Maximum number of rooms reached.") ], Ok tt)
    end
  else if String.prefix "JOIN:ACKSTATUS:" response then
    match Py.split ":" response !! 2%nat with
    | None => (cl, [], Raise IndexError)
    | Some status_code =>
        (cl, status_line status_code
               [ ("0", "Joined room successfully.");
                 ("1", "Error: Room does not exist.");
                 ("2", "Error: Room is full.");
                 ("3", "Error: Invalid mode.");
                 ("4", "Error: You are already in the room.") ], Ok tt)
    end
  else if String.prefix "BOARDSTATUS:" response then
    match Py.split ":" response !! 1%nat with
    | None => (cl, [], Raise IndexError)
    | Some board_status =>
        (cl, "Current board status:" :: board_lines board_status
             ++ (if is_viewer cl then [] else [turn_line board_status]), Ok tt)
    end
  else if String.prefix "GAMEEND:" response then
    let parts := Py.split ":" response in
    match parts !! 1%nat with
    | None => (cl, [], Raise IndexError)
    | Some board_status =>
        match parts !! 2%nat with
        | None => (cl, [], Raise IndexError)
        | Some code =>
            match Py.int code with
            | None => (cl, [], Raise ValueError)
            | Some status_code =>
                let ended := set_game_end_received (set_game_ended cl) in
                let closing := "Game has ended. You can start a new game or quit." in
                if (status_code =? 0)%Z then
                  match parts !! 3%nat with
                  | None => (cl, [], Raise IndexError)
                  | Some winner =>
                      (ended, ["Game ended. " +:+ winner +:+ " won!"; closing], Ok tt)
                  end
                else if (status_code =? 1)%Z then
                  (ended, ["Game ended in a draw."; closing], Ok tt)
                else if (status_code =? 2)%Z then
                  match parts !! 3%nat with
                  | None => (cl, [], Raise IndexError)
                  | Some winner =>
                      (ended, ["Game ended. " +:+ winner
                               +:+ " won due to the opposing player forfeiting."; closing],
                       Ok tt)
                  end
                else (ended, [closing], Ok tt)
            end
        end
    end
  else if String.eqb response "BADAUTH" then
    (cl, ["Error: You must be logged in to perform this action."], Ok tt)
  else if String.eqb response "NOROOM" then
    (cl, ["Error: You are not currently in a room."], Ok tt)
  else (cl, ["Received: " +:+ response], Ok tt).

(** *** The command loop of [main]

    One iteration of [while not client_exit] is a function of the lines
    still to be read from standard input and of the globals; it gives
    the lines left, the new globals, what was printed, sent or waited
    for, and how the iteration ended.  The prompts that [input] writes
    are not recorded, and the lines typed are taken to be ASCII. *)







End Client.

(** The acknowledgements whose status the client decodes with a chain of
    comparisons. *)
Definition is_acknowledgement (message : string) : bool :=
  String.prefix "LOGIN:ACKSTATUS:" message || String.prefix "REGISTER:ACKSTATUS:" message
  || String.prefix "CREATE:ACKSTATUS:" message || String.prefix "JOIN:ACKSTATUS:" message.

(** No colon in a field. *)
Definition colon_free (field : string) : bool :=
  Py.all_chars (fun c => negb (Ascii.eqb c ":")) field.

(** ** Chunks of commands *)







(** * Properties *)

(** ** The built-ins on examples *)

Example strip_ex : Py.strip (" PLACE:1:2 " ++ Py.nl) = "PLACE:1:2".
Proof. reflexivity. Qed.

Example split_ex : Py.split ":" "PLACE:1:2" = ["PLACE"; "1"; "2"].
Proof. reflexivity. Qed.

Example split_empty_ex : Py.split ":" "CREATE:" = ["CREATE"; ""].
Proof. reflexivity. Qed.

Example int_ex : Py.int " -1_0 " = Some (-10)%Z /\ Py.int "a" = None /\ Py.int "" = None
                 /\ Py.int "2" = Some 2%Z /\ Py.int "1__0" = None /\ Py.int "+07" = Some 7%Z.
Proof. repeat split; reflexivity. Qed.

(** [int] skips TAB, LF, VT, FF, CR and the space, which [strip] skips
    too, but not FS, GS, RS and US, which [strip] skips. *)
Example int_space_ex :
  Py.int (String (ascii_of_nat 9) "1" +:+ Py.nl) = Some 1%Z
  /\ Py.int ("1" +:+ String (ascii_of_nat 28) "") = None
  /\ Py.int (String (ascii_of_nat 31) "1") = None
  /\ Py.strip ("1" +:+ String (ascii_of_nat 28) "") = "1"
  /\ Py.int (Py.strip ("1" +:+ String (ascii_of_nat 28) "")) = Some 1%Z.
Proof. repeat split; reflexivity. Qed.

(** A literal of 4300 digits is converted, one of 4301 is refused;
    underscores and the sign are not counted. *)
Example int_limit_ex :
  let ones n := string_of_list_ascii (repeat "1"%char n) in
  is_Some (Py.int (ones 4300)) /\ Py.int (ones 4301) = None
  /\ is_Some (Py.int ("-1_" +:+ ones 4299)) /\ Py.int ("0" +:+ ones 4300) = None.
Proof.
  cbv zeta. repeat split; try (vm_compute; reflexivity);
    apply (bool_decide_unpack _); vm_compute; exact I.
Qed.

Example sorted_ex : Py.sorted ["b"; "a"; "B"; "ab"] = ["B"; "a"; "ab"; "b"].
Proof. reflexivity. Qed.

Arguments cleanup_room : simpl never.
Arguments broadcast_game_end : simpl never.
Arguments broadcast_board_status : simpl never.
Arguments get_opposing_player : simpl never.
Arguments check_winner : simpl never.
Arguments game_end_message : simpl never.
Arguments place_marker : simpl never.
Arguments forfeit_game : simpl never.
Arguments Py.join : simpl never.
Arguments Py.int : simpl never.
Arguments Py.upper : simpl never.
Arguments py_index : simpl never.
Arguments String.append : simpl never.
Arguments String.eqb : simpl never.

(** Unfolds the monad's operations and computes. *)
Ltac run :=
  unfold bind, this, server, gets, emit, update, modify, sendall, ret, raise,
    subscript, lift; cbn.

(** ** Room methods, step by step *)

Lemma in_progress_inv r :
  in_progress r = true ->
  exists a ua b ub,
    players r = [(a, ua); (b, ub)] /\ a <> b /\
    (current_turn r = Some a \/ current_turn r = Some b) /\
    finished r = false /\ length (board r) = 9%nat.
Proof.
  unfold in_progress, is_full. intros H.
  repeat (apply andb_prop in H as [H ?]).
  destruct (players r) as [|[a ua] [|[b ub] [|? ?]]] eqn:Hp; try discriminate.
  exists a, ua, b, ub.
  apply bool_decide_eq_true in H1, H2. cbn in H2.
  apply NoDup_cons in H2 as [Hab _].
  split; [done|]. split; [intros ->; apply Hab; constructor|].
  split.
  - destruct H1 as [u Hu]. destruct (current_turn r) as [t|]; [|done]. cbn in Hu.
    repeat case_decide; subst; auto. done.
  - split.
    + by destruct (finished r).
    + by apply Nat.eqb_eq.
Qed.

Lemma in_progress_intro r a ua b ub :
  players r = [(a, ua); (b, ub)] -> a <> b ->
  current_turn r = Some a \/ current_turn r = Some b ->
  finished r = false -> length (board r) = 9%nat ->
  in_progress r = true.
Proof.
  intros Hp Hab Ht Hf Hlen. unfold in_progress, is_full.
  rewrite Hf, Hp, Hlen. cbn.
  rewrite bool_decide_eq_true_2.
  - rewrite bool_decide_eq_true_2; [done|].
    destruct Ht as [-> | ->]; cbn.
    + rewrite decide_True by done. by eexists.
    + rewrite decide_False by congruence. rewrite decide_True by done. by eexists.
  - apply NoDup_cons. split.
    + intros H. apply list_elem_of_singleton in H. done.
    + apply NoDup_singleton.
Qed.

Lemma cleanup_room_run c : cleanup_room c = (after_cleanup c, [], Ok tt).
Proof.
  unfold cleanup_room, after_cleanup. run.
  destruct c as [r d cl]. cbn. destruct (Dict.has (name r) d); reflexivity.
Qed.

(** *** Writing to the members of a room *)

Arguments send_each : simpl never.

(** A loop of writes stops at the first closed socket, with [OSError]. *)
Lemma send_each_run socks message c :
  send_each socks message c
  = (c, map (fun to => Send to message) (before_closed (srv_closed c) socks),
     if forallb (fun p => negb (bool_decide (p ∈ srv_closed c))) socks
     then Ok tt else Raise OSError).
Proof.
  induction socks as [|to rest IH]; [done|].
  change (send_each (to :: rest) message)
    with (sendall_member to message ;; send_each rest message).
  unfold sendall_member. run. case_bool_decide; cbn; [done|].
  rewrite IH. cbn. done.
Qed.

Lemma before_closed_open cl socks :
  forallb (fun p => negb (bool_decide (p ∈ cl))) socks = true ->
  before_closed cl socks = socks.
Proof.
  induction socks as [|to rest IH]; [done|]. cbn. intros Hopen.
  apply andb_prop in Hopen as [Hto Hrest]. apply negb_true_iff in Hto.
  rewrite Hto. f_equal. by apply IH.
Qed.

Lemma send_each_then {A} socks message (k : M RoomCtx A) c :
  (send_each socks message ;; k) c
  = if forallb (fun p => negb (bool_decide (p ∈ srv_closed c))) socks
    then (fst (fst (k c)), map (fun to => Send to message) socks ++ snd (fst (k c)),
          snd (k c))
    else (c, map (fun to => Send to message) (before_closed (srv_closed c) socks),
          Raise OSError).
Proof.
  unfold bind. rewrite send_each_run.
  destruct (forallb _ socks) eqn:Hopen.
  - rewrite before_closed_open by done. by destruct (k c) as [[c' evs] res].
  - done.
Qed.

Lemma before_closed_app cl xs ys :
  before_closed cl (xs ++ ys)
  = if forallb (fun p => negb (bool_decide (p ∈ cl))) xs
    then xs ++ before_closed cl ys else before_closed cl xs.
Proof.
  induction xs as [|x xs IH]; [done|]. cbn.
  destruct (bool_decide (x ∈ cl)); cbn; [done|].
  rewrite IH. by destruct (forallb _ xs).
Qed.

(** The two loops of a broadcast, followed by [k]: every member is written
    to when all of them are open; otherwise the loops stop at the first
    closed socket and [k] is not run. *)
Lemma broadcast_then {A} r message (k : M RoomCtx A) c :
  (send_each (Dict.keys (players r)) message ;; send_each (viewers r) message ;; k) c
  = if audience_open (srv_closed c) r
    then (fst (fst (k c)), broadcast r message ++ snd (fst (k c)), snd (k c))
    else (c, map (fun to => Send to message) (before_closed (srv_closed c) (audience r)),
          Raise OSError).
Proof.
  rewrite send_each_then. unfold audience_open, audience, broadcast.
  rewrite forallb_app, before_closed_app.
  destruct (forallb _ (Dict.keys (players r))); cbn; [|done].
  rewrite send_each_then.
  destruct (forallb _ (viewers r)); cbn; unfold audience; rewrite map_app; [|done].
  by rewrite <- app_assoc.
Qed.

Lemma broadcast_last r message c :
  (send_each (Dict.keys (players r)) message ;; send_each (viewers r) message) c
  = if audience_open (srv_closed c) r
    then (c, broadcast r message, Ok tt)
    else (c, map (fun to => Send to message) (before_closed (srv_closed c) (audience r)),
          Raise OSError).
Proof.
  rewrite send_each_then, send_each_run. unfold audience_open, audience, broadcast.
  rewrite forallb_app, before_closed_app.
  destruct (forallb _ (Dict.keys (players r))); cbn; [|done].
  destruct (forallb _ (viewers r)) eqn:Hv; cbn; unfold audience; rewrite map_app; [|done].
  by rewrite before_closed_open.
Qed.

(** The audience is the same after an update that leaves players and
    viewers alone. *)
Lemma audience_open_same cl r r' :
  players r' = players r -> viewers r' = viewers r ->
  audience_open cl r' = audience_open cl r.
Proof. unfold audience_open, audience. by intros -> ->. Qed.

Lemma broadcast_game_end_run winner forfeit r d cl :
  audience_open cl r = true ->
  broadcast_game_end winner forfeit (mkCtx r d cl) =
  (after_cleanup (mkCtx (set_finished true r) d cl),
   broadcast r (game_end_message (Py.join "" (board r)) winner forfeit),
   Ok tt).
Proof.
  intros Hopen. unfold broadcast_game_end, this. unfold bind at 1. unfold gets. cbv zeta.
  change (self (mkCtx r d cl)) with r.
  rewrite broadcast_then. change (srv_closed (mkCtx r d cl)) with cl. rewrite Hopen.
  run. rewrite cleanup_room_run. cbn. rewrite !app_nil_r. reflexivity.
Qed.

(** With a closed socket in the audience the end of the match is written
    to those before it, and the room is neither marked finished nor
    cleaned up. *)
Lemma broadcast_game_end_closed winner forfeit r d cl :
  audience_open cl r = false ->
  broadcast_game_end winner forfeit (mkCtx r d cl) =
  (mkCtx r d cl,
   map (fun to => Send to (game_end_message (Py.join "" (board r)) winner forfeit))
       (before_closed cl (audience r)),
   Raise OSError).
Proof.
  intros Hopen. unfold broadcast_game_end, this. unfold bind at 1. unfold gets. cbv zeta.
  change (self (mkCtx r d cl)) with r.
  rewrite broadcast_then. change (srv_closed (mkCtx r d cl)) with cl. rewrite Hopen.
  reflexivity.
Qed.

Lemma all_marked_total b marker ps :
  Forall (fun i => i < length b)%nat ps ->
  all_marked b marker ps = Ok (forallb (fun i => bool_decide (b !! i = Some marker)) ps).
Proof.
  induction 1 as [|i ps Hi _ IH]; [done|]. cbn.
  destruct (lookup_lt_is_Some_2 b i Hi) as [c Hc]. rewrite Hc.
  destruct (String.eqb_spec c marker) as [->|Hne].
  - rewrite bool_decide_eq_true_2 by done. apply IH.
  - rewrite bool_decide_eq_false_2 by congruence. done.
Qed.

Lemma any_line_total b marker lines :
  Forall (Forall (fun i => i < length b)%nat) lines ->
  any_line b marker lines =
  Ok (existsb (forallb (fun i => bool_decide (b !! i = Some marker))) lines).
Proof.
  induction 1 as [|ps lines Hps _ IH]; [done|]. cbn.
  rewrite all_marked_total by done.
  destruct (forallb _ ps); [done|]. apply IH.
Qed.

Lemma check_winner_wins r marker :
  length (board r) = 9%nat -> check_winner r marker = Ok (wins (board r) marker).
Proof.
  intros Hlen. unfold check_winner, wins. apply any_line_total. rewrite Hlen.
  unfold win_positions. repeat (constructor; [repeat (constructor; [lia|]); constructor |]).
  constructor.
Qed.


Lemma py_index_lt n i pos : py_index n i = Some pos -> (pos < n)%nat.
Proof.
  unfold py_index. intros H.
  destruct ((0 <=? i) && (i <? Z.of_nat n))%Z eqn:E1.
  - apply andb_prop in E1 as [?%Z.leb_le ?%Z.ltb_lt]. injection H as <-. lia.
  - destruct ((- Z.of_nat n <=? i) && (i <? 0))%Z eqn:E2; [|done].
    apply andb_prop in E2 as [?%Z.leb_le ?%Z.ltb_lt]. injection H as <-. lia.
Qed.

Lemma get_opposing_first r a ua b ub :
  players r = [(a, ua); (b, ub)] -> a <> b -> current_turn r = Some a ->
  get_opposing_player r = Ok b.
Proof.
  intros Hp Hab Ht. unfold get_opposing_player. rewrite Hp, Ht. cbn.
  rewrite bool_decide_eq_true_2 by done. cbn.
  rewrite bool_decide_eq_false_2 by congruence. done.
Qed.

Lemma get_opposing_second r a ua b ub :
  players r = [(a, ua); (b, ub)] -> a <> b -> current_turn r = Some b ->
  get_opposing_player r = Ok a.
Proof.
  intros Hp Hab Ht. unfold get_opposing_player. rewrite Hp, Ht. cbn.
  rewrite bool_decide_eq_false_2 by congruence. done.
Qed.

Lemma broadcast_board_status_run r d cl a ua b ub :
  players r = [(a, ua); (b, ub)] -> a <> b ->
  current_turn r = Some a \/ current_turn r = Some b ->
  audience_open cl r = true ->
  broadcast_board_status (mkCtx r d cl)
  = (mkCtx r d cl, broadcast r (board_message r), Ok tt).
Proof.
  intros Hp Hab Ht Hopen.
  unfold broadcast_board_status, this. unfold bind at 1. unfold gets. cbv zeta.
  change (self (mkCtx r d cl)) with r.
  rewrite broadcast_then. change (srv_closed (mkCtx r d cl)) with cl. rewrite Hopen.
  unfold board_message. run.
  destruct Ht as [Ht|Ht]; rewrite Ht; cbn; rewrite Hp; cbn.
  - rewrite decide_True by done. cbn.
    rewrite (get_opposing_first r a ua b ub) by done. cbn.
    rewrite decide_False by congruence. rewrite decide_True by done. cbn.
    rewrite !app_nil_r. done.
  - rewrite decide_False by congruence. rewrite decide_True by done. cbn.
    rewrite (get_opposing_second r a ua b ub) by done. cbn.
    rewrite decide_True by done. cbn.
    rewrite !app_nil_r. done.
Qed.

(** With a closed socket in the audience the board is written to those
    before it and [OSError] is raised. *)
Lemma broadcast_board_status_closed r d cl :
  audience_open cl r = false ->
  broadcast_board_status (mkCtx r d cl)
  = (mkCtx r d cl,
     map (fun to => Send to (board_message r)) (before_closed cl (audience r)),
     Raise OSError).
Proof.
  intros Hopen.
  unfold broadcast_board_status, this. unfold bind at 1. unfold gets. cbv zeta.
  change (self (mkCtx r d cl)) with r.
  rewrite broadcast_then. change (srv_closed (mkCtx r d cl)) with cl. rewrite Hopen.
  reflexivity.
Qed.

(** A placement by the turn holder of a match under way, in closed form. *)
Lemma place_marker_turn r d cl mover um args sx sy x y pos a ua b ub :
  players r = [(a, ua); (b, ub)] -> a <> b ->
  finished r = false -> length (board r) = 9%nat ->
  current_turn r = Some mover -> Dict.get mover (players r) = Some um ->
  args !! 0%nat = Some sx -> args !! 1%nat = Some sy ->
  Py.int sx = Some x -> Py.int sy = Some y ->
  py_index 9 (y * 3 + x) = Some pos ->
  audience_open cl r = true ->
  let marker := marker_of r mover in
  let r1 := set_board (<[pos := marker]> (board r)) r in
  place_marker mover args (mkCtx r d cl) =
  if wins (board r1) marker then
    (ended (mkCtx r1 d cl),
     broadcast r1 (game_end_message (Py.join "" (board r1)) (Some um) false), Ok tt)
  else if board_full (board r1) then
    (ended (mkCtx r1 d cl),
     broadcast r1 (game_end_message (Py.join "" (board r1)) None false), Ok tt)
  else
    (mkCtx (set_current_turn (Some (if bool_decide (mover = a) then b else a)) r1) d cl,
     broadcast r1 (board_message r1), Ok tt).
Proof.
  intros Hp Hab Hf Hlen Ht Hum Hsx Hsy Hx Hy Hpos Hopen marker r1.
  assert (Hmover : mover = a \/ mover = b).
  { rewrite Hp in Hum. cbn in Hum. repeat case_decide; auto; done. }
  unfold place_marker. run. rewrite Hf, Ht. rewrite bool_decide_eq_true_2 by done. cbn.
  unfold int_arg. run. rewrite Hsx. cbn. rewrite Hx. cbn. rewrite Hsy. cbn. rewrite Hy. cbn.
  rewrite Hp. cbn. rewrite Hlen, Hpos. cbn.
  assert (Hm : (if bool_decide (mover = a) then "1" else "2") = marker).
  { unfold marker, marker_of. rewrite Hp. done. }
  rewrite Hm. fold r1.
  rewrite (check_winner_wins r1 marker) by (unfold r1; cbn; rewrite length_insert; done).
  cbn. destruct (wins _ marker) eqn:Hw; cbn.
  - rewrite Hum. cbn. rewrite broadcast_game_end_run by exact Hopen.
    cbn. rewrite !app_nil_r, ?Hp. done.
  - fold (board_full (<[pos := marker]> (board r))).
    destruct (board_full _) eqn:Hfull; cbn.
    + rewrite broadcast_game_end_run by exact Hopen. cbn. rewrite !app_nil_r, ?Hp. done.
    + rewrite (broadcast_board_status_run r1 d cl a ua b ub);
        [|done|done|unfold r1; cbn; rewrite Ht; destruct Hmover as [-> | ->]; auto
         |exact Hopen].
      cbn. destruct Hmover as [-> | ->].
      * rewrite (get_opposing_first r1 a ua b ub) by done. cbn.
        rewrite bool_decide_eq_true_2 by done. rewrite !app_nil_r, ?Hp. done.
      * rewrite (get_opposing_second r1 a ua b ub) by done. cbn.
        rewrite bool_decide_eq_false_2 by congruence. rewrite !app_nil_r, ?Hp. done.
Qed.

(** The same placement with a closed socket in the audience: the cell is
    written, the message goes to those before the closed socket, and
    [OSError] is raised before the turn passes or the match is marked
    finished. *)
Lemma place_marker_turn_closed r d cl mover um args sx sy x y pos a ua b ub :
  players r = [(a, ua); (b, ub)] -> a <> b ->
  finished r = false -> length (board r) = 9%nat ->
  current_turn r = Some mover -> Dict.get mover (players r) = Some um ->
  args !! 0%nat = Some sx -> args !! 1%nat = Some sy ->
  Py.int sx = Some x -> Py.int sy = Some y ->
  py_index 9 (y * 3 + x) = Some pos ->
  audience_open cl r = false ->
  let marker := marker_of r mover in
  let r1 := set_board (<[pos := marker]> (board r)) r in
  place_marker mover args (mkCtx r d cl) =
  (mkCtx r1 d cl,
   map (fun to => Send to (placement_message r1 marker um)) (before_closed cl (audience r)),
   Raise OSError).
Proof.
  intros Hp Hab Hf Hlen Ht Hum Hsx Hsy Hx Hy Hpos Hopen marker r1.
  assert (Hmover : mover = a \/ mover = b).
  { rewrite Hp in Hum. cbn in Hum. repeat case_decide; auto; done. }
  unfold place_marker. run. rewrite Hf, Ht. rewrite bool_decide_eq_true_2 by done. cbn.
  unfold int_arg. run. rewrite Hsx. cbn. rewrite Hx. cbn. rewrite Hsy. cbn. rewrite Hy. cbn.
  rewrite Hp. cbn. rewrite Hlen, Hpos. cbn.
  assert (Hm : (if bool_decide (mover = a) then "1" else "2") = marker).
  { unfold marker, marker_of. rewrite Hp. done. }
  rewrite Hm. fold r1.
  rewrite (check_winner_wins r1 marker) by (unfold r1; cbn; rewrite length_insert; done).
  unfold placement_message.
  cbn. destruct (wins _ marker) eqn:Hw; cbn.
  - rewrite Hum. cbn. rewrite broadcast_game_end_closed by exact Hopen. done.
  - fold (board_full (<[pos := marker]> (board r))).
    destruct (board_full _) eqn:Hfull; cbn.
    + rewrite broadcast_game_end_closed by exact Hopen. done.
    + rewrite broadcast_board_status_closed by exact Hopen. done.
Qed.


(** ** Out-of-turn placements *)

(** A placement by anyone but the turn holder of a match under way only
    sends the board again. *)
Lemma place_marker_waits r d cl client_sock args :
  in_progress r = true -> current_turn r <> Some client_sock ->
  audience_open cl r = true ->
  place_marker client_sock args (mkCtx r d cl)
  = (mkCtx r d cl, broadcast r (board_message r), Ok tt).
Proof.
  intros Hin Hturn Hopen.
  destruct (in_progress_inv r Hin) as (a & ua & b & ub & Hp & Hab & Ht & Hf & Hlen).
  unfold place_marker. run. rewrite Hf.
  rewrite bool_decide_eq_false_2 by congruence. cbn.
  by rewrite (broadcast_board_status_run r d cl a ua b ub).
Qed.

(** With a closed socket in the audience the board is sent to those before
    it and the placement raises [OSError]. *)
Lemma place_marker_waits_closed r d cl client_sock args :
  finished r = false -> current_turn r <> Some client_sock ->
  audience_open cl r = false ->
  place_marker client_sock args (mkCtx r d cl)
  = (mkCtx r d cl,
     map (fun to => Send to (board_message r)) (before_closed cl (audience r)),
     Raise OSError).
Proof.
  intros Hf Hturn Hopen.
  unfold place_marker. run. rewrite Hf.
  rewrite bool_decide_eq_false_2 by congruence. cbn.
  by rewrite broadcast_board_status_closed.
Qed.



(** ** Placements by the turn holder *)

Lemma marker_of_cases r mover : marker_of r mover = "1" \/ marker_of r mover = "2".
Proof.
  unfold marker_of. destruct (head _); [case_bool_decide|]; auto.
Qed.




(** ** Method calls and joins, step by step *)

Arguments is_mode : simpl never.
Arguments call : simpl never.
Arguments room_at : simpl never.
Arguments add_player : simpl never.
Arguments add_viewer : simpl never.
Arguments start_game : simpl never.

Lemma dict_has_get {K V} `{EqDecision K} (k : K) (d : list (K * V)) v :
  Dict.get k d = Some v -> Dict.has k d = true.
Proof. unfold Dict.has. by intros ->. Qed.

Lemma room_at_run s l r : heap s !! l = Some r -> room_at l s = (s, [], Ok r).
Proof. intros Hl. unfold room_at. run. rewrite Hl. done. Qed.

Lemma call_run {A} l (m : M RoomCtx A) s r c evs res :
  heap s !! l = Some r ->
  m (mkCtx r (rooms s) (closed s)) = (c, evs, res) ->
  call l m s = (set_heap (<[l := self c]> (heap s)) (set_rooms (srv_rooms c) s), evs, res).
Proof. intros Hl Hm. unfold call. rewrite Hl, Hm. done. Qed.

Lemma add_player_run client_sock uname r d cl :
  add_player client_sock uname (mkCtx r d cl)
  = (mkCtx (if (length (players r) <? 2)%nat
            then set_players (Dict.set client_sock uname (players r)) r else r) d cl,
     [], Ok tt).
Proof.
  unfold add_player, bind, this, gets. cbv beta iota.
  change (self (mkCtx r d cl)) with r.
  destruct (length (players r) <? 2)%nat; reflexivity.
Qed.

(** [start_game] on a full room, in closed form: the turn is set, then
    BEGIN is written to the audience, to all of it or up to its first
    closed socket. *)
Lemma start_game_cases r d cl a ua b ub :
  players r = [(a, ua); (b, ub)] ->
  let message := "BEGIN:" +:+ ua +:+ ":" +:+ ub +:+ Py.nl in
  start_game (mkCtx r d cl)
  = (mkCtx (set_current_turn (Some a) r) d cl,
     map (fun to => Send to message) (before_closed cl (audience r)),
     if audience_open cl r then Ok tt else Raise OSError).
Proof.
  intros Hp message. unfold start_game, is_full, this.
  unfold bind at 1. unfold gets. cbv zeta. change (self (mkCtx r d cl)) with r.
  rewrite Hp. cbn [length Nat.eqb Dict.keys Dict.values map fst snd head].
  unfold subscript. unfold bind at 1. unfold ret.
  unfold bind at 1. unfold update, modify. cbv beta iota zeta.
  change (self (mkCtx r d cl)) with r. change (srv_rooms (mkCtx r d cl)) with d.
  change (srv_closed (mkCtx r d cl)) with cl.
  pose proof (broadcast_last r message (mkCtx (set_current_turn (Some a) r) d cl)) as Hb.
  rewrite Hp in Hb. cbn [Dict.keys map fst] in Hb. fold message. rewrite Hb.
  change (srv_closed (mkCtx (set_current_turn (Some a) r) d cl)) with cl.
  destruct (audience_open cl r) eqn:Hopen; [|done].
  unfold broadcast. by rewrite before_closed_open by exact Hopen.
Qed.

Lemma start_game_run r d cl a ua b ub :
  players r = [(a, ua); (b, ub)] ->
  audience_open cl r = true ->
  start_game (mkCtx r d cl)
  = (mkCtx (set_current_turn (Some a) r) d cl,
     broadcast (set_current_turn (Some a) r) ("BEGIN:" +:+ ua +:+ ":" +:+ ub +:+ Py.nl),
     Ok tt).
Proof.
  intros Hp Hopen. rewrite (start_game_cases r d cl a ua b ub Hp). cbv zeta.
  rewrite Hopen. unfold broadcast.
  rewrite before_closed_open by exact Hopen. done.
Qed.





(** ** Logging in again *)

Lemma dict_get_set_eq {V} (k : sock) (v : V) (d : list (sock * V)) :
  Dict.get k (Dict.set k v d) = Some v.
Proof.
  induction d as [|[k' v'] d IH]; cbn.
  - by rewrite decide_True.
  - destruct (decide (k = k')) as [->|Hne]; cbn.
    + by rewrite decide_True.
    + by rewrite decide_False.
Qed.

Lemma dict_get_set_ne {V} (k k0 : sock) (v : V) (d : list (sock * V)) :
  k0 <> k -> Dict.get k0 (Dict.set k v d) = Dict.get k0 d.
Proof.
  intros Hne. induction d as [|[k' v'] d IH]; cbn.
  - by rewrite decide_False.
  - destruct (decide (k = k')) as [->|Hk]; cbn.
    + by rewrite !decide_False.
    + destruct (decide (k0 = k')); done.
Qed.

(** C10: on a connection that is already authenticated, LOGIN with the
    name of a registered user and a password that [bcrypt] accepts is
    answered LOGIN:ACKSTATUS:0 and the username recorded for the connection
    becomes the one supplied, whatever it was; nothing else changes, and
    the other connections keep their usernames. *)
Theorem relogin_replaces_username (checkpw : string -> string -> bool)
        (hashpw : string -> option string) (s : Server) (client_sock : sock)
        (old uname pw : string) (user : User) :
  Dict.get client_sock (authenticated_users s) = Some old ->
  List.find (fun u => String.eqb (username u) uname) (user_db s) = Some user ->
  checkpw pw (password user) = true ->
  let s' := set_authenticated_users
              (Dict.set client_sock uname (authenticated_users s)) s in
  handle_login checkpw client_sock [uname; pw] s
  = (s', [Send client_sock ("LOGIN:ACKSTATUS:0" +:+ Py.nl)], Ok tt)
  /\ dispatch checkpw hashpw client_sock ["LOGIN"; uname; pw] s
     = (s', [Send client_sock ("LOGIN:ACKSTATUS:0" +:+ Py.nl)], Ok tt)
  /\ Dict.get client_sock (authenticated_users s') = Some uname
  /\ (forall other : sock, other <> client_sock ->
        Dict.get other (authenticated_users s') = Dict.get other (authenticated_users s))
  /\ user_db s' = user_db s /\ rooms s' = rooms s /\ heap s' = heap s.
Proof.
  intros Hold Hfind Hpw s'.
  assert (Hrun : handle_login checkpw client_sock [uname; pw] s
                 = (s', [Send client_sock ("LOGIN:ACKSTATUS:0" +:+ Py.nl)], Ok tt)).
  { unfold handle_login. run. rewrite Hfind, Hpw. done. }
  split; [exact Hrun|]. split.
  - unfold dispatch. rewrite String.eqb_refl. exact Hrun.
  - split; [apply dict_get_set_eq|]. split; [|done].
    intros other Hne. by apply dict_get_set_ne.
Qed.

Lemma relogin_replaces_username_witness :
  Dict.get 3%nat (authenticated_users demo_server) = Some "A"
  /\ handle_login plain_checkpw 3 ["B"; "pb"] demo_server
     = (set_authenticated_users [(1%nat, "A"); (2%nat, "B"); (3%nat, "B")] demo_server,
        [Send 3%nat ("LOGIN:ACKSTATUS:0" +:+ Py.nl)], Ok tt).
Proof.
  split; [reflexivity|].
  refine (proj1 (relogin_replaces_username plain_checkpw plain_hashpw demo_server 3
                   "A" "B" "pb" (mkUser "B" "pb") _ _ _));
    reflexivity.
Defined.

Example match_begun_state :
  state_after match_begun fresh_server
  = mkServer [mkUser "A" "pa"; mkUser "B" "pb"] [(1%nat, "A"); (2%nat, "B")]
             [("Arena", 0%nat)]
             [mkRoom "Arena" [(1%nat, "A"); (2%nat, "B")] [] (replicate 9 "0")
                     (Some 1%nat) false None]
             [].
Proof. reflexivity. Qed.

(** The scenario of the specification: A wins the top row. *)
Example scenario_top_row :
  events_of (play (match_begun ++
                   [ (1%nat, Data "PLACE:0:0"); (2%nat, Data "PLACE:1:1");
                     (1%nat, Data "PLACE:1:0"); (2%nat, Data "PLACE:2:2");
                     (1%nat, Data "PLACE:2:0"); (2%nat, Data "ROOMLIST:VIEWER") ])
                  fresh_server)
  = [ Send 1%nat ("LOGIN:ACKSTATUS:0" +:+ Py.nl); Send 2%nat ("LOGIN:ACKSTATUS:0" +:+ Py.nl);
      Send 1%nat ("CREATE:ACKSTATUS:0" +:+ Py.nl); Send 2%nat ("JOIN:ACKSTATUS:0" +:+ Py.nl);
      Send 1%nat ("BEGIN:A:B" +:+ Py.nl); Send 2%nat ("BEGIN:A:B" +:+ Py.nl);
      Send 1%nat ("BOARDSTATUS:100000000" +:+ Py.nl);
      Send 2%nat ("BOARDSTATUS:100000000" +:+ Py.nl);
      Send 1%nat ("BOARDSTATUS:100020000" +:+ Py.nl);
      Send 2%nat ("BOARDSTATUS:100020000" +:+ Py.nl);
      Send 1%nat ("BOARDSTATUS:110020000" +:+ Py.nl);
      Send 2%nat ("BOARDSTATUS:110020000" +:+ Py.nl);
      Send 1%nat ("BOARDSTATUS:110020002" +:+ Py.nl);
      Send 2%nat ("BOARDSTATUS:110020002" +:+ Py.nl);
      Send 1%nat ("GAMEEND:111020002:0:A" +:+ Py.nl);
      Send 2%nat ("GAMEEND:111020002:0:A" +:+ Py.nl);
      Send 2%nat ("ROOMLIST:ACKSTATUS:0:" +:+ Py.nl) ].
Proof. reflexivity. Qed.

(** ** Forfeits *)




Lemma wins_fills_triple b marker : wins b marker = true <-> fills_triple b marker.
Proof.
  unfold wins, fills_triple. rewrite existsb_exists. split.
  - intros (line & Hin & Hall). exists line. split; [by apply list_elem_of_In|].
    intros i Hi. rewrite forallb_forall in Hall.
    eapply bool_decide_eq_true_1. apply Hall. by apply list_elem_of_In.
  - intros (line & Hin & Hall). exists line. split; [by apply list_elem_of_In|].
    apply forallb_forall. intros i Hi. apply bool_decide_eq_true_2. apply Hall.
    by apply list_elem_of_In.
Qed.

(** The winning lines are the three rows, the three columns and the two
    diagonals of the board indexed by [row * 3 + column], eight in all. *)
Lemma win_positions_lines :
  length win_positions = 8%nat
  /\ forall line : list nat,
      line ∈ win_positions <->
      (exists row, (row < 3)%nat /\ line = [row * 3; row * 3 + 1; row * 3 + 2]%nat)
      \/ (exists col, (col < 3)%nat /\ line = [col; 3 + col; 6 + col]%nat)
      \/ line = [0; 4; 8]%nat \/ line = [2; 4; 6]%nat.
Proof.
  split; [reflexivity|]. intros line. unfold win_positions. split.
  - intros H. repeat (apply elem_of_cons in H as [-> | H]).
    + left. exists 0%nat. split; [lia|done].
    + left. exists 1%nat. split; [lia|done].
    + left. exists 2%nat. split; [lia|done].
    + right. left. exists 0%nat. split; [lia|done].
    + right. left. exists 1%nat. split; [lia|done].
    + right. left. exists 2%nat. split; [lia|done].
    + right. right. by left.
    + right. right. by right.
    + by apply elem_of_nil in H.
  - intros [(row & Hrow & ->) | [(col & Hcol & ->) | [-> | ->]]].
    + destruct row as [|[|[|?]]]; [| | |lia]; cbn; repeat constructor.
    + destruct col as [|[|[|?]]]; [| | |lia]; cbn; repeat constructor.
    + repeat constructor.
    + repeat constructor.
Qed.


(** C2: the user registered under the empty username (socket 1, first
    player) has markers in cells 0 and 1 and holds the turn.  Its
    placement in column 2 of row 0 fills the top row, a winning line of
    [win_positions], with two cells still empty; the message written to
    both players is the draw message, outcome kind 1, naming nobody. *)
Theorem nameless_win_announced_as_draw :
  let s := state_after nameless_inputs fresh_server in
  let o := handle_client plain_checkpw plain_hashpw 1 (Data "PLACE:2:0") s in
  outcome_of (play nameless_inputs fresh_server) = Ok tt
  /\ (exists r, heap s !! 0%nat = Some r /\ in_progress r = true
                /\ players r = [(1%nat, ""); (2%nat, "B")]
                /\ current_turn r = Some 1%nat
                /\ board r = ["1"; "1"; "0"; "0"; "2"; "0"; "0"; "0"; "2"])
  /\ (exists r', heap (fst (fst o)) !! 0%nat = Some r'
                 /\ board r' = ["1"; "1"; "1"; "0"; "2"; "0"; "0"; "0"; "2"]
                 /\ fills_triple (board r') "1" /\ board_full (board r') = false
                 /\ finished r' = true)
  /\ events_of o = [ Send 1%nat ("GAMEEND:111020002:1" +:+ Py.nl);
                     Send 2%nat ("GAMEEND:111020002:1" +:+ Py.nl) ]
  /\ outcome_of o = Ok tt.
Proof.
  cbv zeta. split; [vm_compute; reflexivity|].
  split.
  { eexists. split; [vm_compute; reflexivity|]. repeat split; vm_compute; reflexivity. }
  split; [|split; vm_compute; reflexivity].
  eexists. split; [vm_compute; reflexivity|].
  split; [vm_compute; reflexivity|].
  split; [|split; vm_compute; reflexivity].
  apply wins_fills_triple. vm_compute. reflexivity.
Qed.

(** ** End of match: broadcast and clean-up *)

Lemma dict_get_del_eq {V} (k : string) (d : list (string * V)) :
  NoDup (Dict.keys d) -> Dict.get k (Dict.del k d) = None.
Proof.
  induction d as [|[k' v'] d IH]; cbn; [done|].
  intros Hnd. apply NoDup_cons in Hnd as [Hk' Hnd].
  destruct (decide (k = k')) as [->|Hne]; cbn.
  - clear IH Hnd. induction d as [|[k2 v2] d IH]; cbn; [done|].
    cbn in Hk'. apply not_elem_of_cons in Hk' as [Hne Hk'].
    rewrite decide_False by done. by apply IH.
  - rewrite decide_False by done. by apply IH.
Qed.

(** After the end of a match the room is out of the directory, its
    membership collections are empty and it is marked finished. *)
Lemma ended_removed_and_cleared c :
  NoDup (Dict.keys (srv_rooms c)) ->
  Dict.has (name (self c)) (srv_rooms (ended c)) = false
  /\ players (self (ended c)) = [] /\ viewers (self (ended c)) = []
  /\ finished (self (ended c)) = true
  /\ board (self (ended c)) = board (self c).
Proof.
  intros Hnd. split; [|done]. unfold ended. cbn.
  destruct (Dict.has (name (self c)) (srv_rooms c)) eqn:E; [|done].
  unfold Dict.has. by rewrite dict_get_del_eq.
Qed.

(** C7: a room finished by a win of the player with the empty username:
    the placement that completes the top row writes one message to each
    player and to the viewer, the room leaves the directory and its
    players and viewers are cleared, but the message carries outcome kind
    1 (draw) and no winner, where the same win by a player named A carries
    kind 0 and the name. *)
Theorem win_broadcast_carries_draw_kind :
  in_progress nameless_room = true
  /\ place_marker 1 ["2"; "0"] (mkCtx nameless_room [("Arena", 0%nat)] [])
     = (mkCtx (mkRoom "Arena" [] [] ["1"; "1"; "1"; "0"; "2"; "0"; "0"; "0"; "2"]
                      (Some 1%nat) true None) [] [],
        [ Send 1%nat ("GAMEEND:111020002:1" +:+ Py.nl);
          Send 2%nat ("GAMEEND:111020002:1" +:+ Py.nl);
          Send 3%nat ("GAMEEND:111020002:1" +:+ Py.nl) ],
        Ok tt)
  /\ wins ["1"; "1"; "1"; "0"; "2"; "0"; "0"; "0"; "2"] "1" = true
  /\ board_full ["1"; "1"; "1"; "0"; "2"; "0"; "0"; "0"; "2"] = false
  /\ place_marker 1 ["2"; "0"] (mkCtx named_room [("Arena", 0%nat)] [])
     = (mkCtx (mkRoom "Arena" [] [] ["1"; "1"; "1"; "0"; "2"; "0"; "0"; "0"; "2"]
                      (Some 1%nat) true None) [] [],
        [ Send 1%nat ("GAMEEND:111020002:0:A" +:+ Py.nl);
          Send 2%nat ("GAMEEND:111020002:0:A" +:+ Py.nl);
          Send 3%nat ("GAMEEND:111020002:0:A" +:+ Py.nl) ],
        Ok tt).
Proof. repeat split; vm_compute; reflexivity. Qed.

(** ** PLACE with malformed or out-of-range coordinates *)

(** C3: in the match just begun, with A (socket 1) holding the turn,
    PLACE with non-numeric coordinates or with too few fields makes the
    handler raise ([ValueError], [IndexError]) after writing nothing, and
    the exception ends the server loop, so a later command is not served;
    PLACE:5:0 and PLACE:-1:0, whose column is outside [0,2], are applied
    to cells 5 and 8; PLACE:3:3 raises [IndexError].  No acknowledgement
    is written in any of these cases. *)
Theorem place_unvalidated :
  let s := state_after match_begun fresh_server in
  let place (request : string) := handle_client plain_checkpw plain_hashpw 1 (Data request) s in
  (events_of (place "PLACE:a:b") = [] /\ outcome_of (place "PLACE:a:b") = Raise ValueError)
  /\ (events_of (place "PLACE:1") = [] /\ outcome_of (place "PLACE:1") = Raise IndexError)
  /\ (events_of (place "PLACE") = [] /\ outcome_of (place "PLACE") = Raise IndexError)
  /\ (events_of (place "PLACE:3:3") = [] /\ outcome_of (place "PLACE:3:3") = Raise IndexError)
  /\ (board <$> heap (fst (fst (place "PLACE:5:0"))) !! 0%nat
      = Some ["0"; "0"; "0"; "0"; "0"; "1"; "0"; "0"; "0"]
      /\ events_of (place "PLACE:5:0")
         = [ Send 1%nat ("BOARDSTATUS:000001000" +:+ Py.nl);
             Send 2%nat ("BOARDSTATUS:000001000" +:+ Py.nl) ])
  /\ (board <$> heap (fst (fst (place "PLACE:-1:0"))) !! 0%nat
      = Some ["0"; "0"; "0"; "0"; "0"; "0"; "0"; "0"; "1"])
  /\ outcome_of (play (match_begun ++ [ (1%nat, Data "PLACE:a:b");
                                         (2%nat, Data "ROOMLIST:VIEWER") ]) fresh_server)
     = Raise ValueError
  /\ events_of (play (match_begun ++ [ (1%nat, Data "PLACE:a:b");
                                        (2%nat, Data "ROOMLIST:VIEWER") ]) fresh_server)
     = events_of (play match_begun fresh_server).
Proof. cbv zeta. repeat split; vm_compute; reflexivity. Qed.

(** ** Room names *)

Lemma dict_set_fresh {V} (k : string) (v : V) (d : list (string * V)) :
  Dict.has k d = false -> Dict.set k v d = d ++ [(k, v)].
Proof.
  unfold Dict.has. induction d as [|[k' v'] d IH]; cbn; [done|].
  destruct (decide (k = k')); [done|]. intros H. by rewrite IH.
Qed.

Section Create.

#[local] Arguments Nat.leb : simpl never.

(** [handle_create_room] tests the characters of the name and nothing
    else: whatever its length, a name made of allowed characters that is
    not taken is created while the directory has room. *)
Lemma create_room_any_length s client_sock uname room_name :
  Dict.get client_sock (authenticated_users s) = Some uname ->
  room_name_chars_ok room_name = true ->
  Dict.has room_name (rooms s) = false ->
  (length (rooms s) < 256)%nat ->
  handle_create_room client_sock [room_name] s
  = (mkServer (user_db s) (authenticated_users s)
              (rooms s ++ [(room_name, length (heap s))])
              (heap s ++ [set_players [(client_sock, uname)] (new_room room_name)])
              (closed s),
     [Send client_sock ("CREATE:ACKSTATUS:0" +:+ Py.nl)], Ok tt).
Proof.
  intros Hauth Hchars Hfree Hroom. unfold handle_create_room. run.
  rewrite (dict_has_get _ _ _ Hauth). cbn. rewrite Hchars, Hfree. cbn.
  replace (256 <=? length (rooms s))%nat with false
    by (symmetry; apply Nat.leb_gt; lia).
  rewrite Hauth. cbn.
  set (s1 := set_rooms _ _).
  assert (Hl : heap s1 !! length (heap s) = Some (new_room room_name))
    by (unfold s1; cbn; apply list_lookup_middle; done).
  rewrite (call_run _ _ s1 _ _ _ _ Hl
             (add_player_run client_sock uname (new_room room_name) (rooms s1) (closed s1))).
  cbn. rewrite dict_set_fresh by done.
  rewrite insert_app_r_alt by done. rewrite Nat.sub_diag. done.
Qed.

End Create.

(** A name with a character that is neither alphanumeric nor one of
    dash, underscore and space is refused and nothing changes. *)
Lemma create_room_bad_chars s client_sock room_name :
  Dict.has client_sock (authenticated_users s) = true ->
  room_name_chars_ok room_name = false ->
  handle_create_room client_sock [room_name] s
  = (s, [Send client_sock ("CREATE:ACKSTATUS:1" +:+ Py.nl)], Ok tt).
Proof.
  intros Hauth Hchars. unfold handle_create_room. run. rewrite Hauth. cbn.
  rewrite Hchars. done.
Qed.

(** C6: an authenticated CREATE whose room name has 21 characters, all of
    them letters, which the rule of [is_valid_room_name] refuses, is
    answered CREATE:ACKSTATUS:0 and the room is added to the directory. *)
Theorem create_accepts_long_name :
  let s := state_after [ (1%nat, Data "LOGIN:A:pa") ] fresh_server in
  let o := handle_client plain_checkpw plain_hashpw 1
             (Data "CREATE:aaaaaaaaaaaaaaaaaaaaa") s in
  String.length "aaaaaaaaaaaaaaaaaaaaa" = 21%nat
  /\ is_valid_room_name "aaaaaaaaaaaaaaaaaaaaa" = false
  /\ Dict.has 1%nat (authenticated_users s) = true
  /\ rooms s = []
  /\ events_of o = [ Send 1%nat ("CREATE:ACKSTATUS:0" +:+ Py.nl) ]
  /\ outcome_of o = Ok tt
  /\ rooms (fst (fst o)) = [("aaaaaaaaaaaaaaaaaaaaa", 0%nat)]
  /\ heap (fst (fst o))
     = [mkRoom "aaaaaaaaaaaaaaaaaaaaa" [(1%nat, "A")] [] (replicate 9 "0") None false None].
Proof. cbv zeta. repeat split; vm_compute; reflexivity. Qed.

Lemma append_cons c s t : String c s +:+ t = String c (s +:+ t).
Proof. reflexivity. Qed.

Lemma all_chars_app p s t :
  Py.all_chars p (s +:+ t) = Py.all_chars p s && Py.all_chars p t.
Proof.
  induction s as [|c s IH]; [done|]. rewrite append_cons. cbn.
  rewrite IH. by destruct (p c).
Qed.

Lemma all_chars_weaken (p q : ascii -> bool) s :
  (forall c, p c = true -> q c = true) ->
  Py.all_chars p s = true -> Py.all_chars q s = true.
Proof.
  intros Hpq. induction s as [|c s IH]; cbn; [done|].
  intros [Hc Hs]%andb_prop. rewrite (Hpq c Hc). by apply IH.
Qed.

Lemma rstrip_newline s :
  Py.all_chars (fun c => negb (Py.is_space c)) s = true ->
  Py.rstrip (s +:+ Py.nl) = s.
Proof.
  induction s as [|c s IH]; [done|]. rewrite append_cons. cbn.
  intros [Hc Hs]%andb_prop. rewrite (IH Hs).
  destruct s; [|done]. by destruct (Py.is_space c).
Qed.

Lemma strip_newline s :
  Py.all_chars (fun c => negb (Py.is_space c)) s = true ->
  Py.strip (s +:+ Py.nl) = s.
Proof.
  intros Hs. unfold Py.strip. destruct s as [|c s]; [done|].
  pose proof Hs as [Hc _]%andb_prop. rewrite append_cons. cbn [Py.lstrip].
  destruct (Py.is_space c); [done|]. rewrite <- append_cons.
  by apply (rstrip_newline (String c s)).
Qed.

Lemma strip_clean s :
  Py.all_chars (fun c => negb (Py.is_space c)) s = true -> Py.strip s = s.
Proof.
  intros Hs. unfold Py.strip.
  assert (Hl : Py.lstrip s = s).
  { destruct s as [|c s]; [done|]. cbn. pose proof Hs as [Hc _]%andb_prop.
    by destruct (Py.is_space c). }
  rewrite Hl. clear Hl. induction s as [|c s IH]; [done|]. cbn.
  pose proof Hs as [Hc Hs']%andb_prop. rewrite (IH Hs').
  destruct s; [|done]. by destruct (Py.is_space c).
Qed.

Lemma split_field (f rest : string) :
  Py.all_chars (fun c => negb (Ascii.eqb c ":")) f = true ->
  Py.split ":" (f +:+ String ":" rest) = f :: Py.split ":" rest.
Proof.
  induction f as [|c f IH]; [done|]. rewrite append_cons. cbn.
  intros [Hc Hf]%andb_prop. rewrite (IH Hf).
  by destruct (Ascii.eqb c ":").
Qed.

Lemma split_last (f : string) :
  Py.all_chars (fun c => negb (Ascii.eqb c ":")) f = true ->
  Py.split ":" f = [f].
Proof.
  induction f as [|c f IH]; [done|]. cbn.
  intros [Hc Hf]%andb_prop. rewrite (IH Hf).
  by destruct (Ascii.eqb c ":").
Qed.




(** *** Chunks holding several commands *)


















(** ** The directory stays consistent *)

Lemma evolves_refl s : evolves s s.
Proof. split; auto. intros l r r' Hl _ _ Hl'. congruence. Qed.

Lemma consistent_init db : consistent (mkServer db [] [] [] []).
Proof.
  split; cbn.
  - constructor.
  - constructor.
  - intros n l H. by apply elem_of_nil in H.
  - intros n l r p H. by apply elem_of_nil in H.
Qed.

Lemma dict_has_set_mono {V} (k p : sock) (v : V) (d : list (sock * V)) :
  Dict.has p d = true -> Dict.has p (Dict.set k v d) = true.
Proof.
  unfold Dict.has. destruct (decide (p = k)) as [->|Hne].
  - by rewrite dict_get_set_eq.
  - by rewrite dict_get_set_ne.
Qed.

(** Changes that leave the directory and the store alone. *)
Lemma consistent_same_rooms s s' :
  rooms s' = rooms s -> heap s' = heap s ->
  (forall p, Dict.has p (authenticated_users s) = true ->
             Dict.has p (authenticated_users s') = true) ->
  consistent s -> consistent s' /\ evolves s s'.
Proof.
  intros Hr Hh Ha [H1 H2 H3 H4]. split.
  - split; rewrite ?Hr, ?Hh; auto.
    intros n l r p Hin Hl Hp. apply Ha. eapply H4; eauto.
  - split; rewrite ?Hr, ?Hh; auto. intros l r r' Hl _ _ Hl'. congruence.
Qed.

(** *** Dictionaries with distinct keys *)

Lemma elem_of_keys {K V} (k : K) (v : V) (d : list (K * V)) :
  (k, v) ∈ d -> k ∈ Dict.keys d.
Proof.
  induction d as [|[k' v'] d IH]; intros H; [by apply elem_of_nil in H|].
  apply elem_of_cons in H as [[= -> ->] | H]; cbn; [left|right; auto].
Qed.

Lemma elem_of_values {K V} (k : K) (v : V) (d : list (K * V)) :
  (k, v) ∈ d -> v ∈ Dict.values d.
Proof.
  induction d as [|[k' v'] d IH]; intros H; [by apply elem_of_nil in H|].
  apply elem_of_cons in H as [[= -> ->] | H]; cbn; [left|right; auto].
Qed.

Lemma elem_of_values_inv {K V} (v : V) (d : list (K * V)) :
  v ∈ Dict.values d -> exists k, (k, v) ∈ d.
Proof.
  induction d as [|[k' v'] d IH]; cbn; intros H; [by apply elem_of_nil in H|].
  apply elem_of_cons in H as [-> | H].
  - exists k'. left.
  - destruct (IH H) as [k Hk]. exists k. by right.
Qed.

Lemma dict_get_elem {V} (k : string) (v : V) (d : list (string * V)) :
  NoDup (Dict.keys d) -> (k, v) ∈ d -> Dict.get k d = Some v.
Proof.
  induction d as [|[k' v'] d IH]; cbn; intros Hnd H; [by apply elem_of_nil in H|].
  apply NoDup_cons in Hnd as [Hk' Hnd].
  apply elem_of_cons in H as [[= -> ->] | H].
  - by rewrite decide_True.
  - rewrite decide_False; [by apply IH|].
    intros ->. apply Hk'. by apply (elem_of_keys _ v).
Qed.

Lemma dict_get_elem_inv {V} (k : string) (v : V) (d : list (string * V)) :
  Dict.get k d = Some v -> (k, v) ∈ d.
Proof.
  induction d as [|[k' v'] d IH]; cbn; [done|].
  destruct (decide (k = k')) as [->|Hne].
  - intros [= ->]. left.
  - intros H. right. by apply IH.
Qed.

Lemma dict_del_elem {V} (k : string) (d : list (string * V)) k' v' :
  (k', v') ∈ Dict.del k d -> (k', v') ∈ d.
Proof.
  induction d as [|[k2 v2] d IH]; cbn; [done|].
  destruct (decide (k = k2)) as [->|Hne]; intros H.
  - by right.
  - apply elem_of_cons in H as [-> | H]; [left|right; auto].
Qed.

Lemma dict_del_elem_ne {V} (k : string) (d : list (string * V)) k' v' :
  NoDup (Dict.keys d) -> (k', v') ∈ Dict.del k d -> k' <> k.
Proof.
  induction d as [|[k2 v2] d IH]; cbn; intros Hnd H; [by apply elem_of_nil in H|].
  apply NoDup_cons in Hnd as [Hk2 Hnd].
  destruct (decide (k = k2)) as [->|Hne].
  - intros ->. apply Hk2. by apply (elem_of_keys _ v').
  - apply elem_of_cons in H as [[= -> ->] | H]; [congruence|by apply IH].
Qed.

Lemma dict_del_keys_nodup {V} (k : string) (d : list (string * V)) :
  NoDup (Dict.keys d) -> NoDup (Dict.keys (Dict.del k d)).
Proof.
  induction d as [|[k2 v2] d IH]; cbn; intros Hnd; [done|].
  apply NoDup_cons in Hnd as [Hk2 Hnd].
  destruct (decide (k = k2)); [done|]. cbn. apply NoDup_cons. split; [|by apply IH].
  intros H. apply Hk2. clear -H.
  induction d as [|[k3 v3] d IH]; cbn in *; [done|].
  destruct (decide (k = k3)); [by right|].
  cbn in H. apply elem_of_cons in H as [-> | H]; [left|right; auto].
Qed.

Lemma dict_del_values_nodup {V} (k : string) (d : list (string * V)) :
  NoDup (Dict.values d) -> NoDup (Dict.values (Dict.del k d)).
Proof.
  induction d as [|[k2 v2] d IH]; cbn; intros Hnd; [done|].
  apply NoDup_cons in Hnd as [Hk2 Hnd].
  destruct (decide (k = k2)); [done|]. cbn. apply NoDup_cons. split; [|by apply IH].
  intros H. apply Hk2. clear -H.
  induction d as [|[k3 v3] d IH]; cbn in *; [done|].
  destruct (decide (k = k3)); [by right|].
  cbn in H. apply elem_of_cons in H as [-> | H]; [left|right; auto].
Qed.

Lemma nodup_values_inj {V} (d : list (string * V)) k1 k2 v :
  NoDup (Dict.values d) -> (k1, v) ∈ d -> (k2, v) ∈ d -> k1 = k2.
Proof.
  induction d as [|[k' v'] d IH]; cbn; intros Hnd H1 H2; [by apply elem_of_nil in H1|].
  apply NoDup_cons in Hnd as [Hv Hnd].
  apply elem_of_cons in H1 as [E1 | H1]; apply elem_of_cons in H2 as [E2 | H2];
    simplify_eq; try done.
  - exfalso. apply Hv. by apply (elem_of_values k2).
  - exfalso. apply Hv. by apply (elem_of_values k1).
  - by apply IH.
Qed.

(** *** Updating or dropping one room of the directory *)

(** Closing a socket leaves the directory and the store alone. *)
Lemma closed_step s s1 cl :
  consistent s1 /\ evolves s s1 ->
  consistent (set_closed cl s1) /\ evolves s (set_closed cl s1).
Proof. intros [[H1 H2 H3 H4] [E1 E2 E3 E4 E5]]. split; split; done. Qed.

Lemma same_object (h : list Room) (l : rid) r1 r2 :
  h !! l = Some r1 -> h !! l = Some r2 -> r1 = r2.
Proof. congruence. Qed.

Lemma consistent_update s n l r r' :
  consistent s -> (n, l) ∈ rooms s -> heap s !! l = Some r ->
  name r' = n -> live r' ->
  (forall p, p ∈ Dict.keys (players r') -> Dict.has p (authenticated_users s) = true) ->
  (is_full r = true -> players r' = players r) ->
  consistent (set_heap (<[l := r']> (heap s)) (set_rooms (rooms s) s))
  /\ evolves s (set_heap (<[l := r']> (heap s)) (set_rooms (rooms s) s)).
Proof.
  intros [H1 H2 H3 H4] Hin Hl Hname Hlive Hknown Hfull.
  assert (Hlt : (l < length (heap s))%nat) by (apply lookup_lt_is_Some_1; by eexists).
  split; split; cbn; auto.
  - intros n2 l2 Hin2. destruct (decide (l2 = l)) as [->|Hne].
    + assert (n2 = n) as -> by (by apply (nodup_values_inj (rooms s) n2 n l)).
      exists r'. by rewrite list_lookup_insert_eq.
    + rewrite list_lookup_insert_ne by done. by apply H3.
  - intros n2 l2 r2 p Hin2. destruct (decide (l2 = l)) as [->|Hne].
    + rewrite list_lookup_insert_eq by done. intros [= <-]. apply Hknown.
    + rewrite list_lookup_insert_ne by done. by apply (H4 n2).
  - by rewrite length_insert.
  - intros l0 r0 Hl0 Hout. rewrite list_lookup_insert_ne; [done|].
    intros <-. apply Hout. by apply (elem_of_values n).
  - intros l0 r0 r0' Hl0 Hfull0 _. destruct (decide (l0 = l)) as [->|Hne].
    + rewrite list_lookup_insert_eq by done. intros [= <-].
      assert (r0 = r) as -> by (by apply (same_object (heap s) l)). by apply Hfull.
    + rewrite list_lookup_insert_ne by done. congruence.
Qed.

Lemma consistent_drop s n l r' :
  consistent s -> (n, l) ∈ rooms s ->
  consistent (set_heap (<[l := r']> (heap s)) (set_rooms (Dict.del n (rooms s)) s))
  /\ evolves s (set_heap (<[l := r']> (heap s)) (set_rooms (Dict.del n (rooms s)) s)).
Proof.
  intros [H1 H2 H3 H4] Hin.
  assert (Hother : forall n2 l2, (n2, l2) ∈ Dict.del n (rooms s) ->
                                 (n2, l2) ∈ rooms s /\ l2 <> l).
  { intros n2 l2 Hin2. split; [by apply dict_del_elem in Hin2|].
    intros ->. apply (dict_del_elem_ne n (rooms s) n2 l H1 Hin2).
    apply (nodup_values_inj (rooms s) n2 n l H2); [|done]. by apply dict_del_elem in Hin2. }
  split; split; cbn.
  - by apply dict_del_keys_nodup.
  - by apply dict_del_values_nodup.
  - intros n2 l2 Hin2. destruct (Hother n2 l2 Hin2) as [Hin3 Hne].
    rewrite list_lookup_insert_ne by done. by apply H3.
  - intros n2 l2 r2 p Hin2. destruct (Hother n2 l2 Hin2) as [Hin3 Hne].
    rewrite list_lookup_insert_ne by done. by apply (H4 n2).
  - by rewrite length_insert.
  - intros l0 r0 Hl0 Hout. rewrite list_lookup_insert_ne; [done|].
    intros <-. apply Hout. by apply (elem_of_values n).
  - intros l0 Hl0. left. apply elem_of_values_inv in Hl0 as [k Hk].
    apply dict_del_elem in Hk. by apply (elem_of_values k).
  - auto.
  - intros l0 r0 r0' Hl0 _ Hin0. apply elem_of_values_inv in Hin0 as [k Hk].
    destruct (Hother k l0 Hk) as [_ Hne].
    rewrite list_lookup_insert_ne by done. congruence.
Qed.

(** *** What the room methods leave, when they return *)

Lemma live_in_progress r : in_progress r = true -> live r.
Proof.
  intros H. destruct (in_progress_inv r H) as (a & ua & b & ub & _ & _ & _ & Hf & Hlen).
  split; [done|]. split; [done|]. by right.
Qed.

(** In a room with no turn holder the board is sent, and the look-up of
    the turn holder's name raises [KeyError], unless a closed socket in
    the audience has raised [OSError] before. *)
Lemma broadcast_board_status_no_turn r d cl :
  current_turn r = None ->
  broadcast_board_status (mkCtx r d cl)
  = (mkCtx r d cl,
     map (fun to => Send to (board_message r)) (before_closed cl (audience r)),
     Raise (if audience_open cl r then KeyError else OSError)).
Proof.
  intros Ht. destruct (audience_open cl r) eqn:Hopen.
  - unfold broadcast_board_status, this. unfold bind at 1. unfold gets. cbv zeta.
    change (self (mkCtx r d cl)) with r.
    rewrite broadcast_then. change (srv_closed (mkCtx r d cl)) with cl. rewrite Hopen.
    rewrite before_closed_open by exact Hopen.
    run. rewrite Ht. cbn. by rewrite app_nil_r.
  - by apply broadcast_board_status_closed.
Qed.

Lemma waiting_place_raises r d cl client_sock args :
  finished r = false -> waiting r ->
  snd (place_marker client_sock args (mkCtx r d cl))
  = Raise (if audience_open cl r then KeyError else OSError).
Proof.
  intros Hf (a & ua & Hp & Ht). unfold place_marker. run. rewrite Hf, Ht.
  rewrite bool_decide_eq_false_2 by done. cbn.
  by rewrite broadcast_board_status_no_turn.
Qed.

Lemma place_marker_post r d cl client_sock args c' evs :
  live r ->
  place_marker client_sock args (mkCtx r d cl) = (c', evs, Ok tt) ->
  (srv_rooms c' = d /\ name (self c') = name r /\ live (self c')
   /\ players (self c') = players r)
  \/ (srv_rooms c' = dropped r d /\ finished (self c') = true).
Proof.
  intros (Hf & Hlen & [Hw | Hin]) Hrun.
  { pose proof (waiting_place_raises r d cl client_sock args Hf Hw) as Hr.
    rewrite Hrun in Hr. done. }
  destruct (decide (current_turn r = Some client_sock)) as [Ht | Ht].
  - destruct (in_progress_inv r Hin) as (a & ua & b & ub & Hp & Hab & Hturn & _ & _).
    assert (Hum : exists um, Dict.get client_sock (players r) = Some um).
    { rewrite Hp. cbn. rewrite Ht in Hturn. destruct Hturn as [[= ->] | [= ->]].
      - rewrite decide_True by done. by eexists.
      - rewrite decide_False by congruence. rewrite decide_True by done. by eexists. }
    destruct Hum as [um Hum].
    destruct (args !! 0%nat) as [sx|] eqn:Hsx; cycle 1.
    { exfalso. revert Hrun. unfold place_marker. run. rewrite Hf, Ht.
      rewrite bool_decide_eq_true_2 by done. cbn. unfold int_arg. run. rewrite Hsx. done. }
    destruct (Py.int sx) as [x|] eqn:Hx; cycle 1.
    { exfalso. revert Hrun. unfold place_marker. run. rewrite Hf, Ht.
      rewrite bool_decide_eq_true_2 by done. cbn. unfold int_arg. run. rewrite Hsx. cbn.
      rewrite Hx. done. }
    destruct (args !! 1%nat) as [sy|] eqn:Hsy; cycle 1.
    { exfalso. revert Hrun. unfold place_marker. run. rewrite Hf, Ht.
      rewrite bool_decide_eq_true_2 by done. cbn. unfold int_arg. run. rewrite Hsx. cbn.
      rewrite Hx. cbn. rewrite Hsy. done. }
    destruct (Py.int sy) as [y|] eqn:Hy; cycle 1.
    { exfalso. revert Hrun. unfold place_marker. run. rewrite Hf, Ht.
      rewrite bool_decide_eq_true_2 by done. cbn. unfold int_arg. run. rewrite Hsx. cbn.
      rewrite Hx. cbn. rewrite Hsy. cbn. rewrite Hy. done. }
    destruct (py_index 9 (y * 3 + x)) as [pos|] eqn:Hpos; cycle 1.
    { exfalso. revert Hrun. unfold place_marker. run. rewrite Hf, Ht.
      rewrite bool_decide_eq_true_2 by done. cbn. unfold int_arg. run. rewrite Hsx. cbn.
      rewrite Hx. cbn. rewrite Hsy. cbn. rewrite Hy. cbn. rewrite Hp. cbn.
      rewrite Hlen, Hpos. done. }
    destruct (audience_open cl r) eqn:Hopen; cycle 1.
    { rewrite (place_marker_turn_closed r d cl client_sock um args sx sy x y pos a ua b ub
                 Hp Hab Hf Hlen Ht Hum Hsx Hsy Hx Hy Hpos Hopen) in Hrun. done. }
    pose proof (place_marker_turn r d cl client_sock um args sx sy x y pos a ua b ub
                  Hp Hab Hf Hlen Ht Hum Hsx Hsy Hx Hy Hpos Hopen) as Hrun'.
    cbn zeta in Hrun'. rewrite Hrun in Hrun'.
    destruct (wins _ _); [right; by injection Hrun' as -> _|].
    destruct (board_full _); [right; by injection Hrun' as -> _|].
    left. injection Hrun' as -> _. cbn.
    assert (Hlen' : length (<[pos:=marker_of r client_sock]> (board r)) = 9%nat)
      by (by rewrite length_insert).
    split; [done|]. split; [done|]. split; [|done].
    split; [done|]. split; [done|].
    right. apply (in_progress_intro _ a ua b ub); cbn; try done.
    case_bool_decide; auto.
  - destruct (audience_open cl r) eqn:Hopen; cycle 1.
    { rewrite (place_marker_waits_closed r d cl client_sock args Hf Ht Hopen) in Hrun.
      done. }
    left. rewrite (place_marker_waits r d cl client_sock args Hin Ht Hopen) in Hrun.
    injection Hrun as <- _. repeat split; try done. by right.
Qed.

(** A placement in a live room returns only when every socket of the
    audience is open. *)
Lemma place_marker_returns_open r d cl client_sock args c' evs :
  live r ->
  place_marker client_sock args (mkCtx r d cl) = (c', evs, Ok tt) ->
  audience_open cl r = true.
Proof.
  intros (Hf & Hlen & [Hw | Hin]) Hrun.
  { pose proof (waiting_place_raises r d cl client_sock args Hf Hw) as Hr.
    rewrite Hrun in Hr. done. }
  destruct (audience_open cl r) eqn:Hopen; [done|]. exfalso.
  destruct (decide (current_turn r = Some client_sock)) as [Ht | Ht]; cycle 1.
  { by rewrite (place_marker_waits_closed r d cl client_sock args Hf Ht Hopen) in Hrun. }
  destruct (in_progress_inv r Hin) as (a & ua & b & ub & Hp & Hab & Hturn & _ & _).
  assert (Hum : exists um, Dict.get client_sock (players r) = Some um).
  { rewrite Hp. cbn. rewrite Ht in Hturn. destruct Hturn as [[= ->] | [= ->]].
    - rewrite decide_True by done. by eexists.
    - rewrite decide_False by congruence. rewrite decide_True by done. by eexists. }
  destruct Hum as [um Hum].
  destruct (args !! 0%nat) as [sx|] eqn:Hsx; cycle 1.
  { revert Hrun. unfold place_marker. run. rewrite Hf, Ht.
    rewrite bool_decide_eq_true_2 by done. cbn. unfold int_arg. run. rewrite Hsx. done. }
  destruct (Py.int sx) as [x|] eqn:Hx; cycle 1.
  { revert Hrun. unfold place_marker. run. rewrite Hf, Ht.
    rewrite bool_decide_eq_true_2 by done. cbn. unfold int_arg. run. rewrite Hsx. cbn.
    rewrite Hx. done. }
  destruct (args !! 1%nat) as [sy|] eqn:Hsy; cycle 1.
  { revert Hrun. unfold place_marker. run. rewrite Hf, Ht.
    rewrite bool_decide_eq_true_2 by done. cbn. unfold int_arg. run. rewrite Hsx. cbn.
    rewrite Hx. cbn. rewrite Hsy. done. }
  destruct (Py.int sy) as [y|] eqn:Hy; cycle 1.
  { revert Hrun. unfold place_marker. run. rewrite Hf, Ht.
    rewrite bool_decide_eq_true_2 by done. cbn. unfold int_arg. run. rewrite Hsx. cbn.
    rewrite Hx. cbn. rewrite Hsy. cbn. rewrite Hy. done. }
  destruct (py_index 9 (y * 3 + x)) as [pos|] eqn:Hpos; cycle 1.
  { revert Hrun. unfold place_marker. run. rewrite Hf, Ht.
    rewrite bool_decide_eq_true_2 by done. cbn. unfold int_arg. run. rewrite Hsx. cbn.
    rewrite Hx. cbn. rewrite Hsy. cbn. rewrite Hy. cbn. rewrite Hp. cbn.
    rewrite Hlen, Hpos. done. }
  by rewrite (place_marker_turn_closed r d cl client_sock um args sx sy x y pos a ua b ub
                Hp Hab Hf Hlen Ht Hum Hsx Hsy Hx Hy Hpos Hopen) in Hrun.
Qed.

Lemma forfeit_game_post r d cl client_sock c' evs :
  finished r = false ->
  forfeit_game client_sock (mkCtx r d cl) = (c', evs, Ok tt) ->
  c' = ended (mkCtx r d cl).
Proof.
  intros Hf. unfold forfeit_game. run. rewrite Hf.
  destruct (get_opposing_player r) as [o|e]; cbn; [|done].
  destruct (Dict.get o (players r)) as [w|]; cbn; [|done].
  destruct (audience_open cl r) eqn:Hopen.
  - rewrite broadcast_game_end_run by done. cbn. by intros [= <- _].
  - rewrite broadcast_game_end_closed by done. done.
Qed.

(** *** Scans of the directory *)

Lemma room_at_state l s : fst (fst (room_at l s)) = s.
Proof. unfold room_at. run. by destruct (heap s !! l). Qed.

Lemma first_room_with_run client_sock refs s :
  Forall (fun l => is_Some (heap s !! l)) refs ->
  exists found,
    first_room_with client_sock refs s = (s, [], Ok found)
    /\ match found with
       | Some l => l ∈ refs /\ exists r, heap s !! l = Some r /\ has_player r client_sock = true
       | None => True
       end.
Proof.
  induction 1 as [|l refs [r Hl] _ IH]; cbn.
  - by exists None.
  - unfold bind. rewrite (room_at_run s l r Hl).
    destruct (has_player r client_sock) eqn:Hhas.
    + exists (Some l). split; [done|]. split; [left|]. by exists r.
    + destruct IH as (found & -> & Hfound). exists found. split; [done|].
      destruct found as [l'|]; [|done]. destruct Hfound as [Hin Hr]. split; [by right|done].
Qed.

Lemma listed_rooms_run mode refs s :
  Forall (fun l => is_Some (heap s !! l)) refs ->
  exists names, listed_rooms mode refs s = (s, [], Ok names).
Proof.
  induction 1 as [|l refs [r Hl] _ IH]; cbn.
  - by exists [].
  - unfold bind. rewrite (room_at_run s l r Hl).
    destruct IH as (names & ->).
    destruct (_ || _); by eexists.
Qed.

(** The names that a room list holds are names of rooms of the directory;
    in viewer mode they are all of them, in directory order. *)
Lemma listed_rooms_names mode s (d : list (string * rid)) :
  (forall n l, (n, l) ∈ d -> exists r, heap s !! l = Some r /\ name r = n) ->
  exists names,
    listed_rooms mode (Dict.values d) s = (s, [], Ok names)
    /\ (forall n, n ∈ names -> n ∈ Dict.keys d)
    /\ (mode = "VIEWER" -> names = Dict.keys d).
Proof.
  induction d as [|[n l] d IH]; intros Hd.
  - exists []. split; [done|]. split; [|done]. intros n Hn. by apply elem_of_nil in Hn.
  - destruct (Hd n l) as (r & Hl & Hn); [left|].
    destruct IH as (names & Hrun & Hsub & Hall).
    { intros n' l' Hin. apply Hd. by right. }
    cbn. unfold bind. rewrite (room_at_run s l r Hl).
    unfold Dict.values in Hrun. rewrite Hrun.
    destruct (_ || _) eqn:Hsel.
    + exists (name r :: names). split; [done|]. split.
      * intros n' Hn'. apply elem_of_cons in Hn' as [-> | Hn']; [rewrite Hn; left|].
        right. by apply Hsub.
      * intros Hmode. rewrite Hn. cbn. f_equal. by apply Hall.
    + exists names. split; [done|]. split.
      * intros n' Hn'. right. by apply Hsub.
      * intros ->. rewrite String.eqb_refl, orb_true_r in Hsel. done.
Qed.

(** ROOMLIST from an authenticated connection with a valid mode changes
    nothing and answers with the sorted names of rooms of the directory. *)
Lemma handle_roomlist_names client_sock a s :
  consistent s -> Dict.has client_sock (authenticated_users s) = true ->
  is_mode a = true ->
  exists names,
    handle_roomlist client_sock [a] s
    = (s, [Send client_sock ("ROOMLIST:ACKSTATUS:0:" +:+ Py.join "," (Py.sorted names)
                             +:+ Py.nl)], Ok tt)
    /\ (forall n, n ∈ names -> n ∈ Dict.keys (rooms s))
    /\ (Py.upper a = "VIEWER" -> names = Dict.keys (rooms s)).
Proof.
  intros Hc Hauth Hmode.
  destruct (listed_rooms_names (Py.upper a) s (rooms s)) as (names & Hrun & Hsub & Hall).
  { intros n l Hin. destruct (refs_live s Hc n l Hin) as (r & Hl & Hn & _). by exists r. }
  exists names. split; [|done].
  unfold handle_roomlist. run. rewrite Hauth, Hmode. cbn. rewrite Hrun. done.
Qed.

Lemma consistent_refs s :
  consistent s -> Forall (fun l => is_Some (heap s !! l)) (Dict.values (rooms s)).
Proof.
  intros Hc. apply Forall_forall. intros l Hl.
  apply elem_of_values_inv in Hl as [n Hn].
  destruct (refs_live s Hc n l Hn) as (r & Hr & _). by exists r.
Qed.

(** *** Every handler keeps the directory consistent *)

Ltac unchanged := intros [= <- _]; split; [done | apply evolves_refl].

Lemma handle_login_step checkpw client_sock args s s' evs r :
  consistent s -> handle_login checkpw client_sock args s = (s', evs, r) ->
  consistent s' /\ evolves s s'.
Proof.
  intros Hc. unfold handle_login.
  destruct args as [|u [|p [|? ?]]]; run; try unchanged.
  destruct (List.find _ _) as [user|]; [|unchanged].
  destruct (checkpw p (password user)); cbn; [|unchanged].
  intros [= <- _]. apply consistent_same_rooms; try done.
  cbn. intros q. apply dict_has_set_mono.
Qed.

Lemma handle_register_step hashpw client_sock args s s' evs r :
  consistent s -> handle_register hashpw client_sock args s = (s', evs, r) ->
  consistent s' /\ evolves s s'.
Proof.
  intros Hc. unfold handle_register.
  destruct args as [|u [|p [|? ?]]]; run; try unchanged.
  destruct (existsb _ _); cbn; [unchanged|].
  destruct (hashpw p); cbn; [|unchanged].
  intros [= <- _]. by apply consistent_same_rooms.
Qed.

Lemma handle_roomlist_step client_sock args s s' evs r :
  consistent s -> handle_roomlist client_sock args s = (s', evs, r) ->
  consistent s' /\ evolves s s'.
Proof.
  intros Hc. unfold handle_roomlist. run.
  destruct (Dict.has client_sock (authenticated_users s)); cbn; [|unchanged].
  destruct args as [|a [|? ?]]; try unchanged.
  destruct (is_mode a); [|unchanged].
  destruct (listed_rooms_run (Py.upper a) _ s (consistent_refs s Hc)) as (names & ->).
  cbn. unchanged.
Qed.

Lemma dict_has_false_keys {V} (k : string) (d : list (string * V)) :
  Dict.has k d = false -> k ∉ Dict.keys d.
Proof.
  unfold Dict.has. induction d as [|[k' v'] d IH]; cbn; intros H Hin.
  - by apply elem_of_nil in Hin.
  - destruct (decide (k = k')) as [->|Hne]; [done|].
    apply elem_of_cons in Hin as [-> | Hin]; [done|]. by apply IH.
Qed.

Lemma live_new_room room_name client_sock uname :
  live (set_players [(client_sock, uname)] (new_room room_name)).
Proof.
  split; [done|]. split; [done|]. left. by exists client_sock, uname.
Qed.

Section CreateStep.

#[local] Arguments Nat.leb : simpl never.

Lemma handle_create_room_step client_sock args s s' evs :
  consistent s -> handle_create_room client_sock args s = (s', evs, Ok tt) ->
  consistent s' /\ evolves s s'.
Proof.
  intros Hc.
  destruct (Dict.get client_sock (authenticated_users s)) as [uname|] eqn:Hauth; cycle 1.
  { unfold handle_create_room. run. unfold Dict.has. rewrite Hauth. cbn. unchanged. }
  destruct args as [|room_name [|? ?]];
    try (unfold handle_create_room; run; rewrite (dict_has_get _ _ _ Hauth); cbn; unchanged).
  destruct (room_name_chars_ok room_name) eqn:Hchars; cycle 1.
  { unfold handle_create_room; run; rewrite (dict_has_get _ _ _ Hauth); cbn.
    rewrite Hchars. cbn. unchanged. }
  destruct (Dict.has room_name (rooms s)) eqn:Hfree.
  { unfold handle_create_room; run; rewrite (dict_has_get _ _ _ Hauth); cbn.
    rewrite Hchars, Hfree. cbn. unchanged. }
  destruct (decide (length (rooms s) < 256)%nat) as [Hsize|Hsize]; cycle 1.
  { unfold handle_create_room; run; rewrite (dict_has_get _ _ _ Hauth); cbn.
    rewrite Hchars, Hfree. cbn.
    replace (256 <=? length (rooms s))%nat with true by (symmetry; apply Nat.leb_le; lia).
    unchanged. }
  rewrite (create_room_any_length s client_sock uname room_name) by done.
  intros [= <- _]. destruct Hc as [H1 H2 H3 H4].
  assert (Hrefs : forall l, l ∈ Dict.values (rooms s) -> (l < length (heap s))%nat).
  { intros l Hl. apply elem_of_values_inv in Hl as [n Hn].
    destruct (H3 n l Hn) as (r & Hr & _). apply lookup_lt_is_Some_1. by eexists. }
  split; split; cbn.
  - unfold Dict.keys. rewrite map_app. cbn. apply NoDup_app. split; [done|].
    split; [|apply NoDup_singleton].
    intros k Hk Hk'. apply list_elem_of_singleton in Hk' as ->.
    by apply (dict_has_false_keys room_name (rooms s)).
  - unfold Dict.values. rewrite map_app. cbn. apply NoDup_app. split; [done|].
    split; [|apply NoDup_singleton].
    intros l Hl Hl'. apply list_elem_of_singleton in Hl' as ->.
    apply Hrefs in Hl. lia.
  - intros n l Hin. apply elem_of_app in Hin as [Hin | Hin].
    + destruct (H3 n l Hin) as (r & Hr & Hn & Hlive). exists r.
      split; [|done]. rewrite lookup_app_l; [done|].
      apply lookup_lt_is_Some_1. by eexists.
    + apply list_elem_of_singleton in Hin as [= -> ->]. eexists. split.
      * by apply list_lookup_middle.
      * split; [done|]. apply live_new_room.
  - intros n l r p Hin. apply elem_of_app in Hin as [Hin | Hin].
    + destruct (H3 n l Hin) as (r0 & Hr0 & _).
      rewrite lookup_app_l by (apply lookup_lt_is_Some_1; by eexists).
      by apply (H4 n).
    + apply list_elem_of_singleton in Hin as [= -> ->].
      rewrite list_lookup_middle by done. intros [= <-]. cbn.
      intros Hp. apply list_elem_of_singleton in Hp as ->. by apply (dict_has_get _ _ uname).
  - rewrite length_app. lia.
  - intros l r Hl _. rewrite lookup_app_l; [done|]. apply lookup_lt_is_Some_1. by eexists.
  - intros l Hl. unfold Dict.values in Hl. rewrite map_app in Hl.
    apply elem_of_app in Hl as [Hl | Hl]; [by left|].
    cbn in Hl. apply list_elem_of_singleton in Hl as ->. right. lia.
  - done.
  - intros l r r' Hl _ _. rewrite lookup_app_l by (apply lookup_lt_is_Some_1; by eexists).
    congruence.
Qed.

End CreateStep.

Lemma call_step {A} l (m : M RoomCtx A) s s' evs (res : result A) n r :
  consistent s -> (n, l) ∈ rooms s -> heap s !! l = Some r ->
  (forall c', m (mkCtx r (rooms s) (closed s)) = (c', evs, res) ->
     (srv_rooms c' = rooms s /\ name (self c') = name r /\ live (self c')
      /\ players (self c') = players r)
     \/ srv_rooms c' = dropped r (rooms s)) ->
  call l m s = (s', evs, res) ->
  consistent s' /\ evolves s s'.
Proof.
  intros Hc Hin Hl Hpost. unfold call. rewrite Hl.
  destruct (m (mkCtx r (rooms s) (closed s))) as [[c' evs'] res'] eqn:Hm.
  intros [= <- <- <-].
  destruct (refs_live s Hc n l Hin) as (r0 & Hr0 & Hname & _).
  rewrite Hl in Hr0. injection Hr0 as <-.
  destruct (Hpost c' eq_refl) as [(Hd & Hn & Hlive & Hp) | Hd]; rewrite Hd.
  - apply (consistent_update s n l r); try done; [congruence|].
    intros p. rewrite Hp. by apply (players_known s Hc n l r).
  - unfold dropped. rewrite Hname.
    rewrite (dict_has_get n (rooms s) l)
      by (apply dict_get_elem; [apply (keys_nodup s Hc)|done]).
    by apply (consistent_drop s n l).
Qed.

Lemma found_room s client_sock :
  consistent s ->
  exists found,
    first_room_with client_sock (Dict.values (rooms s)) s = (s, [], Ok found)
    /\ match found with
       | Some l => exists n r, (n, l) ∈ rooms s /\ heap s !! l = Some r /\ live r
                               /\ has_player r client_sock = true
       | None => True
       end.
Proof.
  intros Hc.
  destruct (first_room_with_run client_sock _ s (consistent_refs s Hc)) as (found & Hrun & Hf).
  exists found. split; [done|]. destruct found as [l|]; [|done].
  destruct Hf as (Hin & r & Hl & Hhas).
  apply elem_of_values_inv in Hin as [n Hn].
  destruct (refs_live s Hc n l Hn) as (r0 & Hr0 & _ & Hlive).
  rewrite Hl in Hr0. injection Hr0 as <-. by exists n, r.
Qed.

Lemma handle_place_step client_sock args s s' evs :
  consistent s -> handle_place client_sock args s = (s', evs, Ok tt) ->
  consistent s' /\ evolves s s'.
Proof.
  intros Hc. unfold handle_place. run.
  destruct (Dict.has client_sock (authenticated_users s)); cbn; [|unchanged].
  destruct (found_room s client_sock Hc) as (found & -> & Hf). cbn.
  destruct found as [l|]; [|unchanged].
  destruct Hf as (n & r & Hin & Hl & Hlive & _).
  destruct (call l _ s) as [[s1 evs1] res1] eqn:Hcall. intros [= <- <- ->].
  apply (call_step l (place_marker client_sock args) s s1 evs1 (Ok tt) n r Hc Hin Hl);
    [|done].
  intros c' Hrun.
  destruct (place_marker_post r (rooms s) (closed s) client_sock args c' evs1 Hlive Hrun)
    as [(Hd & Hn & Hlive' & Hp) | [Hd _]]; [by left|by right].
Qed.

Lemma forfeit_step client_sock l s s' evs n r :
  consistent s -> (n, l) ∈ rooms s -> heap s !! l = Some r -> live r ->
  call l (forfeit_game client_sock) s = (s', evs, Ok tt) ->
  consistent s' /\ evolves s s'.
Proof.
  intros Hc Hin Hl Hlive.
  apply (call_step l (forfeit_game client_sock) s s' evs (Ok tt) n r Hc Hin Hl).
  intros c' Hrun. right.
  by rewrite (forfeit_game_post r (rooms s) (closed s) client_sock c' evs
                (proj1 Hlive) Hrun).
Qed.

Lemma handle_forfeit_step client_sock s s' evs :
  consistent s -> handle_forfeit client_sock s = (s', evs, Ok tt) ->
  consistent s' /\ evolves s s'.
Proof.
  intros Hc. unfold handle_forfeit. run.
  destruct (Dict.has client_sock (authenticated_users s)); cbn; [|unchanged].
  destruct (found_room s client_sock Hc) as (found & -> & Hf). cbn.
  destruct found as [l|]; [|unchanged].
  destruct Hf as (n & r & Hin & Hl & Hlive & _).
  destruct (call l _ s) as [[s1 evs1] res1] eqn:Hcall. intros [= <- <- ->].
  by apply (forfeit_step client_sock l s s1 evs1 n r).
Qed.

Lemma handle_client_disconnect_step client_sock s s' evs :
  consistent s -> handle_client_disconnect client_sock s = (s', evs, Ok tt) ->
  consistent s' /\ evolves s s'.
Proof.
  intros Hc. unfold handle_client_disconnect, close. run.
  destruct (found_room s client_sock Hc) as (found & -> & Hf). cbn.
  destruct found as [l|].
  - destruct Hf as (n & r & Hin & Hl & Hlive & _).
    destruct (call l _ s) as [[s1 evs1] [[]|e]] eqn:Hcall; [|done].
    intros [= <- _]. apply closed_step.
    by apply (forfeit_step client_sock l s s1 evs1 n r).
  - intros [= <- _]. apply closed_step. split; [done | apply evolves_refl].
Qed.

Lemma add_viewer_run client_sock r d cl :
  add_viewer client_sock (mkCtx r d cl)
  = (mkCtx (set_viewers (viewers r ++ [client_sock]) r) d cl, [], Ok tt).
Proof. unfold add_viewer. run. done. Qed.

(** The second player joins: the acknowledgement is written, the player
    is added, the turn is set, and BEGIN is written to the audience, to
    all of it or up to its first closed socket. *)
Lemma join_second_player_cases s client_sock ub room_name mode l r a ua :
  Dict.get client_sock (authenticated_users s) = Some ub ->
  Py.upper mode = "PLAYER" ->
  Dict.get room_name (rooms s) = Some l ->
  heap s !! l = Some r ->
  players r = [(a, ua)] -> a <> client_sock ->
  let r' := set_current_turn (Some a) (set_players [(a, ua); (client_sock, ub)] r) in
  handle_join_room client_sock [room_name; mode] s
  = (set_heap (<[l := r']> (heap s)) s,
     Send client_sock ("JOIN:ACKSTATUS:0" +:+ Py.nl)
     :: map (fun to => Send to ("BEGIN:" +:+ ua +:+ ":" +:+ ub +:+ Py.nl))
            (before_closed (closed s) (audience r')),
     if audience_open (closed s) r' then Ok tt else Raise OSError).
Proof.
  intros Hauth Hmode Hroom Hl Hp Hne r'.
  set (s1 := set_heap (<[l := set_players [(a, ua); (client_sock, ub)] r]> (heap s))
                      (set_rooms (rooms s) s)).
  assert (Hl1 : heap s1 !! l = Some (set_players [(a, ua); (client_sock, ub)] r))
    by (apply list_lookup_insert_eq; by apply lookup_lt_is_Some_1; eexists).
  unfold handle_join_room. run.
  rewrite (dict_has_get _ _ _ Hauth). cbn.
  unfold is_mode. rewrite Hmode, !String.eqb_refl. cbn. rewrite Hroom. cbn.
  rewrite (room_at_run s l r Hl). cbn. unfold is_full at 1. rewrite Hp. cbn.
  rewrite Hauth. cbn.
  rewrite (call_run l _ s r _ _ _ Hl
             (add_player_run client_sock ub r (rooms s) (closed s))).
  rewrite Hp. cbn. rewrite decide_False by congruence. fold s1.
  rewrite (room_at_run s1 l _ Hl1). cbn.
  rewrite (call_run l _ s1 _ _ _ _ Hl1
             (start_game_cases (set_players [(a, ua); (client_sock, ub)] r) (rooms s1)
                               (closed s1) a ua client_sock ub eq_refl)).
  cbn. rewrite list_insert_insert_eq. unfold r'. destruct s; done.
Qed.


Lemma join_same_player_run s client_sock ub room_name mode l r ua :
  Dict.get client_sock (authenticated_users s) = Some ub ->
  Py.upper mode = "PLAYER" ->
  Dict.get room_name (rooms s) = Some l ->
  heap s !! l = Some r ->
  players r = [(client_sock, ua)] ->
  handle_join_room client_sock [room_name; mode] s
  = (set_heap (<[l := set_players [(client_sock, ub)] r]> (heap s)) s,
     [Send client_sock ("JOIN:ACKSTATUS:0" +:+ Py.nl)], Ok tt).
Proof.
  intros Hauth Hmode Hroom Hl Hp.
  set (s1 := set_heap (<[l := set_players [(client_sock, ub)] r]> (heap s))
                      (set_rooms (rooms s) s)).
  assert (Hl1 : heap s1 !! l = Some (set_players [(client_sock, ub)] r))
    by (apply list_lookup_insert_eq; by apply lookup_lt_is_Some_1; eexists).
  unfold handle_join_room. run.
  rewrite (dict_has_get _ _ _ Hauth). cbn.
  unfold is_mode. rewrite Hmode, !String.eqb_refl. cbn. rewrite Hroom. cbn.
  rewrite (room_at_run s l r Hl). cbn. unfold is_full at 1. rewrite Hp. cbn.
  rewrite Hauth. cbn.
  rewrite (call_run l _ s r _ _ _ Hl
             (add_player_run client_sock ub r (rooms s) (closed s))).
  rewrite Hp. cbn. rewrite decide_True by done. fold s1.
  rewrite (room_at_run s1 l _ Hl1). cbn. unfold s1. destruct s; done.
Qed.

Lemma live_not_full r : live r -> is_full r = false -> waiting r.
Proof.
  intros (_ & _ & [Hw | Hin]) Hfull; [done|].
  unfold in_progress in Hin. rewrite Hfull in Hin.
  by rewrite andb_false_r in Hin.
Qed.

Lemma set_heap_same_rooms h s : set_heap h (set_rooms (rooms s) s) = set_heap h s.
Proof. by destruct s. Qed.

Lemma handle_join_room_step client_sock args s s' evs :
  consistent s -> handle_join_room client_sock args s = (s', evs, Ok tt) ->
  consistent s' /\ evolves s s'.
Proof.
  intros Hc.
  destruct (Dict.get client_sock (authenticated_users s)) as [uname|] eqn:Hauth; cycle 1.
  { unfold handle_join_room. run. unfold Dict.has. rewrite Hauth. cbn. unchanged. }
  destruct args as [|room_name [|mode [|? ?]]];
    try (unfold handle_join_room; run; rewrite (dict_has_get _ _ _ Hauth); cbn; unchanged).
  destruct (is_mode mode) eqn:Hmode; cycle 1.
  { unfold handle_join_room; run; rewrite (dict_has_get _ _ _ Hauth); cbn.
    rewrite Hmode. cbn. unchanged. }
  destruct (Dict.get room_name (rooms s)) as [l|] eqn:Hroom; cycle 1.
  { unfold handle_join_room; run; rewrite (dict_has_get _ _ _ Hauth); cbn.
    rewrite Hmode. cbn. rewrite Hroom. cbn. unchanged. }
  pose proof (dict_get_elem_inv _ _ _ Hroom) as Hin.
  destruct (refs_live s Hc _ _ Hin) as (r & Hl & Hname & Hlive).
  assert (Hknown : forall p, p ∈ Dict.keys (players r) ->
                             Dict.has p (authenticated_users s) = true)
    by (intros p; by apply (players_known s Hc room_name l r)).
  destruct (String.eqb (Py.upper mode) "PLAYER") eqn:Hpl.
  - apply String.eqb_eq in Hpl. destruct (is_full r) eqn:Hfull.
    { unfold handle_join_room; run; rewrite (dict_has_get _ _ _ Hauth); cbn.
      rewrite Hmode. cbn. rewrite Hroom. cbn. rewrite (room_at_run s l r Hl). cbn.
      rewrite Hpl, String.eqb_refl, Hfull. cbn. unchanged. }
    destruct (live_not_full r Hlive Hfull) as (a & ua & Hp & Ht).
    destruct Hlive as (Hf & Hlen & _).
    destruct (decide (a = client_sock)) as [-> | Hne].
    + rewrite (join_same_player_run s client_sock uname room_name mode l r ua) by done.
      intros [= <- _]. rewrite <- set_heap_same_rooms.
      apply (consistent_update s room_name l r); try done; [| |congruence].
      * split; [done|]. split; [done|]. left. by exists client_sock, uname.
      * cbn. intros p Hp'. apply list_elem_of_singleton in Hp' as ->.
        by apply (dict_has_get _ _ uname).
    + rewrite (join_second_player_cases s client_sock uname room_name mode l r a ua)
        by done.
      intros [= <- _ _]. rewrite <- set_heap_same_rooms.
      apply (consistent_update s room_name l r); try done; [| |congruence].
      * apply live_in_progress.
        apply (in_progress_intro _ a ua client_sock uname); cbn; auto.
      * cbn. intros p Hp'. apply elem_of_cons in Hp' as [-> | Hp'].
        -- apply Hknown. rewrite Hp. left.
        -- apply list_elem_of_singleton in Hp' as ->. by apply (dict_has_get _ _ uname).
  - set (r1 := set_viewers (viewers r ++ [client_sock]) r).
    set (s1 := set_heap (<[l := r1]> (heap s)) (set_rooms (rooms s) s)).
    assert (Hl1 : heap s1 !! l = Some r1)
      by (apply list_lookup_insert_eq; by apply lookup_lt_is_Some_1; eexists).
    assert (Hstep : consistent s1 /\ evolves s s1).
    { by apply (consistent_update s room_name l r). }
    unfold handle_join_room; run; rewrite (dict_has_get _ _ _ Hauth); cbn.
    rewrite Hmode. cbn. rewrite Hroom. cbn. rewrite (room_at_run s l r Hl). cbn.
    rewrite Hpl.
    rewrite (call_run l _ s r _ _ _ Hl
               (add_viewer_run client_sock r (rooms s) (closed s))).
    cbn. fold r1 s1. rewrite (room_at_run s1 l r1 Hl1). cbn.
    destruct (length (players r) =? 2)%nat; cbn; [|by intros [= <- _]].
    destruct (current_turn r ≫= _); cbn; [|done].
    destruct (get_opposing_player r1); cbn; [|done].
    destruct (Dict.get _ (players r)); cbn; [|done].
    by intros [= <- _].
Qed.

Lemma dispatch_step checkpw hashpw client_sock command s s' evs :
  consistent s -> dispatch checkpw hashpw client_sock command s = (s', evs, Ok tt) ->
  consistent s' /\ evolves s s'.
Proof.
  intros Hc. unfold dispatch. destruct command as [|keyword args]; [done|].
  destruct (String.eqb keyword "LOGIN"); [by apply handle_login_step|].
  destruct (String.eqb keyword "REGISTER"); [by apply handle_register_step|].
  destruct (String.eqb keyword "ROOMLIST"); [by apply handle_roomlist_step|].
  destruct (String.eqb keyword "CREATE"); [by apply handle_create_room_step|].
  destruct (String.eqb keyword "JOIN"); [by apply handle_join_room_step|].
  destruct (String.eqb keyword "PLACE"); [by apply handle_place_step|].
  destruct (String.eqb keyword "FORFEIT"); [by apply handle_forfeit_step|].
  unfold sendall, emit. unchanged.
Qed.

Lemma handle_client_step checkpw hashpw client_sock got s s' evs :
  consistent s -> handle_client checkpw hashpw client_sock got s = (s', evs, Ok tt) ->
  consistent s' /\ evolves s s'.
Proof.
  intros Hc. unfold handle_client. destruct got as [[|c data]|].
  - by apply handle_client_disconnect_step.
  - destruct (Py.is_ascii _); [|done]. by apply dispatch_step.
  - by apply handle_client_disconnect_step.
Qed.

(** ** Reachable servers *)

Section Reachable.

Variable checkpw : string -> string -> bool.
Variable hashpw : string -> option string.

Local Abbreviation runs_to := (runs_to checkpw hashpw).
Local Abbreviation runs_step := (runs_step checkpw hashpw).
Local Abbreviation reachable := (reachable checkpw hashpw).

Lemma runs_to_consistent s s' : consistent s -> runs_to s s' -> consistent s'.
Proof.
  intros Hc. induction 1 as [|s s1 s2 c got evs _ IH Hstep]; [done|].
  by apply (handle_client_step checkpw hashpw c got s1 s2 evs (IH Hc)).
Qed.

(** Every room of the directory of a reachable server is an unfinished
    room of nine cells, either waiting with one player and no turn holder
    or in progress; names and references are not shared, and the players
    are authenticated connections. *)
Lemma reachable_consistent s : reachable s -> consistent s.
Proof. intros [db Hrun]. apply (runs_to_consistent _ _ (consistent_init db) Hrun). Qed.

(** X23: a finished room is never revived: once a room object is finished it
    is outside the directory, and from then on no event changes it or
    brings it back. *)
Lemma finished_room_stays_out s s' (l : rid) r :
  consistent s -> runs_to s s' ->
  heap s !! l = Some r -> finished r = true ->
  heap s' !! l = Some r /\ l ∉ Dict.values (rooms s').
Proof.
  intros Hc Hrun Hl Hf.
  assert (Hout : forall s0, consistent s0 -> heap s0 !! l = Some r ->
                            l ∉ Dict.values (rooms s0)).
  { intros s0 Hc0 Hl0 Hin. apply elem_of_values_inv in Hin as [n Hn].
    destruct (refs_live s0 Hc0 n l Hn) as (r0 & Hr0 & _ & Hf0 & _).
    assert (r0 = r) as -> by (by apply (same_object (heap s0) l)). congruence. }
  induction Hrun as [|s s1 s2 c got evs Hrun IH Hstep]; [split; [done|by apply Hout]|].
  destruct (IH Hc Hl) as [Hl1 Hout1].
  pose proof (runs_to_consistent _ _ Hc Hrun) as Hc1.
  destruct (handle_client_step checkpw hashpw c got s1 s2 evs Hc1 Hstep) as [Hc2 Hev].
  assert (Hl2 : heap s2 !! l = Some r) by (by apply (outside_kept s1 s2 Hev)).
  split; [done|]. by apply Hout.
Qed.

Lemma runs_to_trans s1 s2 s3 : runs_to s1 s2 -> runs_to s2 s3 -> runs_to s1 s3.
Proof.
  intros H12 H23. induction H23 as [|s2 s3 s4 c got evs _ IH Hstep]; [done|].
  by apply (runs_step s1 s3 s4 c got evs); [apply IH|].
Qed.




End Reachable.

Lemma play_runs_to inputs s s' evs :
  play inputs s = (s', evs, Ok tt) -> runs_to plain_checkpw plain_hashpw s s'.
Proof.
  revert s evs. induction inputs as [|[c got] rest IH]; intros s evs.
  - cbn. intros [= <- _]. constructor.
  - cbn. unfold bind.
    destruct (handle_client plain_checkpw plain_hashpw c got s) as [[s1 evs1] [[]|e]] eqn:Hstep;
      [|done].
    destruct (play rest s1) as [[s2 evs2] res2] eqn:Hrest. intros [= <- _ ->].
    apply (runs_to_trans _ _ _ s1).
    + by apply (runs_step _ _ s s s1 c got evs1); [constructor|].
    + by apply (IH s1 evs2).
Qed.

(** ** Joining as second player, and markers *)

Lemma state_after_consistent inputs evs s :
  play inputs fresh_server = (s, evs, Ok tt) -> consistent s.
Proof.
  intros Hplay.
  apply (runs_to_consistent plain_checkpw plain_hashpw fresh_server s).
  - apply consistent_init.
  - by apply (play_runs_to inputs fresh_server s evs).
Qed.



(** ** A closed socket in the audience

    [handle_client_disconnect] closes the socket of a viewer and leaves it
    in the viewer list of the room; the next write to the room raises
    [OSError] there. *)

(** C4: the match between A (socket 1, holding the turn) and B (socket
    2) is watched by sockets 3 and 4, and the viewer on socket 3 has
    disconnected.  A's PLACE:0:0 on the empty board changes cell 0 and
    no other cell, and neither wins nor fills the board; the board is
    written to A and B, the write to the closed socket 3 raises
    [OSError], which ends the server loop, and the turn stays with A: it
    does not pass to B.  With the viewer still connected the same
    placement returns and the turn passes to B. *)
Theorem placement_with_closed_viewer_keeps_turn :
  let s := state_after viewer_gone fresh_server in
  let o := handle_client plain_checkpw plain_hashpw 1 (Data "PLACE:0:0") s in
  let connected :=
    handle_client plain_checkpw plain_hashpw 1 (Data "PLACE:0:0")
      (state_after match_watched fresh_server) in
  outcome_of (play viewer_gone fresh_server) = Ok tt
  /\ (exists r, heap s !! 0%nat = Some r /\ Dict.get "Arena" (rooms s) = Some 0%nat
                /\ in_progress r = true
                /\ players r = [(1%nat, "A"); (2%nat, "B")] /\ viewers r = [3%nat; 4%nat]
                /\ current_turn r = Some 1%nat /\ board r = replicate 9 "0")
  /\ closed s = [3%nat]
  /\ events_of o = [ Send 1%nat ("BOARDSTATUS:100000000" +:+ Py.nl);
                     Send 2%nat ("BOARDSTATUS:100000000" +:+ Py.nl) ]
  /\ outcome_of o = Raise OSError
  /\ (exists r', heap (fst (fst o)) !! 0%nat = Some r'
                 /\ board r' = ["1"; "0"; "0"; "0"; "0"; "0"; "0"; "0"; "0"]
                 /\ wins (board r') "1" = false /\ board_full (board r') = false
                 /\ finished r' = false
                 /\ current_turn r' = Some 1%nat)
  /\ outcome_of (play (viewer_gone ++ [ (1%nat, Data "PLACE:0:0");
                                        (2%nat, Data "PLACE:1:1") ]) fresh_server)
     = Raise OSError
  /\ outcome_of connected = Ok tt
  /\ (current_turn <$> heap (fst (fst connected)) !! 0%nat) = Some (Some 2%nat).
Proof.
  cbv zeta. split; [vm_compute; reflexivity|].
  split.
  { eexists. split; [vm_compute; reflexivity|]. repeat split; vm_compute; reflexivity. }
  split; [vm_compute; reflexivity|]. split; [vm_compute; reflexivity|].
  split; [vm_compute; reflexivity|].
  split.
  { eexists. split; [vm_compute; reflexivity|]. repeat split; vm_compute; reflexivity. }
  repeat split; vm_compute; reflexivity.
Qed.

(** C5: in the same match, with the viewer on socket 3 disconnected, a
    PLACE from B, who does not hold the turn, leaves the board and the
    turn holder unchanged and writes no acknowledgement, but it is not
    ignored silently: BOARDSTATUS is written to A and B only, the write
    to the closed socket 3 raises [OSError], the viewer on socket 4
    receives nothing, and the exception ends the server loop.  With the
    viewer still connected BOARDSTATUS goes to the two players and the
    two viewers and the handler returns. *)
Theorem out_of_turn_with_closed_viewer_raises :
  let s := state_after viewer_gone fresh_server in
  let o := handle_client plain_checkpw plain_hashpw 2 (Data "PLACE:0:0") s in
  let connected :=
    handle_client plain_checkpw plain_hashpw 2 (Data "PLACE:0:0")
      (state_after match_watched fresh_server) in
  (exists r, heap s !! 0%nat = Some r /\ in_progress r = true
             /\ has_player r 2 = true /\ current_turn r = Some 1%nat
             /\ viewers r = [3%nat; 4%nat])
  /\ closed s = [3%nat]
  /\ events_of o = [ Send 1%nat ("BOARDSTATUS:000000000" +:+ Py.nl);
                     Send 2%nat ("BOARDSTATUS:000000000" +:+ Py.nl) ]
  /\ outcome_of o = Raise OSError
  /\ fst (fst o) = s
  /\ outcome_of (play (viewer_gone ++ [ (2%nat, Data "PLACE:0:0");
                                        (1%nat, Data "PLACE:0:0") ]) fresh_server)
     = Raise OSError
  /\ events_of connected = [ Send 1%nat ("BOARDSTATUS:000000000" +:+ Py.nl);
                             Send 2%nat ("BOARDSTATUS:000000000" +:+ Py.nl);
                             Send 3%nat ("BOARDSTATUS:000000000" +:+ Py.nl);
                             Send 4%nat ("BOARDSTATUS:000000000" +:+ Py.nl) ]
  /\ outcome_of connected = Ok tt.
Proof.
  cbv zeta. split.
  { eexists. split; [vm_compute; reflexivity|]. repeat split; vm_compute; reflexivity. }
  repeat split; vm_compute; reflexivity.
Qed.

(** C9: A (socket 1) has created Arena and waits; sockets 3 and 4 have
    joined as viewers and the viewer on socket 3 has disconnected.  When
    B (socket 2) joins as second player the turn goes to A, the
    first-joined player, and the room is in progress, but BEGIN:A:B is
    written to A and B only: the write to the closed socket 3 raises
    [OSError], the viewer on socket 4 is never sent BEGIN, and the
    exception ends the server loop.  With the viewer still connected
    BEGIN goes to the two players and the two viewers. *)
Theorem begin_with_closed_viewer_raises :
  let s := state_after viewer_gone_early fresh_server in
  let o := handle_client plain_checkpw plain_hashpw 2 (Data "JOIN:Arena:PLAYER") s in
  let connected :=
    handle_client plain_checkpw plain_hashpw 2 (Data "JOIN:Arena:PLAYER")
      (state_after room_watched fresh_server) in
  outcome_of (play viewer_gone_early fresh_server) = Ok tt
  /\ (exists r, heap s !! 0%nat = Some r /\ Dict.get "Arena" (rooms s) = Some 0%nat
                /\ room_status r = Waiting
                /\ players r = [(1%nat, "A")] /\ viewers r = [3%nat; 4%nat])
  /\ closed s = [3%nat]
  /\ events_of o = [ Send 2%nat ("JOIN:ACKSTATUS:0" +:+ Py.nl);
                     Send 1%nat ("BEGIN:A:B" +:+ Py.nl);
                     Send 2%nat ("BEGIN:A:B" +:+ Py.nl) ]
  /\ outcome_of o = Raise OSError
  /\ (exists r', heap (fst (fst o)) !! 0%nat = Some r'
                 /\ room_status r' = InProgress
                 /\ players r' = [(1%nat, "A"); (2%nat, "B")]
                 /\ viewers r' = [3%nat; 4%nat]
                 /\ current_turn r' = Some 1%nat)
  /\ outcome_of (play (viewer_gone_early ++ [ (2%nat, Data "JOIN:Arena:PLAYER");
                                              (1%nat, Data "PLACE:0:0") ]) fresh_server)
     = Raise OSError
  /\ events_of connected = [ Send 2%nat ("JOIN:ACKSTATUS:0" +:+ Py.nl);
                             Send 1%nat ("BEGIN:A:B" +:+ Py.nl);
                             Send 2%nat ("BEGIN:A:B" +:+ Py.nl);
                             Send 3%nat ("BEGIN:A:B" +:+ Py.nl);
                             Send 4%nat ("BEGIN:A:B" +:+ Py.nl) ]
  /\ outcome_of connected = Ok tt.
Proof.
  cbv zeta. split; [vm_compute; reflexivity|].
  split.
  { eexists. split; [vm_compute; reflexivity|]. repeat split; vm_compute; reflexivity. }
  split; [vm_compute; reflexivity|]. split; [vm_compute; reflexivity|].
  split; [vm_compute; reflexivity|].
  split.
  { eexists. split; [vm_compute; reflexivity|]. repeat split; vm_compute; reflexivity. }
  repeat split; vm_compute; reflexivity.
Qed.

(** * Further properties of the server *)

(** ** Commands that need authentication *)

(** X1: a connection that is not authenticated gets BADAUTH, and nothing
    else happens, whatever the arguments, for each of ROOMLIST, CREATE,
    JOIN, PLACE and FORFEIT; the same through [dispatch]. *)
Theorem unauthenticated_gets_badauth (checkpw : string -> string -> bool)
        (hashpw : string -> option string) (client_sock : sock) (args : list string)
        (s : Server) :
  Dict.has client_sock (authenticated_users s) = false ->
  let refused := (s, [Send client_sock ("BADAUTH" +:+ Py.nl)], Ok tt) in
  handle_roomlist client_sock args s = refused
  /\ handle_create_room client_sock args s = refused
  /\ handle_join_room client_sock args s = refused
  /\ handle_place client_sock args s = refused
  /\ handle_forfeit client_sock s = refused
  /\ forall keyword,
      keyword ∈ ["ROOMLIST"; "CREATE"; "JOIN"; "PLACE"; "FORFEIT"] ->
      dispatch checkpw hashpw client_sock (keyword :: args) s = refused.
Proof.
  intros Hauth refused.
  assert (H1 : handle_roomlist client_sock args s = refused)
    by (unfold handle_roomlist; run; by rewrite Hauth).
  assert (H2 : handle_create_room client_sock args s = refused)
    by (unfold handle_create_room; run; by rewrite Hauth).
  assert (H3 : handle_join_room client_sock args s = refused)
    by (unfold handle_join_room; run; by rewrite Hauth).
  assert (H4 : handle_place client_sock args s = refused)
    by (unfold handle_place; run; by rewrite Hauth).
  assert (H5 : handle_forfeit client_sock s = refused)
    by (unfold handle_forfeit; run; by rewrite Hauth).
  repeat (split; [done|]).
  intros keyword Hk. unfold dispatch.
  repeat (apply elem_of_cons in Hk as [-> | Hk]); try done.
  by apply elem_of_nil in Hk.
Qed.

Lemma unauthenticated_gets_badauth_witness :
  Dict.has 7%nat (authenticated_users demo_server) = false
  /\ handle_place 7 ["0"; "0"] demo_server
     = (demo_server, [Send 7%nat ("BADAUTH" +:+ Py.nl)], Ok tt).
Proof.
  split; [reflexivity|].
  refine (proj1 (proj2 (proj2 (proj2
            (unauthenticated_gets_badauth plain_checkpw plain_hashpw 7 ["0"; "0"]
               demo_server _))))).
  reflexivity.
Defined.

(** ** Rooms with a single player *)





(** ** Sockets that play in no room *)

Lemma first_room_with_none client_sock refs s :
  (forall l, l ∈ refs -> exists r, heap s !! l = Some r /\ has_player r client_sock = false) ->
  first_room_with client_sock refs s = (s, [], Ok None).
Proof.
  induction refs as [|l refs IH]; intros Hall; [done|].
  destruct (Hall l) as (r & Hl & Hp); [by left|].
  cbn. unfold bind. rewrite (room_at_run s l r Hl), Hp, IH; [done|].
  intros l' Hl'. apply Hall. by right.
Qed.

(** X4: a socket that is a player of no room of the directory (a viewer,
    for one) gets NOROOM for PLACE and for FORFEIT, whatever the
    arguments, and its disconnection only unregisters and closes it: in
    the three cases the accounts, the directory and the rooms are left as
    they were, so the socket, once closed, stays in [authenticated_users]
    and in the viewer lists it had joined. *)
Theorem outsider_gets_noroom (s : Server) (client_sock : sock) (args : list string) :
  (forall l, l ∈ Dict.values (rooms s) ->
             exists r, heap s !! l = Some r /\ has_player r client_sock = false) ->
  handle_client_disconnect client_sock s
  = (set_closed (client_sock :: closed s) s,
     [Unregister client_sock; Close client_sock], Ok tt)
  /\ (Dict.has client_sock (authenticated_users s) = true ->
      handle_place client_sock args s
      = (s, [Send client_sock ("NOROOM" +:+ Py.nl)], Ok tt)
      /\ handle_forfeit client_sock s
         = (s, [Send client_sock ("NOROOM" +:+ Py.nl)], Ok tt)).
Proof.
  intros Hout. pose proof (first_room_with_none client_sock _ s Hout) as Hscan.
  split; [|intros Hauth; split].
  - unfold handle_client_disconnect, close. run. by rewrite Hscan.
  - unfold handle_place. run. rewrite Hauth. cbn. by rewrite Hscan.
  - unfold handle_forfeit. run. rewrite Hauth. cbn. by rewrite Hscan.
Qed.

Lemma outsider_gets_noroom_witness :
  3%nat ∈ viewers demo_room
  /\ handle_client_disconnect 3 demo_server
     = (set_closed [3%nat] demo_server, [Unregister 3%nat; Close 3%nat], Ok tt)
  /\ handle_place 3 ["1"; "1"] demo_server
     = (demo_server, [Send 3%nat ("NOROOM" +:+ Py.nl)], Ok tt).
Proof.
  assert (Hout : forall l, l ∈ Dict.values (rooms demo_server) ->
                   exists r, heap demo_server !! l = Some r /\ has_player r 3 = false).
  { intros l Hl. apply list_elem_of_singleton in Hl as ->. by exists demo_room. }
  split; [by left|].
  split.
  - exact (proj1 (outsider_gets_noroom demo_server 3 ["1"; "1"] Hout)).
  - exact (proj1 (proj2 (outsider_gets_noroom demo_server 3 ["1"; "1"] Hout) eq_refl)).
Defined.

(** ** JOIN *)

(** X5: JOIN as viewer appends the socket to the room's viewer list and
    acknowledges with status 0; when the room has two players the joiner
    is also told who holds the turn and who the other player is, in that
    order; a room that waits for its second player gives the
    acknowledgement only.  Nothing is checked about the joiner: a socket
    already in the viewer list, or a player of the room, is appended
    again. *)
Theorem viewer_join (s : Server) (client_sock : sock) (room_name mode : string)
        (l : rid) (r : Room) :
  Dict.has client_sock (authenticated_users s) = true ->
  Py.upper mode = "VIEWER" ->
  Dict.get room_name (rooms s) = Some l ->
  heap s !! l = Some r ->
  let s' := set_heap (<[l := set_viewers (viewers r ++ [client_sock]) r]> (heap s)) s in
  let ack := Send client_sock ("JOIN:ACKSTATUS:0" +:+ Py.nl) in
  let in_progress_note turn_user other_user :=
    Send client_sock ("INPROGRESS:" +:+ turn_user +:+ ":" +:+ other_user +:+ Py.nl) in
  (is_full r = false ->
   handle_join_room client_sock [room_name; mode] s = (s', [ack], Ok tt))
  /\ (forall a ua b ub, players r = [(a, ua); (b, ub)] -> a <> b ->
        (current_turn r = Some a ->
         handle_join_room client_sock [room_name; mode] s
         = (s', [ack; in_progress_note ua ub], Ok tt))
        /\ (current_turn r = Some b ->
            handle_join_room client_sock [room_name; mode] s
            = (s', [ack; in_progress_note ub ua], Ok tt))).
Proof.
  intros Hauth Hmode Hroom Hl s' ack note.
  set (r1 := set_viewers (viewers r ++ [client_sock]) r).
  set (s1 := set_heap (<[l := r1]> (heap s)) (set_rooms (rooms s) s)).
  assert (Hl1 : heap s1 !! l = Some r1)
    by (apply list_lookup_insert_eq; by apply lookup_lt_is_Some_1; eexists).
  assert (Hs1 : s1 = s') by (unfold s1, s'; by destruct s).
  split; [intros Hfull | intros a ua b ub Hp Hab; split; intros Ht];
    unfold handle_join_room; run; rewrite Hauth; cbn;
    unfold is_mode; rewrite Hmode, !String.eqb_refl;
    replace ("VIEWER" =? "PLAYER") with false by done; cbn; rewrite Hroom; cbn;
    rewrite (room_at_run s l r Hl); cbn;
    rewrite (call_run l _ s r _ _ _ Hl
               (add_viewer_run client_sock r (rooms s) (closed s)));
    cbn; fold r1; fold s1; rewrite (room_at_run s1 l _ Hl1); cbn.
  - unfold is_full in Hfull. rewrite Hfull. by rewrite Hs1.
  - rewrite Hp. cbn. rewrite Ht. cbn. rewrite ?Hp. cbn.
    rewrite decide_True by done. cbn.
    rewrite (get_opposing_first r1 a ua b ub) by done.
    cbn. rewrite ?Hp. cbn. rewrite decide_False by congruence. rewrite decide_True by done.
    cbn. by rewrite Hs1.
  - rewrite Hp. cbn. rewrite Ht. cbn. rewrite ?Hp. cbn.
    rewrite decide_False by congruence. rewrite decide_True by done. cbn.
    rewrite (get_opposing_second r1 a ua b ub) by done.
    cbn. rewrite ?Hp. cbn. rewrite decide_True by done.
    cbn. by rewrite Hs1.
Qed.

Lemma viewer_join_witness :
  Dict.has 3%nat (authenticated_users demo_server) = true
  /\ 3%nat ∈ viewers demo_room
  /\ handle_join_room 3 ["Arena"; "viewer"] demo_server
     = (set_heap [set_viewers [3%nat; 3%nat] demo_room] demo_server,
        [ Send 3%nat ("JOIN:ACKSTATUS:0" +:+ Py.nl);
          Send 3%nat ("INPROGRESS:A:B" +:+ Py.nl) ],
        Ok tt).
Proof.
  assert (Hab : 1%nat <> 2%nat) by discriminate.
  split; [reflexivity|]. split; [by left|].
  exact (proj1 (proj2 (viewer_join demo_server 3 "Arena" "viewer" 0%nat demo_room
                         eq_refl eq_refl eq_refl eq_refl)
                      1%nat "A" 2%nat "B" eq_refl Hab) eq_refl).
Defined.

(** X6: the refusals of JOIN, in the order the handler tests them: a
    command that does not have exactly a room name and a mode, or whose
    mode is neither PLAYER nor VIEWER in any letter case, gets status 3,
    also when the room does not exist; a room that is not in the directory
    gets status 1; a room with two players gets status 2 for a join as
    player.  A refusal changes nothing. *)
Theorem join_refusals (s : Server) (client_sock : sock) :
  Dict.has client_sock (authenticated_users s) = true ->
  let refused code :=
    (s, [Send client_sock ("JOIN:ACKSTATUS:" +:+ code +:+ Py.nl)], Ok tt) in
  (forall args, length args <> 2%nat -> handle_join_room client_sock args s = refused "3")
  /\ (forall room_name mode, is_mode mode = false ->
        handle_join_room client_sock [room_name; mode] s = refused "3")
  /\ (forall room_name mode, is_mode mode = true ->
        Dict.get room_name (rooms s) = None ->
        handle_join_room client_sock [room_name; mode] s = refused "1")
  /\ (forall room_name mode l r, Py.upper mode = "PLAYER" ->
        Dict.get room_name (rooms s) = Some l -> heap s !! l = Some r ->
        is_full r = true ->
        handle_join_room client_sock [room_name; mode] s = refused "2").
Proof.
  intros Hauth refused. repeat split.
  - intros args Hlen. unfold handle_join_room. run. rewrite Hauth. cbn.
    by destruct args as [|? [|? [|? ?]]].
  - intros room_name mode Hmode. unfold handle_join_room. run. rewrite Hauth. cbn.
    by rewrite Hmode.
  - intros room_name mode Hmode Hroom. unfold handle_join_room. run. rewrite Hauth. cbn.
    by rewrite Hmode, Hroom.
  - intros room_name mode l r Hmode Hroom Hl Hfull.
    unfold handle_join_room. run. rewrite Hauth. cbn.
    unfold is_mode. rewrite Hmode, !String.eqb_refl. cbn. rewrite Hroom. cbn.
    rewrite (room_at_run s l r Hl). cbn. by rewrite Hfull.
Qed.

Lemma join_refusals_witness :
  Dict.has 3%nat (authenticated_users demo_server) = true
  /\ handle_join_room 3 ["Arena"; "Player"] demo_server
     = (demo_server, [Send 3%nat ("JOIN:ACKSTATUS:2" +:+ Py.nl)], Ok tt)
  /\ handle_join_room 3 ["Nowhere"; "spectator"] demo_server
     = (demo_server, [Send 3%nat ("JOIN:ACKSTATUS:3" +:+ Py.nl)], Ok tt).
Proof.
  split; [reflexivity|]. split.
  - exact (proj2 (proj2 (proj2 (join_refusals demo_server 3 eq_refl)))
             "Arena" "Player" 0%nat demo_room eq_refl eq_refl eq_refl eq_refl).
  - exact (proj1 (proj2 (join_refusals demo_server 3 eq_refl))
             "Nowhere" "spectator" eq_refl).
Defined.

(** ** PLACE by the turn holder: what the arguments may be *)





(** ** Rooms whose audience holds a closed socket *)

(** X27: a viewer that disconnects stays in the room.  When a socket
    that is a viewer of a room, and a player of no room of the directory,
    disconnects, it is unregistered and closed and nothing else changes:
    the room keeps it in its viewer list, so from then on the audience of
    the room holds a closed socket. *)
Theorem closed_viewer_stays (s : Server) (client_sock : sock) (l : rid) (r : Room) :
  (forall l', l' ∈ Dict.values (rooms s) ->
              exists r', heap s !! l' = Some r' /\ has_player r' client_sock = false) ->
  heap s !! l = Some r -> client_sock ∈ viewers r ->
  let o := handle_client_disconnect client_sock s in
  events_of o = [Unregister client_sock; Close client_sock]
  /\ outcome_of o = Ok tt
  /\ client_sock ∈ closed (fst (fst o))
  /\ rooms (fst (fst o)) = rooms s
  /\ heap (fst (fst o)) !! l = Some r
  /\ audience_open (closed (fst (fst o))) r = false.
Proof.
  intros Hout Hl Hv o.
  assert (Hrun : o = (set_closed (client_sock :: closed s) s,
                      [Unregister client_sock; Close client_sock], Ok tt)).
  { unfold o, handle_client_disconnect, close. run.
    by rewrite (first_room_with_none client_sock _ s Hout). }
  rewrite Hrun. cbn. repeat split; try done; [left|].
  unfold audience_open, audience. rewrite forallb_app.
  apply andb_false_intro2.
  apply not_true_is_false. intros Hall. rewrite forallb_forall in Hall.
  specialize (Hall client_sock (proj1 (list_elem_of_In _ _) Hv)).
  rewrite bool_decide_eq_true_2 in Hall by left. done.
Qed.

Lemma closed_viewer_stays_witness :
  3%nat ∈ viewers demo_room
  /\ closed (fst (fst (handle_client_disconnect 3 demo_server))) = [3%nat]
  /\ heap (fst (fst (handle_client_disconnect 3 demo_server))) !! 0%nat = Some demo_room
  /\ audience_open (closed (fst (fst (handle_client_disconnect 3 demo_server))))
                   demo_room = false.
Proof.
  assert (Hout : forall l, l ∈ Dict.values (rooms demo_server) ->
                   exists r, heap demo_server !! l = Some r /\ has_player r 3 = false).
  { intros l Hl. apply list_elem_of_singleton in Hl as ->. by exists demo_room. }
  assert (Hv : 3%nat ∈ viewers demo_room) by left.
  split; [exact Hv|]. split; [reflexivity|].
  pose proof (closed_viewer_stays demo_server 3 0%nat demo_room Hout eq_refl Hv) as H.
  cbv zeta in H. split; [apply H | apply H].
Defined.





(** ** CREATE, LOGIN and REGISTER *)

Section Refusals.

#[local] Arguments Nat.leb : simpl never.

(** X8: the refusals of CREATE, in the order the handler tests them: a
    command that does not have exactly one argument gets status 4; a name
    with a character that is not alphanumeric, dash, underscore or space
    gets status 1, also when a room of that name exists; the name of a room
    of the directory gets status 2, also when the directory is at its
    capacity; a new name gets status 3 when the directory holds 256 rooms
    or more.  A refusal changes nothing. *)
Theorem create_refusals (s : Server) (client_sock : sock) :
  Dict.has client_sock (authenticated_users s) = true ->
  let refused code :=
    (s, [Send client_sock ("CREATE:ACKSTATUS:" +:+ code +:+ Py.nl)], Ok tt) in
  (forall args, length args <> 1%nat -> handle_create_room client_sock args s = refused "4")
  /\ (forall room_name, room_name_chars_ok room_name = false ->
        handle_create_room client_sock [room_name] s = refused "1")
  /\ (forall room_name, room_name_chars_ok room_name = true ->
        Dict.has room_name (rooms s) = true ->
        handle_create_room client_sock [room_name] s = refused "2")
  /\ (forall room_name, room_name_chars_ok room_name = true ->
        Dict.has room_name (rooms s) = false ->
        (256 <= length (rooms s))%nat ->
        handle_create_room client_sock [room_name] s = refused "3").
Proof.
  intros Hauth refused. repeat split.
  - intros args Hlen. unfold handle_create_room. run. rewrite Hauth. cbn.
    by destruct args as [|? [|? ?]].
  - intros room_name Hchars. unfold handle_create_room. run. rewrite Hauth. cbn.
    by rewrite Hchars.
  - intros room_name Hchars Hhas. unfold handle_create_room. run. rewrite Hauth. cbn.
    by rewrite Hchars, Hhas.
  - intros room_name Hchars Hhas Hcap. unfold handle_create_room. run. rewrite Hauth. cbn.
    rewrite Hchars, Hhas. cbn.
    by rewrite (proj2 (Nat.leb_le _ _) Hcap).
Qed.

End Refusals.

Lemma create_refusals_witness :
  Dict.has 3%nat (authenticated_users demo_server) = true
  /\ handle_create_room 3 ["Arena"] demo_server
     = (demo_server, [Send 3%nat ("CREATE:ACKSTATUS:2" +:+ Py.nl)], Ok tt)
  /\ handle_create_room 3 ["a:b"] demo_server
     = (demo_server, [Send 3%nat ("CREATE:ACKSTATUS:1" +:+ Py.nl)], Ok tt).
Proof.
  split; [reflexivity|]. split.
  - exact (proj1 (proj2 (proj2 (create_refusals demo_server 3 eq_refl)))
             "Arena" eq_refl eq_refl).
  - exact (proj1 (proj2 (create_refusals demo_server 3 eq_refl)) "a:b" eq_refl).
Defined.

Lemma find_app_new (uname : string) (db : list User) (user : User) :
  existsb (fun u => String.eqb (username u) uname) db = false ->
  username user = uname ->
  List.find (fun u => String.eqb (username u) uname) (db ++ [user]) = Some user.
Proof.
  intros Hnew Hname. induction db as [|u db IH]; cbn in *.
  - by rewrite Hname, String.eqb_refl.
  - apply orb_false_elim in Hnew as [Hu Hdb]. rewrite Hu. by apply IH.
Qed.

Lemma existsb_app_new (uname : string) (db : list User) (user : User) :
  username user = uname ->
  existsb (fun u => String.eqb (username u) uname) (db ++ [user]) = true.
Proof.
  intros Hname. rewrite existsb_app. cbn. rewrite Hname, String.eqb_refl.
  by rewrite orb_true_r.
Qed.

(** X9: REGISTER followed by LOGIN.  Registering a name that the database
    does not hold, with a password that [bcrypt.hashpw] hashes (the empty
    name and the empty password included), appends one record with the
    hashed password, saves the database and acknowledges with status 0; it
    logs nobody in.  When [bcrypt.hashpw] refuses the password, as bcrypt
    5 does for one of more than 72 bytes, its [ValueError] escapes the
    handler and nothing is appended, saved or acknowledged.  After the
    registration a LOGIN with the name and a password that [checkpw]
    accepts against the stored hash, from any socket, is acknowledged with
    status 0 and binds the socket to the name; a password that [checkpw]
    rejects gets status 2, and a second REGISTER of the name gets status 1;
    neither changes anything. *)
Theorem register_then_login (checkpw : string -> string -> bool)
        (hashpw : string -> option string) (s : Server) (client_sock other_sock : sock)
        (uname pw : string) :
  existsb (fun u => String.eqb (username u) uname) (user_db s) = false ->
  (hashpw pw = None ->
   handle_register hashpw client_sock [uname; pw] s = (s, [], Raise ValueError))
  /\ forall hashed, hashpw pw = Some hashed ->
      let s1 := set_user_db (user_db s ++ [mkUser uname hashed]) s in
      handle_register hashpw client_sock [uname; pw] s
      = (s1, [ SaveDb (user_db s ++ [mkUser uname hashed]);
               Send client_sock ("REGISTER:ACKSTATUS:0" +:+ Py.nl) ], Ok tt)
      /\ authenticated_users s1 = authenticated_users s
      /\ (forall pw', checkpw pw' hashed = true ->
            handle_login checkpw other_sock [uname; pw'] s1
            = (set_authenticated_users
                 (Dict.set other_sock uname (authenticated_users s)) s1,
               [Send other_sock ("LOGIN:ACKSTATUS:0" +:+ Py.nl)], Ok tt))
      /\ (forall pw', checkpw pw' hashed = false ->
            handle_login checkpw other_sock [uname; pw'] s1
            = (s1, [Send other_sock ("LOGIN:ACKSTATUS:2" +:+ Py.nl)], Ok tt))
      /\ (forall pw',
            handle_register hashpw other_sock [uname; pw'] s1
            = (s1, [Send other_sock ("REGISTER:ACKSTATUS:1" +:+ Py.nl)], Ok tt)).
Proof.
  intros Hnew. split.
  { intros Hhash. unfold handle_register. run. by rewrite Hnew, Hhash. }
  intros hashed Hhash s1.
  assert (Hfind : List.find (fun u => String.eqb (username u) uname)
                             (user_db s ++ [mkUser uname hashed])
                  = Some (mkUser uname hashed)) by (by apply find_app_new).
  repeat split.
  - unfold handle_register. run. by rewrite Hnew, Hhash.
  - intros pw' Hcheck. unfold handle_login. run. rewrite Hfind. cbn. by rewrite Hcheck.
  - intros pw' Hbad. unfold handle_login. run. rewrite Hfind. cbn. by rewrite Hbad.
  - intros pw'. unfold handle_register. run. by rewrite existsb_app_new.
Qed.

Lemma register_then_login_witness :
  let long := string_of_list_ascii (repeat "a"%char 73) in
  handle_register plain_hashpw 5 [""; ""] fresh_server
  = (set_user_db [mkUser "A" "pa"; mkUser "B" "pb"; mkUser "" ""] fresh_server,
     [ SaveDb [mkUser "A" "pa"; mkUser "B" "pb"; mkUser "" ""];
       Send 5%nat ("REGISTER:ACKSTATUS:0" +:+ Py.nl) ], Ok tt)
  /\ handle_login plain_checkpw 6 [""; ""]
       (set_user_db [mkUser "A" "pa"; mkUser "B" "pb"; mkUser "" ""] fresh_server)
     = (mkServer [mkUser "A" "pa"; mkUser "B" "pb"; mkUser "" ""] [(6%nat, "")] [] [] [],
        [Send 6%nat ("LOGIN:ACKSTATUS:0" +:+ Py.nl)], Ok tt)
  /\ handle_register plain_hashpw 5 ["C"; long] fresh_server
     = (fresh_server, [], Raise ValueError).
Proof.
  cbv zeta. split; [|split].
  - exact (proj1 (proj2 (register_then_login plain_checkpw plain_hashpw fresh_server 5 6
                           "" "" eq_refl) "" eq_refl)).
  - exact (proj1 (proj2 (proj2 (proj2 (register_then_login plain_checkpw plain_hashpw
                                         fresh_server 5 6 "" "" eq_refl) "" eq_refl)))
             "" eq_refl).
  - exact (proj1 (register_then_login plain_checkpw plain_hashpw fresh_server 5 6
                    "C" (string_of_list_ascii (repeat "a"%char 73)) eq_refl) eq_refl).
Defined.

(** X10: the refusals of LOGIN and REGISTER.  A command that does not have
    exactly a name and a password gets status 3 from LOGIN and status 2
    from REGISTER.  LOGIN looks at the first record of the database with
    the name: without one it answers status 1, and status 2 when [checkpw]
    rejects the password against that record.  REGISTER answers status 1
    when some record has the name.  A refusal changes nothing and saves
    nothing; none of the two handlers asks for authentication. *)
Theorem account_refusals (checkpw : string -> string -> bool)
        (hashpw : string -> option string) (s : Server) (client_sock : sock) :
  let answer message := (s, [Send client_sock (message +:+ Py.nl)], Ok tt) in
  (forall args, length args <> 2%nat ->
     handle_login checkpw client_sock args s = answer "LOGIN:ACKSTATUS:3"
     /\ handle_register hashpw client_sock args s = answer "REGISTER:ACKSTATUS:2")
  /\ (forall uname pw,
        List.find (fun u => String.eqb (username u) uname) (user_db s) = None ->
        handle_login checkpw client_sock [uname; pw] s = answer "LOGIN:ACKSTATUS:1")
  /\ (forall uname pw user,
        List.find (fun u => String.eqb (username u) uname) (user_db s) = Some user ->
        checkpw pw (password user) = false ->
        handle_login checkpw client_sock [uname; pw] s = answer "LOGIN:ACKSTATUS:2")
  /\ (forall uname pw,
        existsb (fun u => String.eqb (username u) uname) (user_db s) = true ->
        handle_register hashpw client_sock [uname; pw] s = answer "REGISTER:ACKSTATUS:1").
Proof.
  intros answer. repeat split.
  - by destruct args as [|? [|? [|? ?]]].
  - by destruct args as [|? [|? [|? ?]]].
  - intros uname pw Hfind. unfold handle_login. run. by rewrite Hfind.
  - intros uname pw user Hfind Hbad. unfold handle_login. run. rewrite Hfind. cbn.
    by rewrite Hbad.
  - intros uname pw Hhas. unfold handle_register. run. by rewrite Hhas.
Qed.


(** ** Relations kept by the handlers *)

Section KeepsLaws.

Context {St : Type} (R : St -> St -> list event -> Prop).
Hypothesis R_refl : forall s, R s s [].
Hypothesis R_trans : forall s s1 s2 e1 e2, R s s1 e1 -> R s1 s2 e2 -> R s s2 (e1 ++ e2).

Lemma keeps_ret {A} (a : A) : keeps R (ret a).
Proof. intros s. apply R_refl. Qed.

Lemma keeps_raise {A} e : keeps R (raise e : M St A).
Proof. intros s. apply R_refl. Qed.

Lemma keeps_gets {A} (f : St -> A) : keeps R (gets f).
Proof. intros s. apply R_refl. Qed.

Lemma keeps_subscript {A} e (o : option A) : keeps R (subscript e o).
Proof. destruct o; [apply keeps_ret | apply keeps_raise]. Qed.

Lemma keeps_lift {A} (r : result A) : keeps R (lift r).
Proof. destruct r; [apply keeps_ret | apply keeps_raise]. Qed.

Lemma keeps_bind {A B} (m : M St A) (f : A -> M St B) :
  keeps R m -> (forall a, keeps R (f a)) -> keeps R (bind m f).
Proof.
  intros Hm Hf s. unfold bind. specialize (Hm s).
  destruct (m s) as [[s1 e1] [a|e]]; cbn in *; [|done].
  specialize (Hf a s1). destruct (f a s1) as [[s2 e2] r]; cbn in *.
  by eapply R_trans.
Qed.

End KeepsLaws.

Lemma keeps_call (R : Server -> Server -> list event -> Prop)
      (R' : RoomCtx -> RoomCtx -> list event -> Prop) {A} (l : rid) (m : M RoomCtx A) :
  (forall s, R s s []) ->
  (forall s r c evs, heap s !! l = Some r -> R' (mkCtx r (rooms s) (closed s)) c evs ->
     R s (set_heap (<[l := self c]> (heap s)) (set_rooms (srv_rooms c) s)) evs) ->
  keeps R' m -> keeps R (call l m).
Proof.
  intros Hrefl Hstore Hm s. unfold call.
  destruct (heap s !! l) as [r|] eqn:Hl; cbn; [|apply Hrefl].
  specialize (Hm (mkCtx r (rooms s) (closed s))).
  destruct (m (mkCtx r (rooms s) (closed s))) as [[c evs] res]; cbn in *.
  by apply (Hstore s r).
Qed.

(** Structural rules, for a relation with its reflexivity and transitivity
    lemmas; [own] is tried first, for the operations the relation has
    its own lemmas about. *)
Ltac keeps_with refl trans own :=
  repeat first
    [ own
    | apply (keeps_bind _ trans); [| intros ?]
    | apply (keeps_ret _ refl)
    | apply (keeps_raise _ refl)
    | apply (keeps_gets _ refl)
    | apply (keeps_subscript _ refl)
    | apply (keeps_lift _ refl)
    | progress cbv zeta
    | match goal with
      | |- keeps _ (if ?b then _ else _) => destruct b
      | |- keeps _ (match ?x with _ => _ end) => destruct x
      end ].

(** *** The messages of the server *)

Lemma ends_with_newline_app (a b : string) :
  ends_with_newline b = true -> ends_with_newline (a +:+ b) = true.
Proof.
  intros Hb. induction a as [|c a IH]; [done|].
  rewrite append_cons. destruct (a +:+ b) as [|c' t]; [done|]. exact IH.
Qed.

Lemma all_spoken_refl {St} (s : St) : all_spoken s s [].
Proof. constructor. Qed.

Lemma all_spoken_trans {St} (s s1 s2 : St) e1 e2 :
  all_spoken s s1 e1 -> all_spoken s1 s2 e2 -> all_spoken s s2 (e1 ++ e2).
Proof. apply Forall_app_2. Qed.

Lemma spoken_emit {St} (evs : list event) :
  Forall spoken evs -> keeps all_spoken (emit evs : M St unit).
Proof. intros H s. exact H. Qed.

Lemma spoken_sendall {St} (to : sock) (message : string) :
  server_message message -> keeps all_spoken (sendall to message : M St unit).
Proof. intros H s. by constructor. Qed.

Lemma spoken_modify {St} (f : St -> St) : keeps all_spoken (modify f).
Proof. intros s. constructor. Qed.

Lemma spoken_send_each (socks : list sock) (message : string) :
  server_message message -> keeps all_spoken (send_each socks message).
Proof.
  intros H. induction socks as [|to rest IH].
  - apply (keeps_ret _ all_spoken_refl).
  - change (send_each (to :: rest) message)
      with (sendall_member to message ;; send_each rest message).
    apply (keeps_bind _ all_spoken_trans); [|intros _; exact IH].
    unfold sendall_member.
    apply (keeps_bind _ all_spoken_trans); [apply (keeps_gets _ all_spoken_refl)|].
    intros closed_socks. destruct (bool_decide _).
    + apply (keeps_raise _ all_spoken_refl).
    + by apply spoken_sendall.
Qed.

Ltac newline := repeat apply ends_with_newline_app; reflexivity.

Ltac message :=
  first [ apply msg_roomlist | apply msg_begin | apply msg_inprogress
        | apply msg_boardstatus | apply msg_gameend
        | apply msg_literal; apply (bool_decide_unpack _); vm_compute; exact I ].

Ltac spoken_step :=
  first
    [ apply (keeps_bind _ all_spoken_trans); [| intros ?]
    | apply (keeps_ret _ all_spoken_refl)
    | apply (keeps_raise _ all_spoken_refl)
    | apply (keeps_gets _ all_spoken_refl)
    | apply (keeps_subscript _ all_spoken_refl)
    | apply (keeps_lift _ all_spoken_refl)
    | apply spoken_modify
    | apply spoken_sendall; message
    | apply spoken_send_each; message
    | apply spoken_emit; repeat constructor
    | progress cbv zeta
    | match goal with
      | |- keeps _ (if ?b then _ else _) => destruct b
      | |- keeps _ (match ?x with _ => _ end) => destruct x
      end ].

Lemma spoken_update f : keeps all_spoken (update f).
Proof. unfold update. spoken_step. Qed.

Lemma spoken_cleanup_room : keeps all_spoken cleanup_room.
Proof. unfold cleanup_room, update. repeat spoken_step. Qed.

Lemma spoken_broadcast_board_status : keeps all_spoken broadcast_board_status.
Proof. unfold broadcast_board_status, this. repeat spoken_step. Qed.

Lemma spoken_broadcast_game_end winner forfeit :
  keeps all_spoken (broadcast_game_end winner forfeit).
Proof.
  unfold broadcast_game_end, this, update.
  repeat first [ apply spoken_cleanup_room
               | apply spoken_send_each; apply msg_gameend
               | spoken_step ].
Qed.

Ltac spoken_room :=
  repeat first [ apply spoken_update
               | apply spoken_cleanup_room
               | apply spoken_broadcast_board_status
               | apply spoken_broadcast_game_end
               | spoken_step ].

Lemma spoken_forfeit_game client_sock : keeps all_spoken (forfeit_game client_sock).
Proof. unfold forfeit_game, this. spoken_room. Qed.

Lemma spoken_place_marker client_sock args : keeps all_spoken (place_marker client_sock args).
Proof. unfold place_marker, int_arg, this. spoken_room. Qed.

Lemma spoken_add_player client_sock uname : keeps all_spoken (add_player client_sock uname).
Proof. unfold add_player, this. spoken_room. Qed.

Lemma spoken_add_viewer client_sock : keeps all_spoken (add_viewer client_sock).
Proof. unfold add_viewer, this. spoken_room. Qed.

Lemma spoken_start_game : keeps all_spoken start_game.
Proof. unfold start_game, this. spoken_room. Qed.

Lemma spoken_room_at l : keeps all_spoken (room_at l).
Proof. unfold room_at, server. spoken_room. Qed.

Lemma spoken_call {A} l (m : M RoomCtx A) : keeps all_spoken m -> keeps all_spoken (call l m).
Proof. apply keeps_call; [apply all_spoken_refl | done]. Qed.

Lemma spoken_first_room_with client_sock refs :
  keeps all_spoken (first_room_with client_sock refs).
Proof.
  induction refs as [|l refs IH]; cbn [first_room_with];
    repeat first [ apply spoken_room_at | apply IH | spoken_step ].
Qed.

Lemma spoken_listed_rooms mode refs : keeps all_spoken (listed_rooms mode refs).
Proof.
  induction refs as [|l refs IH]; cbn [listed_rooms];
    repeat first [ apply spoken_room_at | apply IH | spoken_step ].
Qed.

Ltac spoken_server :=
  repeat first [ apply spoken_room_at
               | apply spoken_first_room_with
               | apply spoken_listed_rooms
               | apply spoken_call;
                 first [ apply spoken_forfeit_game | apply spoken_place_marker
                       | apply spoken_add_player | apply spoken_add_viewer
                       | apply spoken_start_game ]
               | spoken_step ].

Section Framing.

Variable checkpw : string -> string -> bool.
Variable hashpw : string -> option string.

Lemma spoken_dispatch client_sock command :
  keeps all_spoken (dispatch checkpw hashpw client_sock command).
Proof.
  unfold dispatch, handle_login, handle_register, handle_roomlist, handle_create_room,
    handle_join_room, handle_place, handle_forfeit, server.
  spoken_server.
Qed.

Lemma spoken_handle_client_disconnect client_sock :
  keeps all_spoken (handle_client_disconnect client_sock).
Proof. unfold handle_client_disconnect, close, server. spoken_server. Qed.

Lemma spoken_handle_client client_sock got :
  keeps all_spoken (handle_client checkpw hashpw client_sock got).
Proof.
  unfold handle_client, process_request.
  repeat first [ apply spoken_dispatch | apply spoken_handle_client_disconnect
               | spoken_step ].
Qed.

(** Every message that serving an event writes is of the vocabulary,
    also when the handler raises. *)
Lemma handle_client_speaks client_sock got s to message :
  Send to message ∈ events_of (handle_client checkpw hashpw client_sock got s) ->
  server_message message.
Proof.
  intros Hin. pose proof (spoken_handle_client client_sock got s) as H.
  unfold all_spoken in H. rewrite Forall_forall in H. exact (H _ Hin).
Qed.

Lemma server_message_newline message :
  server_message message -> ends_with_newline message = true.
Proof.
  intros [m _ | | | | | bs winner forfeit]; try newline.
  unfold game_end_message. destruct forfeit; [newline|]. destruct (truthy winner); newline.
Qed.

(** X11: every message the server writes ends with a newline, whatever the
    state, the socket and the bytes received, also when the handler
    raises. *)
Theorem messages_end_with_newline (client_sock : sock) (got : recv) (s : Server)
        (to : sock) (message : string) :
  Send to message ∈ events_of (handle_client checkpw hashpw client_sock got s) ->
  ends_with_newline message = true.
Proof. intros Hin. by apply server_message_newline, (handle_client_speaks client_sock got s to). Qed.

End Framing.

(** *** What the handlers leave alone *)

Lemma accounts_kept_refl s : accounts_kept s s [].
Proof. done. Qed.

Lemma accounts_kept_trans s s1 s2 (e1 e2 : list event) :
  accounts_kept s s1 e1 -> accounts_kept s1 s2 e2 -> accounts_kept s s2 (e1 ++ e2).
Proof. intros [? ?] [? ?]. split; congruence. Qed.

Lemma accounts_emit evs : keeps accounts_kept (emit evs).
Proof. done. Qed.

Lemma accounts_modify (f : Server -> Server) :
  (forall s, user_db (f s) = user_db s) ->
  (forall s, authenticated_users (f s) = authenticated_users s) ->
  keeps accounts_kept (modify f).
Proof. intros H1 H2 s. split; [apply H1 | apply H2]. Qed.

Lemma accounts_call {A} l (m : M RoomCtx A) : keeps accounts_kept (call l m).
Proof.
  apply (keeps_call _ (fun _ _ _ => True)); [done| |done].
  intros s r c evs _ _. done.
Qed.

Ltac accounts :=
  keeps_with accounts_kept_refl accounts_kept_trans
    ltac:(first [ apply accounts_call | apply accounts_emit
                | apply accounts_modify; done ]).

Lemma accounts_room_at l : keeps accounts_kept (room_at l).
Proof. unfold room_at, server. accounts. Qed.

Lemma accounts_first_room_with client_sock refs :
  keeps accounts_kept (first_room_with client_sock refs).
Proof.
  induction refs as [|l refs IH]; cbn [first_room_with];
    keeps_with accounts_kept_refl accounts_kept_trans
      ltac:(first [ apply accounts_room_at | apply IH ]).
Qed.

Lemma accounts_listed_rooms mode refs : keeps accounts_kept (listed_rooms mode refs).
Proof.
  induction refs as [|l refs IH]; cbn [listed_rooms];
    keeps_with accounts_kept_refl accounts_kept_trans
      ltac:(first [ apply accounts_room_at | apply IH ]).
Qed.

Ltac accounts_server :=
  keeps_with accounts_kept_refl accounts_kept_trans
    ltac:(first [ apply accounts_call | apply accounts_emit
                | apply accounts_room_at | apply accounts_first_room_with
                | apply accounts_listed_rooms
                | apply accounts_modify; done ]).

Lemma accounts_handle_roomlist client_sock args :
  keeps accounts_kept (handle_roomlist client_sock args).
Proof. unfold handle_roomlist, server, sendall. accounts_server. Qed.

Lemma accounts_handle_create_room client_sock args :
  keeps accounts_kept (handle_create_room client_sock args).
Proof. unfold handle_create_room, server, sendall. accounts_server. Qed.

Lemma accounts_handle_join_room client_sock args :
  keeps accounts_kept (handle_join_room client_sock args).
Proof. unfold handle_join_room, server, sendall. accounts_server. Qed.

Lemma accounts_handle_place client_sock args :
  keeps accounts_kept (handle_place client_sock args).
Proof. unfold handle_place, server, sendall. accounts_server. Qed.

Lemma accounts_handle_forfeit client_sock :
  keeps accounts_kept (handle_forfeit client_sock).
Proof. unfold handle_forfeit, server, sendall. accounts_server. Qed.

Lemma accounts_handle_client_disconnect client_sock :
  keeps accounts_kept (handle_client_disconnect client_sock).
Proof. unfold handle_client_disconnect, close, server. accounts_server. Qed.

Lemma existsb_usernames (uname : string) (db : list User) :
  existsb (fun u => String.eqb (username u) uname) db = false -> uname ∉ usernames db.
Proof.
  induction db as [|u db IH]; cbn; intros H Hin.
  - by apply elem_of_nil in Hin.
  - apply orb_false_elim in H as [Hu Hdb].
    apply elem_of_cons in Hin as [-> | Hin]; [by rewrite String.eqb_refl in Hu|].
    by apply IH.
Qed.

Lemma find_usernames (uname : string) (db : list User) (user : User) :
  List.find (fun u => String.eqb (username u) uname) db = Some user ->
  uname ∈ usernames db.
Proof.
  induction db as [|u db IH]; cbn; [done|].
  destruct (String.eqb_spec (username u) uname) as [<-|Hne].
  - intros _. by left.
  - intros H. right. by apply IH.
Qed.

Section Accounts.

Variable checkpw : string -> string -> bool.
Variable hashpw : string -> option string.

Lemma handle_client_accounts client_sock got s :
  accounts_step client_sock s (fst (fst (handle_client checkpw hashpw client_sock got s))).
Proof.
  assert (Hkept : forall m : M Server unit,
             keeps accounts_kept m -> accounts_step client_sock s (fst (fst (m s)))).
  { intros m Hm. destruct (Hm s) as [H1 H2]. split; by left. }
  assert (Hsame : accounts_step client_sock s s) by (split; by left).
  assert (Hdispatch : forall command,
             accounts_step client_sock s
               (fst (fst (dispatch checkpw hashpw client_sock command s)))).
  { intros [|keyword args]; unfold dispatch; [apply Hsame|].
    destruct (String.eqb keyword "LOGIN").
    { unfold handle_login. destruct args as [|uname [|pw [|? ?]]]; try apply Hsame.
      run. destruct (List.find _ _) as [user|] eqn:Hfind; [|apply Hsame].
      destruct (checkpw pw (password user)); [|apply Hsame].
      cbn. split; [by left|]. right. exists uname. split; [|done].
      by apply (find_usernames _ _ user). }
    destruct (String.eqb keyword "REGISTER").
    { unfold handle_register. destruct args as [|uname [|pw [|? ?]]]; try apply Hsame.
      run. destruct (existsb _ _) eqn:Hnew; [apply Hsame|].
      destruct (hashpw pw) as [hashed|]; [|apply Hsame].
      cbn. split; [|by left]. right. exists uname, hashed. split; [|done].
      by apply existsb_usernames. }
    destruct (String.eqb keyword "ROOMLIST"); [apply Hkept, accounts_handle_roomlist|].
    destruct (String.eqb keyword "CREATE"); [apply Hkept, accounts_handle_create_room|].
    destruct (String.eqb keyword "JOIN"); [apply Hkept, accounts_handle_join_room|].
    destruct (String.eqb keyword "PLACE"); [apply Hkept, accounts_handle_place|].
    destruct (String.eqb keyword "FORFEIT"); [apply Hkept, accounts_handle_forfeit|].
    apply Hsame. }
  destruct got as [[|c data]|]; cbn [handle_client].
  - apply Hkept, accounts_handle_client_disconnect.
  - destruct (Py.is_ascii _); [apply Hdispatch | apply Hsame].
  - apply Hkept, accounts_handle_client_disconnect.
Qed.

Lemma dict_get_set_inv {V} (k p : sock) (v w : V) (d : list (sock * V)) :
  Dict.get p (Dict.set k v d) = Some w -> (p = k /\ w = v) \/ Dict.get p d = Some w.
Proof.
  destruct (decide (p = k)) as [->|Hne].
  - rewrite dict_get_set_eq. intros [= <-]. by left.
  - rewrite dict_get_set_ne by done. by right.
Qed.

(** X12: the accounts along a run of the server, from any state.  The
    user database only grows, by records appended at its end; if its names
    were distinct they stay distinct; a socket that is authenticated stays
    authenticated, through its own disconnection too, since no handler
    removes an entry of [authenticated_users]; and if every authenticated
    name was a registered one, this stays so. *)
Theorem accounts_along_runs (s s' : Server) :
  runs_to checkpw hashpw s s' ->
  (exists added, user_db s' = user_db s ++ added)
  /\ (NoDup (usernames (user_db s)) -> NoDup (usernames (user_db s')))
  /\ (forall p, Dict.has p (authenticated_users s) = true ->
                Dict.has p (authenticated_users s') = true)
  /\ ((forall p u, Dict.get p (authenticated_users s) = Some u ->
                   u ∈ usernames (user_db s)) ->
      forall p u, Dict.get p (authenticated_users s') = Some u ->
                  u ∈ usernames (user_db s')).
Proof.
  induction 1 as [s | s s1 s2 client_sock got evs Hrun IH Hstep].
  - split; [exists []; by rewrite app_nil_r|]. done.
  - destruct IH as ((added & Hdb) & Hnodup & Hauth & Hreg).
    pose proof (handle_client_accounts client_sock got s1) as [Hd Ha].
    rewrite Hstep in Hd, Ha. cbn in Hd, Ha.
    assert (Hnames : forall u, u ∈ usernames (user_db s1) -> u ∈ usernames (user_db s2)).
    { intros u Hu. destruct Hd as [-> | (uname & hashed & _ & ->)]; [done|].
      unfold usernames. rewrite map_app. apply elem_of_app. by left. }
    split; [|split; [|split]].
    + destruct Hd as [-> | (uname & hashed & _ & ->)]; [by exists added|].
      exists (added ++ [mkUser uname hashed]). by rewrite Hdb, app_assoc.
    + intros Hs. specialize (Hnodup Hs).
      destruct Hd as [-> | (uname & hashed & Hnew & ->)]; [done|].
      unfold usernames. rewrite map_app. apply NoDup_app. split; [done|].
      split; [|apply NoDup_singleton].
      intros u Hu Hu'. apply list_elem_of_singleton in Hu' as ->. done.
    + intros p Hp. specialize (Hauth p Hp).
      destruct Ha as [-> | (uname & _ & ->)]; [done|]. by apply dict_has_set_mono.
    + intros Hs p u Hp. specialize (Hreg Hs). apply Hnames.
      destruct Ha as [Ha | (uname & Hin & Ha)]; rewrite Ha in Hp; [by apply (Hreg p)|].
      apply dict_get_set_inv in Hp as [[_ ->] | Hp]; [done|]. by apply (Hreg p).
Qed.

End Accounts.


(** ** The boards of a running server *)

(** *** Boards *)

Lemma open_board_new : open_board (replicate 9 "0").
Proof.
  split; [done|]. split; [|done].
  cbn. repeat constructor.
Qed.

Lemma wins_insert_other (b : list string) (pos : nat) (marker other : string) :
  marker <> other -> wins (<[pos := marker]> b) other = true -> wins b other = true.
Proof.
  intros Hne. unfold wins. generalize win_positions.
  assert (Hcell : forall i, bool_decide (<[pos := marker]> b !! i = Some other) = true ->
                            bool_decide (b !! i = Some other) = true).
  { intros i Hi. apply bool_decide_eq_true in Hi. apply bool_decide_eq_true.
    destruct (decide (i = pos)) as [->|Hi'].
    - destruct (decide (pos < length b)%nat) as [Hlt|Hge].
      + rewrite list_lookup_insert_eq in Hi by done. congruence.
      + by rewrite list_insert_id' in Hi by lia.
    - by rewrite list_lookup_insert_ne in Hi by done. }
  assert (Hline : forall line,
             forallb (fun i => bool_decide (<[pos := marker]> b !! i = Some other)) line = true ->
             forallb (fun i => bool_decide (b !! i = Some other)) line = true).
  { induction line as [|i line IH]; cbn; [done|].
    intros [Hi Hl]%andb_prop. by rewrite (Hcell i Hi), IH. }
  induction l as [|line lines IH]; cbn; [done|].
  intros [Hl | Hl]%orb_prop; [by rewrite (Hline line Hl)|].
  rewrite IH by done. apply orb_true_r.
Qed.

Lemma open_board_move (r : Room) (mover : sock) (pos : nat) :
  open_board (board r) ->
  wins (<[pos := marker_of r mover]> (board r)) (marker_of r mover) = false ->
  board_full (<[pos := marker_of r mover]> (board r)) = false ->
  open_board (<[pos := marker_of r mover]> (board r)).
Proof.
  intros (Hlen & Hcells & Hw1 & Hw2 & _) Hwin Hfull.
  assert (Hother : forall other, marker_of r mover <> other -> wins (board r) other = false ->
                     wins (<[pos := marker_of r mover]> (board r)) other = false).
  { intros other Hne Hw.
    destruct (wins (<[pos := marker_of r mover]> (board r)) other) eqn:E; [|done].
    apply wins_insert_other in E; [congruence | done]. }
  split; [by rewrite length_insert|]. split; [|split; [|split; [|done]]].
  - apply Forall_insert; [done|].
    destruct (marker_of_cases r mover) as [-> | ->]; repeat constructor.
  - destruct (marker_of_cases r mover) as [E | E]; [by rewrite E in Hwin |- *|].
    apply Hother; [by rewrite E | done].
  - destruct (marker_of_cases r mover) as [E | E]; [|by rewrite E in Hwin |- *].
    apply Hother; [by rewrite E | done].
Qed.

(** What a placement that returns leaves of the board of a live room: the
    room goes on with an open board, or it has left the directory. *)
Lemma place_marker_board r d cl client_sock args c' evs :
  live r -> open_board (board r) ->
  place_marker client_sock args (mkCtx r d cl) = (c', evs, Ok tt) ->
  (srv_rooms c' = d /\ open_board (board (self c'))) \/ srv_rooms c' = dropped r d.
Proof.
  intros (Hf & Hlen & [Hw | Hin]) Hopen Hrun.
  { pose proof (waiting_place_raises r d cl client_sock args Hf Hw) as Hr.
    rewrite Hrun in Hr. done. }
  assert (Haud : audience_open cl r = true).
  { apply (place_marker_returns_open r d cl client_sock args c' evs); [|done].
    split; [done|]. split; [done|]. by right. }
  destruct (decide (current_turn r = Some client_sock)) as [Ht | Ht]; cycle 1.
  { left. rewrite (place_marker_waits r d cl client_sock args Hin Ht Haud) in Hrun.
    by injection Hrun as <- _. }
  destruct (in_progress_inv r Hin) as (a & ua & b & ub & Hp & Hab & Hturn & _ & _).
  assert (Hum : exists um, Dict.get client_sock (players r) = Some um).
  { rewrite Hp. cbn. rewrite Ht in Hturn. destruct Hturn as [[= ->] | [= ->]].
    - rewrite decide_True by done. by eexists.
    - rewrite decide_False by congruence. rewrite decide_True by done. by eexists. }
  destruct Hum as [um Hum].
  destruct (args !! 0%nat) as [sx|] eqn:Hsx; cycle 1.
  { exfalso. revert Hrun. unfold place_marker. run. rewrite Hf, Ht.
    rewrite bool_decide_eq_true_2 by done. cbn. unfold int_arg. run. rewrite Hsx. done. }
  destruct (Py.int sx) as [x|] eqn:Hx; cycle 1.
  { exfalso. revert Hrun. unfold place_marker. run. rewrite Hf, Ht.
    rewrite bool_decide_eq_true_2 by done. cbn. unfold int_arg. run. rewrite Hsx. cbn.
    rewrite Hx. done. }
  destruct (args !! 1%nat) as [sy|] eqn:Hsy; cycle 1.
  { exfalso. revert Hrun. unfold place_marker. run. rewrite Hf, Ht.
    rewrite bool_decide_eq_true_2 by done. cbn. unfold int_arg. run. rewrite Hsx. cbn.
    rewrite Hx. cbn. rewrite Hsy. done. }
  destruct (Py.int sy) as [y|] eqn:Hy; cycle 1.
  { exfalso. revert Hrun. unfold place_marker. run. rewrite Hf, Ht.
    rewrite bool_decide_eq_true_2 by done. cbn. unfold int_arg. run. rewrite Hsx. cbn.
    rewrite Hx. cbn. rewrite Hsy. cbn. rewrite Hy. done. }
  destruct (py_index 9 (y * 3 + x)) as [pos|] eqn:Hpos; cycle 1.
  { exfalso. revert Hrun. unfold place_marker. run. rewrite Hf, Ht.
    rewrite bool_decide_eq_true_2 by done. cbn. unfold int_arg. run. rewrite Hsx. cbn.
    rewrite Hx. cbn. rewrite Hsy. cbn. rewrite Hy. cbn. rewrite Hp. cbn.
    rewrite Hlen, Hpos. done. }
  pose proof (place_marker_turn r d cl client_sock um args sx sy x y pos a ua b ub
                Hp Hab Hf Hlen Ht Hum Hsx Hsy Hx Hy Hpos Haud) as Hrun'.
  cbn zeta in Hrun'. rewrite Hrun in Hrun'.
  destruct (wins _ _) eqn:Hwin; [right; by injection Hrun' as -> _|].
  destruct (board_full _) eqn:Hfull; [right; by injection Hrun' as -> _|].
  left. injection Hrun' as -> _. cbn. split; [done|]. by apply open_board_move.
Qed.

(** *** The invariant through a method call *)

Lemma sound_call s n l r r' d' :
  consistent s -> sound s -> (n, l) ∈ rooms s -> heap s !! l = Some r ->
  (d' = rooms s /\ open_board (board r')) \/ d' = dropped r (rooms s) ->
  sound (set_heap (<[l := r']> (heap s)) (set_rooms d' s)).
Proof.
  intros Hc [Hcap Hboards] Hin Hl Hcases.
  assert (Hlt : (l < length (heap s))%nat) by (apply lookup_lt_is_Some_1; by eexists).
  destruct Hcases as [[-> Hopen] | ->].
  - split; [done|]. cbn. intros n2 l2 r2 Hin2.
    destruct (decide (l2 = l)) as [->|Hne].
    + rewrite list_lookup_insert_eq by done. by intros [= <-].
    + rewrite list_lookup_insert_ne by done. by apply (Hboards n2).
  - destruct (refs_live s Hc n l Hin) as (r0 & Hr0 & Hname & _).
    assert (r0 = r) as -> by congruence.
    unfold dropped. rewrite Hname.
    rewrite (dict_has_get n (rooms s) l)
      by (apply dict_get_elem; [apply (keys_nodup s Hc) | done]).
    assert (Hother : forall n2 l2, (n2, l2) ∈ Dict.del n (rooms s) ->
                                   (n2, l2) ∈ rooms s /\ l2 <> l).
    { intros n2 l2 Hin2. split; [by apply dict_del_elem in Hin2|].
      intros ->. apply (dict_del_elem_ne n (rooms s) n2 l (keys_nodup s Hc) Hin2).
      apply (nodup_values_inj (rooms s) n2 n l (refs_nodup s Hc)); [|done].
      by apply dict_del_elem in Hin2. }
    split; cbn.
    + assert (Hdel : forall (d : list (string * rid)), (length (Dict.del n d) <= length d)%nat).
      { induction d as [|[k v] d IH]; cbn; [done|]. case_decide; cbn; lia. }
      pose proof (Hdel (rooms s)). lia.
    + intros n2 l2 r2 Hin2. destruct (Hother n2 l2 Hin2) as [Hin3 Hne].
      rewrite list_lookup_insert_ne by done. by apply (Hboards n2).
Qed.

Lemma sound_same s s' :
  rooms s' = rooms s ->
  (forall l : rid, board <$> (heap s' !! l) = board <$> (heap s !! l)) ->
  sound s -> sound s'.
Proof.
  intros Hrooms Hheap [Hcap Hboards]. split; [by rewrite Hrooms|].
  rewrite Hrooms. intros n l r' Hin Hl'.
  pose proof (Hheap l) as Hb. rewrite Hl' in Hb. cbn in Hb.
  destruct (heap s !! l) as [r|] eqn:Hl; [|done]. cbn in Hb.
  injection Hb as ->. by apply (Hboards n l r).
Qed.

(** *** Handlers that leave the boards alone *)

Lemma boards_kept_refl s : boards_kept s s [].
Proof. done. Qed.

Lemma boards_kept_trans s s1 s2 (e1 e2 : list event) :
  boards_kept s s1 e1 -> boards_kept s1 s2 e2 -> boards_kept s s2 (e1 ++ e2).
Proof.
  intros [H1 H2] [H3 H4]. split; [congruence|]. intros l. by rewrite H4, H2.
Qed.

Lemma board_kept_refl c : board_kept c c [].
Proof. done. Qed.

Lemma board_kept_trans c c1 c2 (e1 e2 : list event) :
  board_kept c c1 e1 -> board_kept c1 c2 e2 -> board_kept c c2 (e1 ++ e2).
Proof. intros [? ?] [? ?]. split; congruence. Qed.

Lemma board_kept_emit evs : keeps board_kept (emit evs).
Proof. done. Qed.

Lemma board_kept_update f :
  (forall r, board (f r) = board r) -> keeps board_kept (update f).
Proof. intros Hf c. split; [done|]. apply Hf. Qed.

Lemma board_kept_send_each socks message : keeps board_kept (send_each socks message).
Proof.
  induction socks as [|to rest IH].
  - apply (keeps_ret _ board_kept_refl).
  - change (send_each (to :: rest) message)
      with (sendall_member to message ;; send_each rest message).
    apply (keeps_bind _ board_kept_trans); [|intros _; exact IH].
    unfold sendall_member.
    apply (keeps_bind _ board_kept_trans); [apply (keeps_gets _ board_kept_refl)|].
    intros closed_socks. destruct (bool_decide _).
    + apply (keeps_raise _ board_kept_refl).
    + apply board_kept_emit.
Qed.

Ltac board_kept_room :=
  keeps_with board_kept_refl board_kept_trans
    ltac:(first [ apply board_kept_emit | apply board_kept_send_each
                | apply board_kept_update; done ]).

Lemma board_kept_add_player client_sock uname : keeps board_kept (add_player client_sock uname).
Proof. unfold add_player, this. board_kept_room. Qed.

Lemma board_kept_add_viewer client_sock : keeps board_kept (add_viewer client_sock).
Proof. unfold add_viewer, this. board_kept_room. Qed.

Lemma board_kept_start_game : keeps board_kept start_game.
Proof. unfold start_game, this. board_kept_room. Qed.

Lemma boards_kept_emit evs : keeps boards_kept (emit evs).
Proof. done. Qed.

Lemma boards_kept_modify (f : Server -> Server) :
  (forall s, rooms (f s) = rooms s) -> (forall s, heap (f s) = heap s) ->
  keeps boards_kept (modify f).
Proof. intros H1 H2 s. split; [apply H1|]. intros l. cbn. by rewrite H2. Qed.

Lemma boards_kept_call {A} l (m : M RoomCtx A) :
  keeps board_kept m -> keeps boards_kept (call l m).
Proof.
  apply keeps_call; [done|].
  intros s r c evs Hl [Hd Hb]. cbn in Hd, Hb. split; [done|]. intros l2. cbn.
  destruct (decide (l2 = l)) as [->|Hne].
  - rewrite list_lookup_insert_eq by (apply lookup_lt_is_Some_1; by eexists).
    rewrite Hl. cbn. by rewrite Hb.
  - by rewrite list_lookup_insert_ne.
Qed.

Lemma boards_kept_room_at l : keeps boards_kept (room_at l).
Proof. unfold room_at, server. keeps_with boards_kept_refl boards_kept_trans fail. Qed.

Lemma boards_kept_listed_rooms mode refs : keeps boards_kept (listed_rooms mode refs).
Proof.
  induction refs as [|l refs IH]; cbn [listed_rooms];
    keeps_with boards_kept_refl boards_kept_trans
      ltac:(first [ apply boards_kept_room_at | apply IH ]).
Qed.

Ltac boards_kept_server :=
  keeps_with boards_kept_refl boards_kept_trans
    ltac:(first [ apply boards_kept_emit | apply boards_kept_room_at
                | apply boards_kept_listed_rooms
                | apply boards_kept_call;
                  first [ apply board_kept_add_player | apply board_kept_add_viewer
                        | apply board_kept_start_game ]
                | apply boards_kept_modify; done ]).

Lemma boards_kept_handle_login checkpw client_sock args :
  keeps boards_kept (handle_login checkpw client_sock args).
Proof. unfold handle_login, server, sendall. boards_kept_server. Qed.

Lemma boards_kept_handle_register hashpw client_sock args :
  keeps boards_kept (handle_register hashpw client_sock args).
Proof. unfold handle_register, server, sendall. boards_kept_server. Qed.

Lemma boards_kept_handle_roomlist client_sock args :
  keeps boards_kept (handle_roomlist client_sock args).
Proof. unfold handle_roomlist, server, sendall. boards_kept_server. Qed.

Lemma boards_kept_handle_join_room client_sock args :
  keeps boards_kept (handle_join_room client_sock args).
Proof. unfold handle_join_room, server, sendall. boards_kept_server. Qed.

Lemma sound_kept {A} (m : M Server A) s :
  keeps boards_kept m -> sound s -> sound (fst (fst (m s))).
Proof. intros Hm. destruct (Hm s) as [H1 H2]. by apply sound_same. Qed.

(** *** Handlers that change the directory or a board *)

Section CreateSound.

#[local] Arguments Nat.leb : simpl never.

Lemma handle_create_room_sound client_sock args s s' evs :
  consistent s -> sound s ->
  handle_create_room client_sock args s = (s', evs, Ok tt) -> sound s'.
Proof.
  intros Hc Hs.
  destruct (Dict.get client_sock (authenticated_users s)) as [uname|] eqn:Hauth; cycle 1.
  { unfold handle_create_room. run. unfold Dict.has. rewrite Hauth. cbn. by intros [= <- _]. }
  destruct args as [|room_name [|? ?]];
    try (unfold handle_create_room; run; rewrite (dict_has_get _ _ _ Hauth); cbn;
         by intros [= <- _]).
  destruct (room_name_chars_ok room_name) eqn:Hchars; cycle 1.
  { unfold handle_create_room; run; rewrite (dict_has_get _ _ _ Hauth); cbn.
    rewrite Hchars. cbn. by intros [= <- _]. }
  destruct (Dict.has room_name (rooms s)) eqn:Hfree.
  { unfold handle_create_room; run; rewrite (dict_has_get _ _ _ Hauth); cbn.
    rewrite Hchars, Hfree. cbn. by intros [= <- _]. }
  destruct (decide (length (rooms s) < 256)%nat) as [Hsize|Hsize]; cycle 1.
  { unfold handle_create_room; run; rewrite (dict_has_get _ _ _ Hauth); cbn.
    rewrite Hchars, Hfree. cbn.
    replace (256 <=? length (rooms s))%nat with true by (symmetry; apply Nat.leb_le; lia).
    by intros [= <- _]. }
  rewrite (create_room_any_length s client_sock uname room_name) by done.
  intros [= <- _]. destruct Hs as [Hcap Hboards]. split; cbn.
  - rewrite length_app. cbn. lia.
  - intros n l r Hin. apply elem_of_app in Hin as [Hin | Hin].
    + destruct (refs_live s Hc n l Hin) as (r0 & Hr0 & _).
      rewrite lookup_app_l by (apply lookup_lt_is_Some_1; by eexists).
      by apply (Hboards n).
    + apply list_elem_of_singleton in Hin as [= -> ->].
      rewrite list_lookup_middle by done. intros [= <-]. apply open_board_new.
Qed.

End CreateSound.

Lemma call_place_sound client_sock args l s s' evs n r :
  consistent s -> sound s -> (n, l) ∈ rooms s -> heap s !! l = Some r -> live r ->
  call l (place_marker client_sock args) s = (s', evs, Ok tt) -> sound s'.
Proof.
  intros Hc Hs Hin Hl Hlive. unfold call. rewrite Hl.
  destruct (place_marker client_sock args (mkCtx r (rooms s) (closed s)))
    as [[c' evs'] res] eqn:Hrun.
  intros [= <- <- ->]. apply (sound_call s n l r); try done.
  destruct (place_marker_board r (rooms s) (closed s) client_sock args c' evs' Hlive
              (proj2 Hs n l r Hin Hl) Hrun) as [[-> Hopen] | ->]; [by left | by right].
Qed.

Lemma call_forfeit_sound client_sock l s s' evs n r :
  consistent s -> sound s -> (n, l) ∈ rooms s -> heap s !! l = Some r -> live r ->
  call l (forfeit_game client_sock) s = (s', evs, Ok tt) -> sound s'.
Proof.
  intros Hc Hs Hin Hl Hlive. unfold call. rewrite Hl.
  destruct (forfeit_game client_sock (mkCtx r (rooms s) (closed s)))
    as [[c' evs'] res] eqn:Hrun.
  intros [= <- <- ->]. apply (sound_call s n l r); try done.
  right.
  by rewrite (forfeit_game_post r (rooms s) (closed s) client_sock c' evs'
                (proj1 Hlive) Hrun).
Qed.

Lemma handle_place_sound client_sock args s s' evs :
  consistent s -> sound s -> handle_place client_sock args s = (s', evs, Ok tt) -> sound s'.
Proof.
  intros Hc Hs. unfold handle_place. run.
  destruct (Dict.has client_sock (authenticated_users s)); cbn; [|by intros [= <- _]].
  destruct (found_room s client_sock Hc) as (found & -> & Hf). cbn.
  destruct found as [l|]; [|by intros [= <- _]].
  destruct Hf as (n & r & Hin & Hl & Hlive & _).
  destruct (call l _ s) as [[s1 evs1] res1] eqn:Hcall. intros [= <- <- ->].
  by apply (call_place_sound client_sock args l s s1 evs1 n r).
Qed.

Lemma handle_forfeit_sound client_sock s s' evs :
  consistent s -> sound s -> handle_forfeit client_sock s = (s', evs, Ok tt) -> sound s'.
Proof.
  intros Hc Hs. unfold handle_forfeit. run.
  destruct (Dict.has client_sock (authenticated_users s)); cbn; [|by intros [= <- _]].
  destruct (found_room s client_sock Hc) as (found & -> & Hf). cbn.
  destruct found as [l|]; [|by intros [= <- _]].
  destruct Hf as (n & r & Hin & Hl & Hlive & _).
  destruct (call l _ s) as [[s1 evs1] res1] eqn:Hcall. intros [= <- <- ->].
  by apply (call_forfeit_sound client_sock l s s1 evs1 n r).
Qed.

Lemma handle_client_disconnect_sound client_sock s s' evs :
  consistent s -> sound s ->
  handle_client_disconnect client_sock s = (s', evs, Ok tt) -> sound s'.
Proof.
  intros Hc Hs. unfold handle_client_disconnect, close. run.
  destruct (found_room s client_sock Hc) as (found & -> & Hf). cbn.
  destruct found as [l|]; [|by intros [= <- _]].
  destruct Hf as (n & r & Hin & Hl & Hlive & _).
  destruct (call l _ s) as [[s1 evs1] [[]|e]] eqn:Hcall; [|done].
  intros [= <- _].
  apply (sound_same s1); [done | done |].
  by apply (call_forfeit_sound client_sock l s s1 evs1 n r).
Qed.

Section SoundRuns.

Variable checkpw : string -> string -> bool.
Variable hashpw : string -> option string.

Lemma kept_sound (m : M Server unit) s s' evs res :
  keeps boards_kept m -> sound s -> m s = (s', evs, res) -> sound s'.
Proof. intros Hm Hs Hrun. pose proof (sound_kept m s Hm Hs) as H. by rewrite Hrun in H. Qed.

Lemma dispatch_sound client_sock command s s' evs :
  consistent s -> sound s ->
  dispatch checkpw hashpw client_sock command s = (s', evs, Ok tt) -> sound s'.
Proof.
  intros Hc Hs. destruct command as [|keyword args]; [done|]. unfold dispatch.
  destruct (String.eqb keyword "LOGIN");
    [apply kept_sound; [apply boards_kept_handle_login | done]|].
  destruct (String.eqb keyword "REGISTER");
    [apply kept_sound; [apply boards_kept_handle_register | done]|].
  destruct (String.eqb keyword "ROOMLIST");
    [apply kept_sound; [apply boards_kept_handle_roomlist | done]|].
  destruct (String.eqb keyword "CREATE"); [by apply handle_create_room_sound|].
  destruct (String.eqb keyword "JOIN");
    [apply kept_sound; [apply boards_kept_handle_join_room | done]|].
  destruct (String.eqb keyword "PLACE"); [by apply handle_place_sound|].
  destruct (String.eqb keyword "FORFEIT"); [by apply handle_forfeit_sound|].
  run. by intros [= <- _].
Qed.

Lemma handle_client_sound client_sock got s s' evs :
  consistent s -> sound s ->
  handle_client checkpw hashpw client_sock got s = (s', evs, Ok tt) -> sound s'.
Proof.
  intros Hc Hs. destruct got as [[|c data]|]; cbn [handle_client].
  - by apply handle_client_disconnect_sound.
  - destruct (Py.is_ascii _); [by apply dispatch_sound | done].
  - by apply handle_client_disconnect_sound.
Qed.

Lemma runs_to_sound s s' :
  consistent s -> sound s -> runs_to checkpw hashpw s s' -> consistent s' /\ sound s'.
Proof.
  intros Hc Hs. induction 1 as [s | s s1 s2 client_sock got evs Hrun IH Hstep]; [done|].
  destruct (IH Hc Hs) as [Hc1 Hs1]. split.
  - by destruct (handle_client_step checkpw hashpw client_sock got s1 s2 evs Hc1 Hstep).
  - by apply (handle_client_sound client_sock got s1 s2 evs).
Qed.

(** X13: on a server started on any user database, after any number of
    events: the directory never holds more than 256 rooms, and the board
    of every room of the directory has nine cells, each ['0'], ['1'] or
    ['2'], with no line held by either marker and at least one free
    cell. *)
Theorem reachable_boards_open (s : Server) :
  reachable checkpw hashpw s ->
  (length (rooms s) <= 256)%nat
  /\ forall room_name l r, Dict.get room_name (rooms s) = Some l -> heap s !! l = Some r ->
       length (board r) = 9%nat
       /\ (forall cell, cell ∈ board r -> cell = "0" \/ cell = "1" \/ cell = "2")
       /\ ~ fills_triple (board r) "1" /\ ~ fills_triple (board r) "2"
       /\ "0" ∈ board r.
Proof.
  intros [db Hrun].
  assert (Hinit : sound (mkServer db [] [] [] [])).
  { split; [cbn; lia|]. intros n l r Hin. by apply elem_of_nil in Hin. }
  destruct (runs_to_sound _ _ (consistent_init db) Hinit Hrun) as [Hc [Hcap Hboards]].
  split; [done|]. intros room_name l r Hget Hl.
  destruct (Hboards room_name l r (dict_get_elem_inv _ _ _ Hget) Hl)
    as (Hlen & Hcells & Hw1 & Hw2 & Hfull).
  split; [done|]. split; [|split; [|split]].
  - intros cell Hcell. rewrite Forall_forall in Hcells. specialize (Hcells cell Hcell).
    apply elem_of_cons in Hcells as [-> | Hcells]; [by left|].
    apply elem_of_cons in Hcells as [-> | Hcells]; [right; by left|].
    apply list_elem_of_singleton in Hcells as ->. right; by right.
  - intros Hw. apply wins_fills_triple in Hw. congruence.
  - intros Hw. apply wins_fills_triple in Hw. congruence.
  - unfold board_full in Hfull. apply negb_false_iff in Hfull.
    apply existsb_exists in Hfull as (cell & Hin & Heq).
    apply String.eqb_eq in Heq as <-. by apply list_elem_of_In.
Qed.

End SoundRuns.


(** ** ROOMLIST *)

Lemma insert_sorted_perm x l : Py.insert_sorted x l ≡ₚ x :: l.
Proof.
  induction l as [|y l IH]; cbn; [done|].
  destruct (String.leb x y); [done|]. rewrite IH. apply Permutation_swap.
Qed.

Lemma sorted_perm l : Py.sorted l ≡ₚ l.
Proof.
  induction l as [|x l IH]; cbn; [done|].
  unfold Py.sorted in *. cbn. by rewrite insert_sorted_perm, IH.
Qed.

Lemma ascending_cons x y l :
  ascending (x :: y :: l) = String.leb x y && ascending (y :: l).
Proof. reflexivity. Qed.

Lemma ascending_insert x l : ascending l = true -> ascending (Py.insert_sorted x l) = true.
Proof.
  induction l as [|y l IH]; [done|]. intros Hl. cbn [Py.insert_sorted].
  destruct (String.leb x y) eqn:Hxy.
  - by rewrite ascending_cons, Hxy, Hl.
  - assert (Hyx : String.leb y x = true).
    { destruct (String.leb_total x y) as [H|H]; [congruence | done]. }
    destruct l as [|z l].
    + cbn [Py.insert_sorted]. by rewrite ascending_cons, Hyx.
    + rewrite ascending_cons in Hl. apply andb_prop in Hl as [Hyz Hl]. specialize (IH Hl).
      cbn [Py.insert_sorted] in *.
      destruct (String.leb x z) eqn:Hxz.
      * by rewrite ascending_cons, Hyx, IH.
      * by rewrite ascending_cons, Hyz, IH.
Qed.

Lemma ascending_sorted l : ascending (Py.sorted l) = true.
Proof.
  induction l as [|x l IH]; [done|]. unfold Py.sorted in *. cbn.
  by apply ascending_insert.
Qed.

(** The names that [listed_rooms] collects. *)
Lemma listed_rooms_content mode s (d : list (string * rid)) :
  (forall n l, (n, l) ∈ d -> exists r, heap s !! l = Some r /\ name r = n) ->
  exists names,
    listed_rooms mode (Dict.values d) s = (s, [], Ok names)
    /\ (forall n, n ∈ names <->
          exists l r, (n, l) ∈ d /\ heap s !! l = Some r
                      /\ ((mode = "PLAYER" /\ is_full r = false) \/ mode = "VIEWER"))
    /\ (NoDup (Dict.keys d) -> NoDup names).
Proof.
  induction d as [|[n0 l0] d IH]; intros Hd.
  - exists []. split; [done|]. split; [|constructor].
    intros n. split; [by intros ?%elem_of_nil|].
    by intros (l & r & ?%elem_of_nil & _).
  - destruct IH as (names & Hrun & Hnames & Hnodup).
    { intros n l Hin. apply Hd. by right. }
    destruct (Hd n0 l0) as (r0 & Hl0 & Hn0); [by left|].
    set (listed := (String.eqb mode "PLAYER" && negb (is_full r0)) || String.eqb mode "VIEWER").
    exists (if listed then n0 :: names else names).
    assert (Hlisted : listed = true <->
                      (mode = "PLAYER" /\ is_full r0 = false) \/ mode = "VIEWER").
    { unfold listed. rewrite orb_true_iff, andb_true_iff, negb_true_iff, !String.eqb_eq.
      done. }
    split; [|split].
    + cbn. unfold bind. rewrite (room_at_run s l0 r0 Hl0).
      unfold Dict.values in Hrun. rewrite Hrun. fold listed. rewrite Hn0.
      by destruct listed.
    + intros n. split.
      * intros Hin.
        assert (Hcases : (listed = true /\ n = n0) \/ n ∈ names).
        { destruct listed; [|by right].
          apply elem_of_cons in Hin as [-> | Hin]; [by left | by right]. }
        destruct Hcases as [[Hl ->] | Hin'].
        -- exists l0, r0. split; [by left|]. split; [done|]. by apply Hlisted.
        -- apply Hnames in Hin' as (l & r & Hin' & Hl & Hm).
           exists l, r. split; [by right | done].
      * intros (l & r & Hin & Hl & Hm).
        apply elem_of_cons in Hin as [[= -> ->] | Hin].
        -- assert (r = r0) as -> by congruence.
           apply Hlisted in Hm. rewrite Hm. by left.
        -- assert (n ∈ names) by (apply Hnames; by exists l, r).
           destruct listed; [by right | done].
    + cbn. intros [Hn0' Hd']%NoDup_cons. specialize (Hnodup Hd').
      destruct listed; [|done]. apply NoDup_cons. split; [|done].
      intros Hin. apply Hnames in Hin as (l & r & Hin & _).
      apply Hn0'. by apply (elem_of_keys n0 l).
Qed.

(** X14: the answer to ROOMLIST on a consistent server.  With a mode that
    is PLAYER or VIEWER in any letter case, the requester gets status 0
    and the names of the rooms of the directory, for PLAYER those with
    fewer than two players only, for VIEWER all of them: each name once,
    in ascending order of code points, joined by commas.  The server state
    is not changed. *)
Theorem roomlist_content (s : Server) (client_sock : sock) (a : string) :
  consistent s -> Dict.has client_sock (authenticated_users s) = true ->
  is_mode a = true ->
  exists names,
    handle_roomlist client_sock [a] s
    = (s, [Send client_sock ("ROOMLIST:ACKSTATUS:0:" +:+ Py.join "," names +:+ Py.nl)],
       Ok tt)
    /\ ascending names = true /\ NoDup names
    /\ forall room_name,
         room_name ∈ names <->
         exists l r, Dict.get room_name (rooms s) = Some l /\ heap s !! l = Some r
                     /\ (Py.upper a = "PLAYER" -> is_full r = false).
Proof.
  intros Hc Hauth Hmode.
  destruct (listed_rooms_content (Py.upper a) s (rooms s)) as (names & Hrun & Hnames & Hnodup).
  { intros n l Hin. destruct (refs_live s Hc n l Hin) as (r & Hr & Hn & _). by exists r. }
  exists (Py.sorted names). split; [|split; [|split]].
  - unfold handle_roomlist. run. rewrite Hauth. cbn. rewrite Hmode. by rewrite Hrun.
  - apply ascending_sorted.
  - rewrite sorted_perm. apply Hnodup, (keys_nodup s Hc).
  - intros room_name. rewrite sorted_perm, Hnames.
    assert (Hcases : Py.upper a = "PLAYER" \/ Py.upper a = "VIEWER").
    { unfold is_mode in Hmode. apply orb_prop in Hmode as [H|H]; apply String.eqb_eq in H; auto. }
    split; intros (l & r & Hin & Hl & Hm); exists l, r.
    + split; [by apply dict_get_elem; [apply (keys_nodup s Hc)|]|]. split; [done|].
      intros Hp. destruct Hm as [[_ Hm] | Hm]; [done | congruence].
    + split; [by apply dict_get_elem_inv|]. split; [done|].
      destruct Hcases as [Hp | Hv]; [left; auto | by right].
Qed.

Lemma roomlist_content_witness :
  exists names,
    handle_roomlist 3 ["player"] demo_server
    = (demo_server,
       [Send 3%nat ("ROOMLIST:ACKSTATUS:0:" +:+ Py.join "," names +:+ Py.nl)], Ok tt)
    /\ ascending names = true /\ NoDup names
    /\ forall room_name,
         room_name ∈ names <->
         exists l r, Dict.get room_name (rooms demo_server) = Some l
                     /\ heap demo_server !! l = Some r
                     /\ (Py.upper "player" = "PLAYER" -> is_full r = false).
Proof.
  assert (Hc : consistent demo_server).
  { split.
    - repeat constructor. by intros ?%elem_of_nil.
    - repeat constructor. by intros ?%elem_of_nil.
    - intros n l Hin. apply list_elem_of_singleton in Hin as [= -> ->].
      exists demo_room. split; [done|]. split; [done|].
      split; [done|]. split; [done|]. by right.
    - intros n l r p Hin. apply list_elem_of_singleton in Hin as [= -> ->].
      intros [= <-] Hp. cbn in Hp.
      apply elem_of_cons in Hp as [-> | Hp]; [done|].
      by apply list_elem_of_singleton in Hp as ->. }
  exact (roomlist_content demo_server 3 "player" Hc eq_refl eq_refl).
Defined.


(** ** Concrete runs *)

Lemma match_begun_runs :
  runs_to plain_checkpw plain_hashpw fresh_server (state_after match_begun fresh_server).
Proof.
  apply (play_runs_to match_begun fresh_server _ (events_of (play match_begun fresh_server))).
  vm_compute. reflexivity.
Defined.

Lemma nameless_inputs_run :
  runs_to plain_checkpw plain_hashpw fresh_server (state_after nameless_inputs fresh_server).
Proof.
  apply (play_runs_to nameless_inputs fresh_server _
           (events_of (play nameless_inputs fresh_server))).
  vm_compute. reflexivity.
Defined.

Lemma messages_end_with_newline_witness :
  Send 1%nat ("BEGIN:A:B" +:+ Py.nl)
    ∈ events_of (handle_client plain_checkpw plain_hashpw 2 (Data "JOIN:Arena:PLAYER")
                   (state_after [ (1%nat, Data "LOGIN:A:pa"); (2%nat, Data "LOGIN:B:pb");
                                  (1%nat, Data "CREATE:Arena") ] fresh_server))
  /\ ends_with_newline ("BEGIN:A:B" +:+ Py.nl) = true.
Proof.
  assert (Hin : Send 1%nat ("BEGIN:A:B" +:+ Py.nl)
                  ∈ events_of (handle_client plain_checkpw plain_hashpw 2
                                 (Data "JOIN:Arena:PLAYER")
                                 (state_after [ (1%nat, Data "LOGIN:A:pa");
                                                (2%nat, Data "LOGIN:B:pb");
                                                (1%nat, Data "CREATE:Arena") ] fresh_server))).
  { vm_compute. right. left. }
  split; [exact Hin|].
  exact (messages_end_with_newline plain_checkpw plain_hashpw 2 (Data "JOIN:Arena:PLAYER")
           _ 1%nat _ Hin).
Defined.

Lemma accounts_along_runs_witness :
  (exists added,
     user_db (state_after nameless_inputs fresh_server) = user_db fresh_server ++ added)
  /\ NoDup (usernames (user_db (state_after nameless_inputs fresh_server)))
  /\ Dict.has 1%nat (authenticated_users (state_after nameless_inputs fresh_server)) = true.
Proof.
  pose proof (accounts_along_runs plain_checkpw plain_hashpw fresh_server
                (state_after nameless_inputs fresh_server) nameless_inputs_run)
    as (Hgrow & Hnodup & _ & _).
  split; [exact Hgrow|]. split; [|reflexivity].
  apply Hnodup. apply (bool_decide_unpack _). vm_compute. exact I.
Defined.

Lemma reachable_boards_open_witness :
  (length (rooms (state_after nameless_inputs fresh_server)) <= 256)%nat
  /\ forall room_name l r,
       Dict.get room_name (rooms (state_after nameless_inputs fresh_server)) = Some l ->
       heap (state_after nameless_inputs fresh_server) !! l = Some r ->
       length (board r) = 9%nat
       /\ (forall cell, cell ∈ board r -> cell = "0" \/ cell = "1" \/ cell = "2")
       /\ ~ fills_triple (board r) "1" /\ ~ fills_triple (board r) "2"
       /\ "0" ∈ board r.
Proof.
  apply (reachable_boards_open plain_checkpw plain_hashpw).
  exists [mkUser "A" "pa"; mkUser "B" "pb"]. exact nameless_inputs_run.
Defined.

(** ** The rooms of a running server *)

Lemma dict_has_keys {V} (k : sock) (d : list (sock * V)) :
  Dict.has k d = true -> k ∈ Dict.keys d.
Proof.
  unfold Dict.has. induction d as [|[k' v'] d IH]; cbn; [done|].
  destruct (decide (k = k')) as [->|Hne]; [by left|]. intros H. right. by apply IH.
Qed.

(** X15: on a server started on any user database, after any number of
    events, every entry of the directory refers to a room object that
    carries the entry's name, is not finished, and has either one player
    and no turn holder or two players, one of whom holds the turn; the
    players of a room are distinct sockets, all authenticated; and no two
    entries refer to the same object. *)
Theorem reachable_rooms_populated (checkpw : string -> string -> bool)
        (hashpw : string -> option string) (s : Server) (room_name : string) (l : rid) :
  reachable checkpw hashpw s ->
  Dict.get room_name (rooms s) = Some l ->
  exists r,
    heap s !! l = Some r /\ name r = room_name /\ finished r = false
    /\ NoDup (Dict.keys (players r))
    /\ (forall p, has_player r p = true -> Dict.has p (authenticated_users s) = true)
    /\ ((exists a ua, players r = [(a, ua)] /\ current_turn r = None)
        \/ (exists a ua b ub, players r = [(a, ua); (b, ub)]
                              /\ (current_turn r = Some a \/ current_turn r = Some b)))
    /\ forall other_name, Dict.get other_name (rooms s) = Some l -> other_name = room_name.
Proof.
  intros Hreach Hget. pose proof (reachable_consistent checkpw hashpw s Hreach) as Hc.
  pose proof (dict_get_elem_inv _ _ _ Hget) as Hin.
  destruct (refs_live s Hc room_name l Hin) as (r & Hl & Hname & Hf & Hlen & Hcases).
  exists r. split; [done|]. split; [done|]. split; [done|].
  split; [|split; [|split]].
  - destruct Hcases as [(a & ua & Hp & _) | Hprog].
    + rewrite Hp. cbn. apply NoDup_singleton.
    + destruct (in_progress_inv r Hprog) as (a & ua & b & ub & Hp & Hab & _).
      rewrite Hp. cbn. apply NoDup_cons. split; [|apply NoDup_singleton].
      intros Hin'. by apply list_elem_of_singleton in Hin'.
  - intros p Hp. apply (players_known s Hc room_name l r p Hin Hl). by apply dict_has_keys.
  - destruct Hcases as [(a & ua & Hp & Ht) | Hprog].
    + left. by exists a, ua.
    + destruct (in_progress_inv r Hprog) as (a & ua & b & ub & Hp & _ & Ht & _).
      right. by exists a, ua, b, ub.
  - intros other_name Hother.
    apply (nodup_values_inj (rooms s) other_name room_name l (refs_nodup s Hc)); [|done].
    by apply dict_get_elem_inv.
Qed.

Lemma reachable_rooms_populated_witness :
  exists r,
    heap (state_after match_begun fresh_server) !! 0%nat = Some r
    /\ name r = "Arena" /\ finished r = false
    /\ NoDup (Dict.keys (players r))
    /\ (forall p, has_player r p = true ->
                  Dict.has p (authenticated_users (state_after match_begun fresh_server)) = true)
    /\ ((exists a ua, players r = [(a, ua)] /\ current_turn r = None)
        \/ (exists a ua b ub, players r = [(a, ua); (b, ub)]
                              /\ (current_turn r = Some a \/ current_turn r = Some b)))
    /\ forall other_name,
         Dict.get other_name (rooms (state_after match_begun fresh_server)) = Some 0%nat ->
         other_name = "Arena".
Proof.
  apply (reachable_rooms_populated plain_checkpw plain_hashpw
           (state_after match_begun fresh_server) "Arena" 0%nat); [|reflexivity].
  exists [mkUser "A" "pa"; mkUser "B" "pb"]. exact match_begun_runs.
Defined.

(** ** The winning lines *)

(** X16: [check_winner] on a board of nine cells returns, never raises, and
    is true exactly when the marker holds the three cells of a row, of a
    column or of one of the two diagonals, the cell of row [j] and column
    [i] being [j * 3 + i]. *)
Theorem check_winner_lines (r : Room) (marker : string) :
  length (board r) = 9%nat ->
  exists won,
    check_winner r marker = Ok won
    /\ (won = true <->
        (exists row, (row < 3)%nat
                     /\ forall col, (col < 3)%nat ->
                                    board r !! (row * 3 + col)%nat = Some marker)
        \/ (exists col, (col < 3)%nat
                        /\ forall row, (row < 3)%nat ->
                                       board r !! (row * 3 + col)%nat = Some marker)
        \/ (forall i, (i < 3)%nat -> board r !! (i * 3 + i)%nat = Some marker)
        \/ (forall i, (i < 3)%nat -> board r !! (i * 3 + (2 - i))%nat = Some marker)).
Proof.
  intros Hlen. exists (wins (board r) marker). split; [by apply check_winner_wins|].
  rewrite wins_fills_triple. unfold fills_triple.
  destruct win_positions_lines as [_ Hlines]. split.
  - intros (line & Hin & Hall). apply Hlines in Hin as [(row & Hrow & ->) | [(col & Hcol & ->) | [-> | ->]]].
    + left. exists row. split; [done|]. intros col Hcol. apply Hall.
      destruct col as [|[|[|?]]]; [| | |lia].
      * rewrite Nat.add_0_r. by left.
      * right. by left.
      * right. right. by left.
    + right. left. exists col. split; [done|]. intros row Hrow. apply Hall.
      destruct row as [|[|[|?]]]; [| | |lia]; cbn.
      * by left.
      * right. by left.
      * right. right. by left.
    + right. right. left. intros i Hi. apply Hall.
      destruct i as [|[|[|?]]]; [| | |lia]; cbn.
      * by left.
      * right. by left.
      * right. right. by left.
    + right. right. right. intros i Hi. apply Hall.
      destruct i as [|[|[|?]]]; [| | |lia]; cbn.
      * by left.
      * right. by left.
      * right. right. by left.
  - intros [(row & Hrow & Hall) | [(col & Hcol & Hall) | [Hall | Hall]]].
    + exists [row * 3; row * 3 + 1; row * 3 + 2]%nat. split.
      * apply Hlines. left. by exists row.
      * intros i Hi.
        apply elem_of_cons in Hi as [-> | Hi]; [rewrite <- (Nat.add_0_r (row * 3)); apply Hall; lia|].
        apply elem_of_cons in Hi as [-> | Hi]; [apply Hall; lia|].
        apply list_elem_of_singleton in Hi as ->. apply Hall; lia.
    + exists [col; 3 + col; 6 + col]%nat. split.
      * apply Hlines. right. left. by exists col.
      * intros i Hi.
        apply elem_of_cons in Hi as [-> | Hi]; [apply (Hall 0%nat); lia|].
        apply elem_of_cons in Hi as [-> | Hi]; [apply (Hall 1%nat); lia|].
        apply list_elem_of_singleton in Hi as ->. apply (Hall 2%nat); lia.
    + exists [0; 4; 8]%nat. split.
      * apply Hlines. right. right. by left.
      * intros i Hi.
        apply elem_of_cons in Hi as [-> | Hi]; [apply (Hall 0%nat); lia|].
        apply elem_of_cons in Hi as [-> | Hi]; [apply (Hall 1%nat); lia|].
        apply list_elem_of_singleton in Hi as ->. apply (Hall 2%nat); lia.
    + exists [2; 4; 6]%nat. split.
      * apply Hlines. right. right. by right.
      * intros i Hi.
        apply elem_of_cons in Hi as [-> | Hi]; [apply (Hall 0%nat); lia|].
        apply elem_of_cons in Hi as [-> | Hi]; [apply (Hall 1%nat); lia|].
        apply list_elem_of_singleton in Hi as ->. apply (Hall 2%nat); lia.
Qed.

Lemma check_winner_lines_witness :
  exists won,
    check_winner named_room "1" = Ok won
    /\ (won = true <->
        (exists row, (row < 3)%nat
                     /\ forall col, (col < 3)%nat ->
                                    board named_room !! (row * 3 + col)%nat = Some "1")
        \/ (exists col, (col < 3)%nat
                        /\ forall row, (row < 3)%nat ->
                                       board named_room !! (row * 3 + col)%nat = Some "1")
        \/ (forall i, (i < 3)%nat -> board named_room !! (i * 3 + i)%nat = Some "1")
        \/ (forall i, (i < 3)%nat -> board named_room !! (i * 3 + (2 - i))%nat = Some "1")).
Proof. exact (check_winner_lines named_room "1" eq_refl). Defined.

(** ** FORFEIT and disconnection *)




Lemma finished_room_stays_out_witness :
  heap (state_after (match_begun ++ [(2%nat, Data "FORFEIT"); (1%nat, Data "CREATE:Arena");
                                     (2%nat, Data "JOIN:Arena:PLAYER")]) fresh_server) !! 0%nat
  = Some (mkRoom "Arena" [] [] (replicate 9 "0") (Some 1%nat) true None)
  /\ (0%nat ∉ Dict.values
                (rooms (state_after (match_begun ++ [(2%nat, Data "FORFEIT");
                                                     (1%nat, Data "CREATE:Arena");
                                                     (2%nat, Data "JOIN:Arena:PLAYER")])
                                    fresh_server))).
Proof.
  assert (Hc : consistent (state_after (match_begun ++ [(2%nat, Data "FORFEIT")]) fresh_server)).
  { apply (state_after_consistent (match_begun ++ [(2%nat, Data "FORFEIT")])
             (events_of (play (match_begun ++ [(2%nat, Data "FORFEIT")]) fresh_server))).
    vm_compute. reflexivity. }
  assert (Hrun : runs_to plain_checkpw plain_hashpw
                   (state_after (match_begun ++ [(2%nat, Data "FORFEIT")]) fresh_server)
                   (state_after (match_begun ++ [(2%nat, Data "FORFEIT");
                                                 (1%nat, Data "CREATE:Arena");
                                                 (2%nat, Data "JOIN:Arena:PLAYER")])
                                fresh_server)).
  { apply (play_runs_to [(1%nat, Data "CREATE:Arena"); (2%nat, Data "JOIN:Arena:PLAYER")] _ _
             (events_of (play [(1%nat, Data "CREATE:Arena"); (2%nat, Data "JOIN:Arena:PLAYER")]
                           (state_after (match_begun ++ [(2%nat, Data "FORFEIT")])
                                        fresh_server)))).
    vm_compute. reflexivity. }
  exact (finished_room_stays_out plain_checkpw plain_hashpw _ _ 0%nat
           (mkRoom "Arena" [] [] (replicate 9 "0") (Some 1%nat) true None)
           Hc Hrun eq_refl eq_refl).
Defined.


(** * The client on the messages of the server *)

Section ClientServer.

Variable checkpw : string -> string -> bool.
Variable hashpw : string -> option string.

(** X18: what the client makes of the refusals and acknowledgements of the
    server, a message being received alone in a chunk.  The server ends
    every message with a newline and the client compares the status field
    and the whole message as they arrive, so for an acknowledgement of
    LOGIN, REGISTER, CREATE or JOIN no comparison of the status succeeds
    and nothing is printed; no message equals BADAUTH or NOROOM, and the
    two messages are printed back as received. *)
Theorem client_on_refusals (client_sock : sock) (got : recv) (s : Server) (to : sock)
        (message : string) (cl : Client.Globals) :
  Send to message ∈ events_of (handle_client checkpw hashpw client_sock got s) ->
  (is_acknowledgement message = true ->
   Client.handle_response message cl = (cl, [], Ok tt))
  /\ message <> "BADAUTH" /\ message <> "NOROOM"
  /\ (message = "BADAUTH" +:+ Py.nl \/ message = "NOROOM" +:+ Py.nl ->
      Client.handle_response message cl = (cl, ["Received: " +:+ message], Ok tt)).
Proof.
  intros Hin.
  pose proof (handle_client_speaks checkpw hashpw client_sock got s to message Hin) as Hmsg.
  pose proof (server_message_newline message Hmsg) as Hnl.
  split; [|split; [|split]].
  - destruct Hmsg as [m Hm | names | p1 p2 | t o | bs | bs winner forfeit].
    + unfold literal_messages in Hm.
      repeat (apply elem_of_cons in Hm as [-> | Hm]; [by vm_compute|]).
      by apply elem_of_nil in Hm.
    + intros Hack. exfalso. revert Hack. by vm_compute.
    + intros Hack. exfalso. revert Hack. by vm_compute.
    + intros Hack. exfalso. revert Hack. by vm_compute.
    + intros Hack. exfalso. revert Hack. by vm_compute.
    + intros Hack. exfalso. revert Hack. unfold game_end_message.
      destruct forfeit; [by vm_compute|]. destruct (truthy winner); by vm_compute.
  - by intros ->.
  - by intros ->.
  - by intros [-> | ->].
Qed.

End ClientServer.

Lemma client_on_refusals_witness :
  Client.handle_response ("LOGIN:ACKSTATUS:0" +:+ Py.nl)
    (Client.mkGlobals None false false false false)
  = (Client.mkGlobals None false false false false, [], Ok tt).
Proof.
  assert (Hin : Send 1%nat ("LOGIN:ACKSTATUS:0" +:+ Py.nl)
                  ∈ events_of (handle_client plain_checkpw plain_hashpw 1
                                 (Data "LOGIN:A:pa") fresh_server)).
  { vm_compute. left. }
  exact (proj1 (client_on_refusals plain_checkpw plain_hashpw 1 (Data "LOGIN:A:pa")
                  fresh_server 1%nat _ (Client.mkGlobals None false false false false) Hin)
               eq_refl).
Defined.

Lemma prefix_app (p rest : string) : String.prefix p (p +:+ rest) = true.
Proof.
  induction p as [|c p IH]; [by destruct rest|].
  rewrite append_cons. cbn. by destruct (ascii_dec c c).
Qed.

(** Decides the tests [response.startswith(p)] on a message whose first
    characters are known. *)
Ltac prefixes :=
  repeat match goal with
         | |- context [String.prefix ?p (?p +:+ ?rest)] => rewrite (prefix_app p rest)
         | |- context [String.prefix ?p ?m] =>
             let b := eval vm_compute in (String.prefix p m) in
             match b with
             | false => change (String.prefix p m) with false
             end
         end.

Lemma colon_free_newline field : colon_free field = true -> colon_free (field +:+ Py.nl) = true.
Proof. intros H. unfold colon_free in *. by rewrite all_chars_app, H. Qed.

(** X19: the client decodes the GAMEEND message that [broadcast_game_end]
    writes, when neither the board string nor the winner's name holds a
    colon: it prints the outcome, then the closing line, and sets
    [game_ended].  A win and a forfeit print the winner's name followed by
    the newline that ends the message, which the client does not strip; a
    draw is recognised because [int] accepts the trailing newline. *)
Theorem game_end_decoded (board_status : string) (winner : option string)
        (forfeit : bool) (cl : Client.Globals) :
  colon_free board_status = true -> colon_free (fmt winner) = true ->
  Client.handle_response (game_end_message board_status winner forfeit) cl
  = (Client.set_game_end_received (Client.set_game_ended cl),
     [ (if forfeit
        then "Game ended. " +:+ (fmt winner +:+ Py.nl)
             +:+ " won due to the opposing player forfeiting."
        else if truthy winner
             then "Game ended. " +:+ (fmt winner +:+ Py.nl) +:+ " won!"
             else "Game ended in a draw.");
       "Game has ended. You can start a new game or quit." ],
     Ok tt).
Proof.
  intros Hboard Hwinner. pose proof (colon_free_newline _ Hwinner) as Hlast.
  unfold colon_free in *.
  unfold game_end_message. destruct forfeit; [|destruct (truthy winner)].
  - unfold Client.handle_response. prefixes. cbv iota.
    change ("GAMEEND:" +:+ board_status +:+ ":2:" +:+ fmt winner +:+ Py.nl)
      with ("GAMEEND" +:+ String ":" (board_status +:+ String ":"
              ("2" +:+ String ":" (fmt winner +:+ Py.nl)))).
    rewrite (split_field "GAMEEND") by done. rewrite (split_field board_status) by done.
    rewrite (split_field "2") by done. rewrite (split_last (fmt winner +:+ Py.nl)) by done.
    cbn. replace (Py.int "2") with (Some 2%Z) by reflexivity. done.
  - unfold Client.handle_response. prefixes. cbv iota.
    change ("GAMEEND:" +:+ board_status +:+ ":0:" +:+ fmt winner +:+ Py.nl)
      with ("GAMEEND" +:+ String ":" (board_status +:+ String ":"
              ("0" +:+ String ":" (fmt winner +:+ Py.nl)))).
    rewrite (split_field "GAMEEND") by done. rewrite (split_field board_status) by done.
    rewrite (split_field "0") by done. rewrite (split_last (fmt winner +:+ Py.nl)) by done.
    cbn. replace (Py.int "0") with (Some 0%Z) by reflexivity. done.
  - unfold Client.handle_response. prefixes. cbv iota.
    change ("GAMEEND:" +:+ board_status +:+ ":1" +:+ Py.nl)
      with ("GAMEEND" +:+ String ":" (board_status +:+ String ":" ("1" +:+ Py.nl))).
    rewrite (split_field "GAMEEND") by done. rewrite (split_field board_status) by done.
    rewrite (split_last ("1" +:+ Py.nl)) by done.
    cbn. replace (Py.int ("1" +:+ Py.nl)) with (Some 1%Z) by reflexivity. done.
Qed.

Lemma game_end_decoded_witness :
  Client.handle_response ("GAMEEND:111020002:0:A" +:+ Py.nl)
    (Client.mkGlobals None false false false false)
  = (Client.mkGlobals None true false false true,
     [ "Game ended. A" +:+ Py.nl +:+ " won!";
       "Game has ended. You can start a new game or quit." ], Ok tt).
Proof.
  exact (game_end_decoded "111020002" (Some "A") false
           (Client.mkGlobals None false false false false) eq_refl eq_refl).
Defined.

Lemma length_remove_char (c : ascii) (s : string) :
  String.length (Client.remove_char c s)
  = length (List.filter (fun d => negb (Ascii.eqb d c)) (list_ascii_of_string s)).
Proof.
  induction s as [|d s IH]; [done|]. cbn. destruct (Ascii.eqb d c); cbn; by rewrite IH.
Qed.

Lemma succ_mod_2 (n : nat) : Nat.eqb (S n mod 2) 0 = Nat.odd n.
Proof.
  destruct (Nat.odd n) eqn:Hodd.
  - apply Nat.eqb_eq. apply Nat.odd_spec in Hodd as [k ->].
    replace (S (2 * k + 1)) with ((k + 1) * 2)%nat by lia. apply Nat.Div0.mod_mul.
  - apply Nat.eqb_neq. intros Hmod.
    assert (Heven : Nat.even n = true) by (by rewrite <- Nat.negb_odd, Hodd).
    apply Nat.even_spec in Heven as [k ->].
    replace (S (2 * k)) with (1 + k * 2)%nat in Hmod by lia.
    rewrite Nat.Div0.mod_add in Hmod. done.
Qed.

(** X20: what the client prints for the BOARDSTATUS message of a board of
    nine one-character cells, none a colon: the heading, the three rows
    with free cells shown as blanks, two separator lines, and for a client
    that is not a viewer one line about the turn.  That line is computed
    from the message alone, so every player is shown the same one: the
    client counts the characters of the board field other than ['0'], the
    newline that ends the message among them, and prints "It is your turn."
    exactly when the number of marked cells is odd. *)
Theorem board_status_rendered (r : Room) (c0 c1 c2 c3 c4 c5 c6 c7 c8 : ascii)
        (cl : Client.Globals) :
  board r = map (fun c => String c EmptyString) [c0; c1; c2; c3; c4; c5; c6; c7; c8] ->
  Forall (fun c => c <> ":"%char) [c0; c1; c2; c3; c4; c5; c6; c7; c8] ->
  let shown c := if Ascii.eqb c "0" then " " else String c EmptyString in
  let row a b c := " " +:+ (shown a +:+ " | " +:+ shown b +:+ " | " +:+ shown c) +:+ " " in
  let marked := length (List.filter (fun c => negb (Ascii.eqb c "0"))
                                    [c0; c1; c2; c3; c4; c5; c6; c7; c8]) in
  Client.handle_response (board_message r) cl
  = (cl,
     [ "Current board status:";
       row c0 c1 c2; "-----------"; row c3 c4 c5; "-----------"; row c6 c7 c8 ]
     ++ (if Client.is_viewer cl then []
         else [ if Nat.odd marked then Py.nl +:+ "It is your turn."
                else Py.nl +:+ "It is the opposing player's turn." ]),
     Ok tt).
Proof.
  intros Hboard Hcells shown row marked.
  set (cells := [c0; c1; c2; c3; c4; c5; c6; c7; c8]) in *.
  set (field := string_of_list_ascii cells +:+ Py.nl).
  assert (Hmsg : board_message r = "BOARDSTATUS" +:+ String ":" field).
  { unfold board_message. by rewrite Hboard. }
  assert (Hfree : Py.all_chars (fun c => negb (Ascii.eqb c ":")) field = true).
  { unfold field. rewrite all_chars_app. apply andb_true_intro. split; [|done].
    clear -Hcells. induction Hcells as [|c cs Hc _ IH]; [done|].
    cbn. rewrite IH, andb_true_r. apply negb_true_iff. by apply Ascii.eqb_neq. }
  assert (Hturn : Client.turn_line field
                  = if Nat.odd marked then Py.nl +:+ "It is your turn."
                    else Py.nl +:+ "It is the opposing player's turn.").
  { unfold Client.turn_line. rewrite length_remove_char.
    replace (length (List.filter (fun d => negb (Ascii.eqb d "0")) (list_ascii_of_string field)))
      with (S marked); [by rewrite succ_mod_2|].
    unfold field, marked. clear.
    induction cells as [|c cs IH]; [done|].
    cbn [string_of_list_ascii]. rewrite append_cons. cbn [list_ascii_of_string List.filter].
    destruct (negb (Ascii.eqb c "0")); cbn [length]; by rewrite IH. }
  rewrite Hmsg. unfold Client.handle_response.
  change ("BOARDSTATUS" +:+ String ":" field) with ("BOARDSTATUS:" +:+ field) at 1 2 3 4 5 6.
  prefixes. cbv iota.
  rewrite (split_field "BOARDSTATUS") by done. rewrite (split_last field) by done.
  cbn [lookup list_lookup]. rewrite Hturn. reflexivity.
Qed.

Lemma board_status_rendered_witness :
  Client.handle_response (board_message demo_room)
    (Client.mkGlobals None false false false false)
  = (Client.mkGlobals None false false false false,
     [ "Current board status:";
       " 1 | 2 |   "; "-----------"; "   |   |   "; "-----------"; "   |   |   ";
       Py.nl +:+ "It is the opposing player's turn." ],
     Ok tt).
Proof.
  assert (Hcells : Forall (fun c => c <> ":"%char)
                          ["1"; "2"; "0"; "0"; "0"; "0"; "0"; "0"; "0"]%char)
    by (repeat constructor; discriminate).
  exact (board_status_rendered demo_room "1" "2" "0" "0" "0" "0" "0" "0" "0"
           (Client.mkGlobals None false false false false) eq_refl Hcells).
Defined.

(** ** PLACE, from the keyboard to the board *)




